(** * Orders page of the order-management client: model and properties

    Shallow embedding of [src/components/OrdersPage.tsx] (the handlers of the
    orders page, the displayed list and the debounced search effect) together
    with the helper [getErrorMessage] of the Supabase client module.

    Conventions of the embedding
    - A JavaScript [number] is an IEEE-754 double, a [spec_float] of the
      Standard Library at precision 53; [+] is its addition, rounded to the
      nearest double.  The text of a number ([Number::toString]) is the
      language's and is taken as given.
    - A [string] is the sequence of its UTF-8 bytes.
    - An optional member ([x?: T], possibly [undefined] or [null]) is an
      [option]; where the code tells [null] from [undefined], the order lists
      the members that are [null].
    - The remote store, the clock and the identity service are not part of
      the repository: every awaited remote call receives its reply from an
      environment, and each handler returns the list of effects it performs,
      in order. *)

From Stdlib Require Import ZArith NArith List String Ascii Bool Lia.
From Stdlib Require Import DecimalString Permutation Sorting.Sorted SpecFloat.
Import ListNotations.

Local Open Scope string_scope.
Local Open Scope list_scope.
Local Open Scope Z_scope.

(* ------------------------------------------------------------------ *)
(** ** JavaScript values used by the page *)

(** [!!s] for a string: the empty string is falsy. *)
Definition truthy (s : string) : bool := negb (s =? "")%string.

(** Truthiness of an optional string member. *)
Definition truthy_opt (s : option string) : bool :=
  match s with Some v => truthy v | None => false end.

(** [x || fallback] on an optional string. *)
Definition or_else (s : option string) (fallback : string) : string :=
  match s with
  | Some v => if truthy v then v else fallback
  | None => fallback
  end.

(** A [number]: an IEEE-754 double. *)
Definition Number : Type := spec_float.

(** The double nearest to a whole number; it is the number itself up to
    2^53 in magnitude. *)
Definition number_of_Z (z : Z) : Number := binary_normalize 53 1024 z 0 false.
Coercion number_of_Z : Z >-> Number.

(** [x + y] on numbers. *)
Definition js_add (x y : Number) : Number := SFadd 53 1024 x y.

(** [x / y] on numbers. *)
Definition js_div (x y : Number) : Number := SFdiv 53 1024 x y.

(** [x === y] on numbers: [NaN] equals nothing, and the two zeros are
    equal. *)
Definition js_eq (x y : Number) : bool := SFeqb x y.

(** Neither [NaN] nor an infinity. *)
Definition is_finite (x : Number) : bool :=
  match x with
  | S754_zero _ | S754_finite _ _ _ => true
  | S754_infinity _ | S754_nan => false
  end.

(** [Number(x) || 0] on an optional number: [undefined], [null] and [NaN]
    all give 0, and so do the two zeros. *)
Definition number_or_0 (x : option Number) : Number :=
  match x with
  | None => S754_zero false
  | Some S754_nan => S754_zero false
  | Some (S754_zero _) => S754_zero false
  | Some v => v
  end.

(** [String.prototype.includes]. *)
Definition includes (needle s : string) : bool :=
  match index 0 needle s with Some _ => true | None => false end.

(** The text of a number in a template literal, [Number::toString]: the
    shortest decimal text that reads back as the number, in exponent form
    from 1e21 on.  The algorithm is the language's, not the repository's;
    it is a parameter of the development. *)
Class NumberText : Type := number_to_string : Number -> string.

(** White space: the characters that [String.prototype.trim] removes and
    that the class [\s] of a regular expression matches (WhiteSpace and
    LineTerminator of the language): U+0009 to U+000D, U+0020, U+00A0,
    U+1680, U+2000 to U+200A, U+2028, U+2029, U+202F, U+205F, U+3000 and
    U+FEFF.  In UTF-8 they take one, two or three bytes. *)
Definition space1 (a : ascii) : bool :=
  let x := nat_of_ascii a in
  ((9 <=? x) && (x <=? 13))%nat || (x =? 32)%nat.

(** U+00A0 is C2 A0. *)
Definition space2 (a b : ascii) : bool :=
  ((nat_of_ascii a =? 194) && (nat_of_ascii b =? 160))%nat.

Definition space3 (a b c : ascii) : bool :=
  let x := nat_of_ascii a in
  let y := nat_of_ascii b in
  let z := nat_of_ascii c in
  ((x =? 225) && (y =? 154) && (z =? 128)                  (* U+1680 *)
   || (x =? 226) && (y =? 128)
      && ((128 <=? z) && (z <=? 138)              (* U+2000 to U+200A *)
          || (z =? 168) || (z =? 169)               (* U+2028, U+2029 *)
          || (z =? 175))                                   (* U+202F *)
   || (x =? 226) && (y =? 129) && (z =? 159)               (* U+205F *)
   || (x =? 227) && (y =? 128) && (z =? 128)               (* U+3000 *)
   || (x =? 239) && (y =? 187) && (z =? 191))%nat.         (* U+FEFF *)

(** The number of bytes of the white-space character [s] starts with; 0
    when it starts with none. *)
Definition space_length (s : string) : nat :=
  match s with
  | String a (String b (String c _)) =>
      if space1 a then 1 else if space2 a b then 2
      else if space3 a b c then 3 else 0
  | String a (String b EmptyString) =>
      if space1 a then 1 else if space2 a b then 2 else 0
  | String a EmptyString => if space1 a then 1 else 0
  | EmptyString => 0
  end%nat.

(** [s] starts with a white-space character. *)
Definition starts_with_space (s : string) : bool :=
  negb (space_length s =? 0)%nat.

(** [s] is made of white-space characters only. *)
Fixpoint all_space (s : string) : bool :=
  match s with
  | EmptyString => true
  | String a r1 =>
      if space1 a then all_space r1
      else match r1 with
           | EmptyString => false
           | String b r2 =>
               if space2 a b then all_space r2
               else match r2 with
                    | EmptyString => false
                    | String c r3 => space3 a b c && all_space r3
                    end
           end
  end.

(** Truthiness of [s.trim()]: some character is not white space. *)
Definition trim_truthy (s : string) : bool := negb (all_space s).

Definition lower_ascii (c : ascii) : ascii :=
  let n := nat_of_ascii c in
  if ((65 <=? n) && (n <=? 90))%nat then ascii_of_nat (n + 32) else c.

(** [String.prototype.toLowerCase] on the ASCII letters. *)
Fixpoint toLowerCase (s : string) : string :=
  match s with
  | EmptyString => EmptyString
  | String c rest => String (lower_ascii c) (toLowerCase rest)
  end.

(* ------------------------------------------------------------------ *)
(** ** Order status *)

(** Modelled from the spec: the enum [OrderStatus] of [../types], which is
    not under [src/].  Section 4.1 of the specification lists its seven
    members in the order of forward progression. *)
Inductive OrderStatus : Type :=
| NEW
| ORDERED
| SHIPPED_FROM_STORE
| ARRIVED_AT_OFFICE
| STORED
| OUT_FOR_DELIVERY
| COMPLETED.

Definition all_statuses : list OrderStatus :=
  [NEW; ORDERED; SHIPPED_FROM_STORE; ARRIVED_AT_OFFICE; STORED;
   OUT_FOR_DELIVERY; COMPLETED].

(** The string each member of the enum evaluates to at run time.  The
    declaration is not under [src/], so the values are a parameter of the
    development; the [status] column of an order row is a plain [string]
    ([DBOrder.status]). *)
Class StatusValues : Type := statusValue : OrderStatus -> string.

(** Modelled from the spec: the values written as the specification
    writes the literals of section 4.1. *)
Definition specLiterals : StatusValues := fun s =>
  match s with
  | NEW => "NEW"
  | ORDERED => "ORDERED"
  | SHIPPED_FROM_STORE => "SHIPPED_FROM_STORE"
  | ARRIVED_AT_OFFICE => "ARRIVED_AT_OFFICE"
  | STORED => "STORED"
  | OUT_FOR_DELIVERY => "OUT_FOR_DELIVERY"
  | COMPLETED => "COMPLETED"
  end.

(** The members of the enum have pairwise distinct values. *)
Definition distinct_values (V : StatusValues) : Prop :=
  forall s t : OrderStatus, statusValue s = statusValue t -> s = t.

(** [target] is the value of some member of the enum. *)
Definition in_enum {V : StatusValues} (target : string) : bool :=
  existsb (fun s => (statusValue s =? target)%string) all_statuses.

(* ------------------------------------------------------------------ *)
(** ** Orders *)

(** One element of the [history] array of an order. *)
Record HistoryEntry : Type := mkEntry {
  timestamp : string;
  activity : string;
  user : option string
}.

(** The optional members of an order that [handleSaveOrder] copies into
    its payload. *)
Inductive OptionalMember : Type :=
| m_globalOrderId
| m_priceInMRU
| m_commission
| m_amountPaid
| m_paymentMethod
| m_transportMode
| m_productLinks
| m_productImages
| m_receiptImages
| m_notes
| m_originCenter.

Definition OptionalMember_eqb (a b : OptionalMember) : bool :=
  match a, b with
  | m_globalOrderId, m_globalOrderId
  | m_priceInMRU, m_priceInMRU
  | m_commission, m_commission
  | m_amountPaid, m_amountPaid
  | m_paymentMethod, m_paymentMethod
  | m_transportMode, m_transportMode
  | m_productLinks, m_productLinks
  | m_productImages, m_productImages
  | m_receiptImages, m_receiptImages
  | m_notes, m_notes
  | m_originCenter, m_originCenter => true
  | _, _ => false
  end.

(** An order, as the page holds it ([Order] of [../types]) and as the
    [Orders] table stores it ([DBOrder]); the column of a member is its name
    in snake case ([amountPaid] is [amount_paid]).  The members are those the
    handlers read or write.  A member that is [None] is [undefined], or
    [null] when [nullMembers] lists it: a row read from the store has [null]
    for an empty column. *)
#[projections(primitive)]
Record Order : Type := mkOrder {
  id : string;
  localOrderId : string;
  globalOrderId : option string;
  clientId : string;
  storeId : string;
  price : Number;
  currency : string;
  priceInMRU : option Number;
  commission : option Number;
  quantity : Number;
  amountPaid : option Number;
  paymentMethod : option string;
  shippingType : string;
  transportMode : option string;
  orderDate : string;
  expectedArrivalDate : string;
  productLinks : option (list string);
  productImages : option (list string);
  receiptImages : option (list string);
  notes : option string;
  status : string;
  originCenter : option string;
  history : option (list HistoryEntry);
  trackingNumber : option string;
  weight : option Number;
  shippingCost : option Number;
  storageLocation : option string;
  arrivalDateAtOffice : option string;
  storageDate : option string;
  withdrawalDate : option string;
  orderImages : option (list string);
  trackingImages : option (list string);
  weighingImages : option (list string);
  hubArrivalImages : option (list string);
  localDeliveryCost : option Number;
  transactionFee : option Number;
  whatsappNotificationSent : bool;
  isInvoicePrinted : bool;
  nullMembers : list OptionalMember
}.

(** [order.history || []]. *)
Definition history_or_empty (o : Order) : list HistoryEntry :=
  match history o with Some h => h | None => [] end.

(** One entry of an update or insert payload: a column of [Orders] and the
    value sent for it, or [null] for the column of an optional member.  A
    payload is the list of its entries, in the order they are written in the
    object literal.  No handler sends [id]. *)
Inductive Assign : Type :=
| Col_local_order_id (v : string)
| Col_global_order_id (v : string)
| Col_client_id (v : string)
| Col_store_id (v : string)
| Col_price (v : Number)
| Col_currency (v : string)
| Col_price_in_mru (v : Number)
| Col_commission (v : Number)
| Col_quantity (v : Number)
| Col_amount_paid (v : Number)
| Col_payment_method (v : string)
| Col_shipping_type (v : string)
| Col_transport_mode (v : string)
| Col_order_date (v : string)
| Col_expected_arrival_date (v : string)
| Col_product_links (v : list string)
| Col_product_images (v : list string)
| Col_receipt_images (v : list string)
| Col_notes (v : string)
| Col_status (v : string)
| Col_origin_center (v : string)
| Col_history (v : list HistoryEntry)
| Col_tracking_number (v : string)
| Col_weight (v : Number)
| Col_shipping_cost (v : Number)
| Col_storage_location (v : string)
| Col_arrival_date_at_office (v : string)
| Col_storage_date (v : string)
| Col_withdrawal_date (v : string)
| Col_order_images (v : list string)
| Col_tracking_images (v : list string)
| Col_weighing_images (v : list string)
| Col_hub_arrival_images (v : list string)
| Col_local_delivery_cost (v : Number)
| Col_transaction_fee (v : Number)
| Col_whatsapp_notification_sent (v : bool)
| Col_is_invoice_printed (v : bool)
| Col_null (m : OptionalMember).

(** The row after one column is assigned; [fN] is the N-th member of
    [Order] in declaration order, counted from 0.  A column set to [null]
    is empty, and reads back as [null]. *)
Definition assign (a : Assign) (o : Order) : Order :=
  let '(mkOrder f0 f1 f2 f3 f4 f5 f6 f7 f8 f9 f10 f11 f12 f13 f14 f15 f16 f17
      f18 f19 f20 f21 f22 f23 f24 f25 f26 f27 f28 f29 f30 f31 f32 f33 f34 f35
      f36 f37 f38) := o in
  match a with
  | Col_local_order_id v => mkOrder f0 v f2 f3 f4 f5 f6 f7 f8 f9 f10 f11 f12
      f13 f14 f15 f16 f17 f18 f19 f20 f21 f22 f23 f24 f25 f26 f27 f28 f29 f30
      f31 f32 f33 f34 f35 f36 f37 f38
  | Col_global_order_id v => mkOrder f0 f1 (Some v) f3 f4 f5 f6 f7 f8 f9 f10
      f11 f12 f13 f14 f15 f16 f17 f18 f19 f20 f21 f22 f23 f24 f25 f26 f27 f28
      f29 f30 f31 f32 f33 f34 f35 f36 f37 f38
  | Col_client_id v => mkOrder f0 f1 f2 v f4 f5 f6 f7 f8 f9 f10 f11 f12 f13
      f14 f15 f16 f17 f18 f19 f20 f21 f22 f23 f24 f25 f26 f27 f28 f29 f30 f31
      f32 f33 f34 f35 f36 f37 f38
  | Col_store_id v => mkOrder f0 f1 f2 f3 v f5 f6 f7 f8 f9 f10 f11 f12 f13 f14
      f15 f16 f17 f18 f19 f20 f21 f22 f23 f24 f25 f26 f27 f28 f29 f30 f31 f32
      f33 f34 f35 f36 f37 f38
  | Col_price v => mkOrder f0 f1 f2 f3 f4 v f6 f7 f8 f9 f10 f11 f12 f13 f14
      f15 f16 f17 f18 f19 f20 f21 f22 f23 f24 f25 f26 f27 f28 f29 f30 f31 f32
      f33 f34 f35 f36 f37 f38
  | Col_currency v => mkOrder f0 f1 f2 f3 f4 f5 v f7 f8 f9 f10 f11 f12 f13 f14
      f15 f16 f17 f18 f19 f20 f21 f22 f23 f24 f25 f26 f27 f28 f29 f30 f31 f32
      f33 f34 f35 f36 f37 f38
  | Col_price_in_mru v => mkOrder f0 f1 f2 f3 f4 f5 f6 (Some v) f8 f9 f10 f11
      f12 f13 f14 f15 f16 f17 f18 f19 f20 f21 f22 f23 f24 f25 f26 f27 f28 f29
      f30 f31 f32 f33 f34 f35 f36 f37 f38
  | Col_commission v => mkOrder f0 f1 f2 f3 f4 f5 f6 f7 (Some v) f9 f10 f11
      f12 f13 f14 f15 f16 f17 f18 f19 f20 f21 f22 f23 f24 f25 f26 f27 f28 f29
      f30 f31 f32 f33 f34 f35 f36 f37 f38
  | Col_quantity v => mkOrder f0 f1 f2 f3 f4 f5 f6 f7 f8 v f10 f11 f12 f13 f14
      f15 f16 f17 f18 f19 f20 f21 f22 f23 f24 f25 f26 f27 f28 f29 f30 f31 f32
      f33 f34 f35 f36 f37 f38
  | Col_amount_paid v => mkOrder f0 f1 f2 f3 f4 f5 f6 f7 f8 f9 (Some v) f11
      f12 f13 f14 f15 f16 f17 f18 f19 f20 f21 f22 f23 f24 f25 f26 f27 f28 f29
      f30 f31 f32 f33 f34 f35 f36 f37 f38
  | Col_payment_method v => mkOrder f0 f1 f2 f3 f4 f5 f6 f7 f8 f9 f10 (Some v)
      f12 f13 f14 f15 f16 f17 f18 f19 f20 f21 f22 f23 f24 f25 f26 f27 f28 f29
      f30 f31 f32 f33 f34 f35 f36 f37 f38
  | Col_shipping_type v => mkOrder f0 f1 f2 f3 f4 f5 f6 f7 f8 f9 f10 f11 v f13
      f14 f15 f16 f17 f18 f19 f20 f21 f22 f23 f24 f25 f26 f27 f28 f29 f30 f31
      f32 f33 f34 f35 f36 f37 f38
  | Col_transport_mode v => mkOrder f0 f1 f2 f3 f4 f5 f6 f7 f8 f9 f10 f11 f12
      (Some v) f14 f15 f16 f17 f18 f19 f20 f21 f22 f23 f24 f25 f26 f27 f28 f29
      f30 f31 f32 f33 f34 f35 f36 f37 f38
  | Col_order_date v => mkOrder f0 f1 f2 f3 f4 f5 f6 f7 f8 f9 f10 f11 f12 f13
      v f15 f16 f17 f18 f19 f20 f21 f22 f23 f24 f25 f26 f27 f28 f29 f30 f31
      f32 f33 f34 f35 f36 f37 f38
  | Col_expected_arrival_date v => mkOrder f0 f1 f2 f3 f4 f5 f6 f7 f8 f9 f10
      f11 f12 f13 f14 v f16 f17 f18 f19 f20 f21 f22 f23 f24 f25 f26 f27 f28
      f29 f30 f31 f32 f33 f34 f35 f36 f37 f38
  | Col_product_links v => mkOrder f0 f1 f2 f3 f4 f5 f6 f7 f8 f9 f10 f11 f12
      f13 f14 f15 (Some v) f17 f18 f19 f20 f21 f22 f23 f24 f25 f26 f27 f28 f29
      f30 f31 f32 f33 f34 f35 f36 f37 f38
  | Col_product_images v => mkOrder f0 f1 f2 f3 f4 f5 f6 f7 f8 f9 f10 f11 f12
      f13 f14 f15 f16 (Some v) f18 f19 f20 f21 f22 f23 f24 f25 f26 f27 f28 f29
      f30 f31 f32 f33 f34 f35 f36 f37 f38
  | Col_receipt_images v => mkOrder f0 f1 f2 f3 f4 f5 f6 f7 f8 f9 f10 f11 f12
      f13 f14 f15 f16 f17 (Some v) f19 f20 f21 f22 f23 f24 f25 f26 f27 f28 f29
      f30 f31 f32 f33 f34 f35 f36 f37 f38
  | Col_notes v => mkOrder f0 f1 f2 f3 f4 f5 f6 f7 f8 f9 f10 f11 f12 f13 f14
      f15 f16 f17 f18 (Some v) f20 f21 f22 f23 f24 f25 f26 f27 f28 f29 f30 f31
      f32 f33 f34 f35 f36 f37 f38
  | Col_status v => mkOrder f0 f1 f2 f3 f4 f5 f6 f7 f8 f9 f10 f11 f12 f13 f14
      f15 f16 f17 f18 f19 v f21 f22 f23 f24 f25 f26 f27 f28 f29 f30 f31 f32
      f33 f34 f35 f36 f37 f38
  | Col_origin_center v => mkOrder f0 f1 f2 f3 f4 f5 f6 f7 f8 f9 f10 f11 f12
      f13 f14 f15 f16 f17 f18 f19 f20 (Some v) f22 f23 f24 f25 f26 f27 f28 f29
      f30 f31 f32 f33 f34 f35 f36 f37 f38
  | Col_history v => mkOrder f0 f1 f2 f3 f4 f5 f6 f7 f8 f9 f10 f11 f12 f13 f14
      f15 f16 f17 f18 f19 f20 f21 (Some v) f23 f24 f25 f26 f27 f28 f29 f30 f31
      f32 f33 f34 f35 f36 f37 f38
  | Col_tracking_number v => mkOrder f0 f1 f2 f3 f4 f5 f6 f7 f8 f9 f10 f11 f12
      f13 f14 f15 f16 f17 f18 f19 f20 f21 f22 (Some v) f24 f25 f26 f27 f28 f29
      f30 f31 f32 f33 f34 f35 f36 f37 f38
  | Col_weight v => mkOrder f0 f1 f2 f3 f4 f5 f6 f7 f8 f9 f10 f11 f12 f13 f14
      f15 f16 f17 f18 f19 f20 f21 f22 f23 (Some v) f25 f26 f27 f28 f29 f30 f31
      f32 f33 f34 f35 f36 f37 f38
  | Col_shipping_cost v => mkOrder f0 f1 f2 f3 f4 f5 f6 f7 f8 f9 f10 f11 f12
      f13 f14 f15 f16 f17 f18 f19 f20 f21 f22 f23 f24 (Some v) f26 f27 f28 f29
      f30 f31 f32 f33 f34 f35 f36 f37 f38
  | Col_storage_location v => mkOrder f0 f1 f2 f3 f4 f5 f6 f7 f8 f9 f10 f11
      f12 f13 f14 f15 f16 f17 f18 f19 f20 f21 f22 f23 f24 f25 (Some v) f27 f28
      f29 f30 f31 f32 f33 f34 f35 f36 f37 f38
  | Col_arrival_date_at_office v => mkOrder f0 f1 f2 f3 f4 f5 f6 f7 f8 f9 f10
      f11 f12 f13 f14 f15 f16 f17 f18 f19 f20 f21 f22 f23 f24 f25 f26 (Some v)
      f28 f29 f30 f31 f32 f33 f34 f35 f36 f37 f38
  | Col_storage_date v => mkOrder f0 f1 f2 f3 f4 f5 f6 f7 f8 f9 f10 f11 f12
      f13 f14 f15 f16 f17 f18 f19 f20 f21 f22 f23 f24 f25 f26 f27 (Some v) f29
      f30 f31 f32 f33 f34 f35 f36 f37 f38
  | Col_withdrawal_date v => mkOrder f0 f1 f2 f3 f4 f5 f6 f7 f8 f9 f10 f11 f12
      f13 f14 f15 f16 f17 f18 f19 f20 f21 f22 f23 f24 f25 f26 f27 f28 (Some v)
      f30 f31 f32 f33 f34 f35 f36 f37 f38
  | Col_order_images v => mkOrder f0 f1 f2 f3 f4 f5 f6 f7 f8 f9 f10 f11 f12
      f13 f14 f15 f16 f17 f18 f19 f20 f21 f22 f23 f24 f25 f26 f27 f28 f29
      (Some v) f31 f32 f33 f34 f35 f36 f37 f38
  | Col_tracking_images v => mkOrder f0 f1 f2 f3 f4 f5 f6 f7 f8 f9 f10 f11 f12
      f13 f14 f15 f16 f17 f18 f19 f20 f21 f22 f23 f24 f25 f26 f27 f28 f29 f30
      (Some v) f32 f33 f34 f35 f36 f37 f38
  | Col_weighing_images v => mkOrder f0 f1 f2 f3 f4 f5 f6 f7 f8 f9 f10 f11 f12
      f13 f14 f15 f16 f17 f18 f19 f20 f21 f22 f23 f24 f25 f26 f27 f28 f29 f30
      f31 (Some v) f33 f34 f35 f36 f37 f38
  | Col_hub_arrival_images v => mkOrder f0 f1 f2 f3 f4 f5 f6 f7 f8 f9 f10 f11
      f12 f13 f14 f15 f16 f17 f18 f19 f20 f21 f22 f23 f24 f25 f26 f27 f28 f29
      f30 f31 f32 (Some v) f34 f35 f36 f37 f38
  | Col_local_delivery_cost v => mkOrder f0 f1 f2 f3 f4 f5 f6 f7 f8 f9 f10 f11
      f12 f13 f14 f15 f16 f17 f18 f19 f20 f21 f22 f23 f24 f25 f26 f27 f28 f29
      f30 f31 f32 f33 (Some v) f35 f36 f37 f38
  | Col_transaction_fee v => mkOrder f0 f1 f2 f3 f4 f5 f6 f7 f8 f9 f10 f11 f12
      f13 f14 f15 f16 f17 f18 f19 f20 f21 f22 f23 f24 f25 f26 f27 f28 f29 f30
      f31 f32 f33 f34 (Some v) f36 f37 f38
  | Col_whatsapp_notification_sent v => mkOrder f0 f1 f2 f3 f4 f5 f6 f7 f8 f9
      f10 f11 f12 f13 f14 f15 f16 f17 f18 f19 f20 f21 f22 f23 f24 f25 f26 f27
      f28 f29 f30 f31 f32 f33 f34 f35 v f37 f38
  | Col_is_invoice_printed v => mkOrder f0 f1 f2 f3 f4 f5 f6 f7 f8 f9 f10 f11
      f12 f13 f14 f15 f16 f17 f18 f19 f20 f21 f22 f23 f24 f25 f26 f27 f28 f29
      f30 f31 f32 f33 f34 f35 f36 v f38
  | Col_null m =>
      match m with
      | m_globalOrderId => mkOrder f0 f1 None f3 f4 f5 f6 f7 f8 f9 f10 f11 f12
          f13 f14 f15 f16 f17 f18 f19 f20 f21 f22 f23 f24 f25 f26 f27 f28 f29
          f30 f31 f32 f33 f34 f35 f36 f37 (m_globalOrderId :: f38)
      | m_priceInMRU => mkOrder f0 f1 f2 f3 f4 f5 f6 None f8 f9 f10 f11 f12
          f13 f14 f15 f16 f17 f18 f19 f20 f21 f22 f23 f24 f25 f26 f27 f28 f29
          f30 f31 f32 f33 f34 f35 f36 f37 (m_priceInMRU :: f38)
      | m_commission => mkOrder f0 f1 f2 f3 f4 f5 f6 f7 None f9 f10 f11 f12
          f13 f14 f15 f16 f17 f18 f19 f20 f21 f22 f23 f24 f25 f26 f27 f28 f29
          f30 f31 f32 f33 f34 f35 f36 f37 (m_commission :: f38)
      | m_amountPaid => mkOrder f0 f1 f2 f3 f4 f5 f6 f7 f8 f9 None f11 f12 f13
          f14 f15 f16 f17 f18 f19 f20 f21 f22 f23 f24 f25 f26 f27 f28 f29 f30
          f31 f32 f33 f34 f35 f36 f37 (m_amountPaid :: f38)
      | m_paymentMethod => mkOrder f0 f1 f2 f3 f4 f5 f6 f7 f8 f9 f10 None f12
          f13 f14 f15 f16 f17 f18 f19 f20 f21 f22 f23 f24 f25 f26 f27 f28 f29
          f30 f31 f32 f33 f34 f35 f36 f37 (m_paymentMethod :: f38)
      | m_transportMode => mkOrder f0 f1 f2 f3 f4 f5 f6 f7 f8 f9 f10 f11 f12
          None f14 f15 f16 f17 f18 f19 f20 f21 f22 f23 f24 f25 f26 f27 f28 f29
          f30 f31 f32 f33 f34 f35 f36 f37 (m_transportMode :: f38)
      | m_productLinks => mkOrder f0 f1 f2 f3 f4 f5 f6 f7 f8 f9 f10 f11 f12
          f13 f14 f15 None f17 f18 f19 f20 f21 f22 f23 f24 f25 f26 f27 f28 f29
          f30 f31 f32 f33 f34 f35 f36 f37 (m_productLinks :: f38)
      | m_productImages => mkOrder f0 f1 f2 f3 f4 f5 f6 f7 f8 f9 f10 f11 f12
          f13 f14 f15 f16 None f18 f19 f20 f21 f22 f23 f24 f25 f26 f27 f28 f29
          f30 f31 f32 f33 f34 f35 f36 f37 (m_productImages :: f38)
      | m_receiptImages => mkOrder f0 f1 f2 f3 f4 f5 f6 f7 f8 f9 f10 f11 f12
          f13 f14 f15 f16 f17 None f19 f20 f21 f22 f23 f24 f25 f26 f27 f28 f29
          f30 f31 f32 f33 f34 f35 f36 f37 (m_receiptImages :: f38)
      | m_notes => mkOrder f0 f1 f2 f3 f4 f5 f6 f7 f8 f9 f10 f11 f12 f13 f14
          f15 f16 f17 f18 None f20 f21 f22 f23 f24 f25 f26 f27 f28 f29 f30 f31
          f32 f33 f34 f35 f36 f37 (m_notes :: f38)
      | m_originCenter => mkOrder f0 f1 f2 f3 f4 f5 f6 f7 f8 f9 f10 f11 f12
          f13 f14 f15 f16 f17 f18 f19 f20 None f22 f23 f24 f25 f26 f27 f28 f29
          f30 f31 f32 f33 f34 f35 f36 f37 (m_originCenter :: f38)
      end
  end.

(** The row after a whole payload is applied, one column after the other. *)
Definition apply_payload (p : list Assign) (o : Order) : Order :=
  fold_left (fun row a => assign a row) p o.

(** An entry copied under [if (payload.x !== undefined)]. *)
Definition optional {A : Type} (col : A -> Assign) (x : option A) : list Assign :=
  match x with Some v => [col v] | None => [] end.

(** An entry of an object literal for an optional member of an order: when
    the payload is serialised an [undefined] member is dropped, so no column
    is sent for it, and a [null] member is sent as [null]. *)
Definition nullable {A : Type} (m : OptionalMember) (col : A -> Assign)
    (o : Order) (x : option A) : list Assign :=
  match x with
  | Some v => [col v]
  | None =>
      if existsb (OptionalMember_eqb m) (nullMembers o) then [Col_null m]
      else []
  end.

(** The row the store creates for an insert before the payload is applied:
    the generated primary key and empty columns. *)
Definition blank_order (newId : string) : Order :=
  mkOrder newId "" None "" "" 0 "" None None 0 None None "" None "" "" None
    None None None "" None None None None None None None None None None None
    None None None None false false
    [m_globalOrderId; m_priceInMRU; m_commission; m_amountPaid;
     m_paymentMethod; m_transportMode; m_productLinks; m_productImages;
     m_receiptImages; m_notes; m_originCenter].

(* ------------------------------------------------------------------ *)
(** ** Other records *)

(** [details] of a confirmed payment ([PaymentModal]'s [onConfirm]). *)
Module Details.
Record t : Type := mk {
  amountPaid : Number;
  paymentMethod : string;
  receiptImages : option (list string);
  localDeliveryCost : Number;
  transactionFee : Number
}.
End Details.

(** A row of the [OrderPayments] ledger, as [handlePaymentConfirm] inserts
    it. *)
Module Payment.
Record t : Type := mk {
  order_id : string;
  amount : Number;
  payment_method : string;
  receipt_images : option (list string);
  created_by : string;
  notes : string
}.
End Payment.

(** The [Partial<Order>] passed to [handleUpdateOrderStatus]: the members
    the handler looks at.  [status] is statically an [OrderStatus]; at run
    time it is the string the caller put there. *)
Module Payload.
Record t : Type := mk {
  status : option string;
  globalOrderId : option string;
  trackingNumber : option string;
  weight : option Number;
  shippingCost : option Number;
  storageLocation : option string;
  arrivalDateAtOffice : option string;
  storageDate : option string;
  withdrawalDate : option string;
  orderImages : option (list string);
  trackingImages : option (list string);
  weighingImages : option (list string);
  hubArrivalImages : option (list string);
  originCenter : option string;
  shippingType : option string;
  localDeliveryCost : option Number
}.

(** A payload that carries a target status and nothing else. *)
Definition only_status (target : string) : t :=
  mk (Some target) None None None None None None None None None None None
     None None None None.
End Payload.

Module Client.
Record t : Type := mk {
  id : string;
  name : string;
  phone : string;
  whatsappNumber : option string
}.
End Client.

Record User : Type := mkUser {
  username : string;
  email : string
}.

(* ------------------------------------------------------------------ *)
(** ** Messages and errors *)

(** The fixed Arabic texts of the page and of [getErrorMessage], by what
    they say. *)
Inductive FixedText : Type :=
| OrderUpdatedText          (* handleSaveOrder, existing order *)
| OrderAddedText            (* handleSaveOrder, new order *)
| StatusUpdatedText         (* handleUpdateOrderStatus *)
| PaymentRegisteredText     (* handlePaymentConfirm *)
| WhatsappOpenedText        (* handleNotificationConfirm *)
| InvoiceUpdatedText        (* handleInvoiceSent *)
| RevertDoneText            (* handleRevertStatus *)
| WrongPasswordText         (* handleDeleteOrder, failed sign-in *)
| OrderDeletedText          (* handleDeleteOrder *)
| ConnectionFailedText      (* getErrorMessage, failed to fetch *)
| DatabaseNotReadyText.     (* getErrorMessage, missing relation *)

Inductive Text : Type :=
| Fixed (t : FixedText)
| Plain (s : string).

Inductive ToastKind : Type := success | error.

(** A value that is thrown or returned as the [error] member of a reply. *)
Inductive JsError : Type :=
| ErrorInstance (message : Text)
    (* [new Error(message)] *)
| ErrorString (s : string)
| ErrorObject (message error_description details hint : option string)
              (json : string).
    (* an error object of the client library; [json] is what
       [JSON.stringify] gives for it *)

(** The value tested by [if (error) throw error]: [null] and the empty
    string are falsy. *)
Definition raised (e : option JsError) : option JsError :=
  match e with
  | Some (ErrorString s) => if truthy s then e else None
  | _ => e
  end.

(** [getErrorMessage] of the Supabase client module. *)
Definition getErrorMessage (e : option JsError) : Text :=
  match raised e with
  | None => Plain "Unknown error"
  | Some (ErrorInstance message) => message
  | Some (ErrorString s) =>
      let lower := toLowerCase s in
      if includes "failed to fetch" lower then Fixed ConnectionFailedText
      else if includes "relation" lower && includes "does not exist" lower
           then Fixed DatabaseNotReadyText
      else Plain s
  | Some (ErrorObject message error_description details hint json) =>
      if truthy_opt message then Plain (or_else message "")
      else if truthy_opt error_description
           then Plain (or_else error_description "")
      else if truthy_opt details then Plain (or_else details "")
      else if truthy_opt hint then Plain (or_else hint "")
      else if (json =? "{}")%string then Plain "Unknown Error (Empty Object)"
      else Plain json
  end.

(* ------------------------------------------------------------------ *)
(** ** Remote requests, effects, environment *)

(** [.eq(column, value)]. *)
Inductive Filter : Type :=
| eq_id (value : string)
| eq_local_order_id (value : string).

Inductive Request : Type :=
| Orders_insert (payload : list Assign)
| Orders_update (payload : list Assign) (flt : Filter)
| Orders_delete (flt : Filter)
| OrderPayments_insert (row : Payment.t)
| Auth_signInWithPassword (email password : string).

(** What an awaited request resolves to: its [error] member ([None] for
    [null]) and, for an insert, the primary key the store generated. *)
Record Reply : Type := mkReply {
  reply_error : option JsError;
  generated_id : string
}.

Definition ok : Reply := mkReply None "".
Definition created (newId : string) : Reply := mkReply None newId.
Definition failed (e : JsError) : Reply := mkReply (Some e) "".

Inductive Effect : Type :=
| Call (req : Request) (reply : Reply)
| ShowToast (text : Text) (kind : ToastKind)
| SetOrders (f : list Order -> list Order)
| SetSearchResults (f : option (list Order) -> option (list Order))
| SetSelectedOrder (o : option Order)
| SetIsSaving (b : bool)
| SetFormModalOpen (b : bool)
| SetStatusModalOpen (b : bool)
| SetIsPaymentModalOpen (b : bool)
| SetIsNotificationModalOpen (b : bool)
| SetIsDeleteModalOpen (b : bool)
| WindowOpen (url : string).

(** What a handler closes over and cannot change: the client library, the
    clock, the signed-in user and the reference data. *)
Record Env : Type := mkEnv {
  supabase : bool;
    (* the client was created ([supabase !== null]) *)
  net : Request -> Reply;
    (* the reply the remote side gives to each request *)
  now : string;
    (* [new Date().toISOString()] *)
  currentUser : option User;
  clients : list Client.t;
  whatsappTemplates : option (string -> option string);
    (* [settings.whatsappTemplates], by language *)
  companyName : string
}.

(** [currentUser?.username]. *)
Definition currentUsername (env : Env) : option string :=
  option_map username (currentUser env).

(** The state of the page the handlers read and set. *)
#[projections(primitive)]
Record Page : Type := mkPage {
  orders : list Order;
  searchResults : option (list Order);
  selectedOrder : option Order;
  isSaving : bool;
  isFormModalOpen : bool;
  isStatusModalOpen : bool;
  isPaymentModalOpen : bool;
  isNotificationModalOpen : bool;
  isDeleteModalOpen : bool;
  toasts : list (Text * ToastKind);
  windows : list string
}.

(** The remote tables the page writes. *)
Record Remote : Type := mkRemote {
  Orders : list Order;
  OrderPayments : list Payment.t
}.

(** The link opened by [handleNotificationConfirm] (template substitution,
    rounding for display and URL encoding, lines 268 to 290) is text shown
    to a person; it is taken as given, from the order, the client, the
    language, the template and the company name. *)
Class WhatsappLink : Type :=
  whatsappUrl : Order -> Client.t -> string -> string -> string -> string.

(** [a.localeCompare(b, undefined, { numeric: true, sensitivity: 'base' })]:
    the collation of the host, negative, zero or positive. *)
Class Collator : Type := localeCompare : string -> string -> Z.

(* ------------------------------------------------------------------ *)
(** ** Handlers as effectful computations *)

(** A computation inside [try]: the effects performed so far and either the
    thrown value or the result. *)
Definition Task (A : Type) : Type := (list Effect * (JsError + A))%type.

Definition ret {A : Type} (a : A) : Task A := ([], inr a).

Definition bind {A B : Type} (m : Task A) (k : A -> Task B) : Task B :=
  match m with
  | (es, inl e) => (es, inl e)
  | (es, inr a) => let (es', r) := k a in (es ++ es', r)
  end.

Definition throw {A : Type} (e : JsError) : Task A := ([], inl e).

Definition emit (eff : Effect) : Task unit := ([eff], inr tt).

(** [await] of a request: the call is performed and its [error] member is
    returned. *)
Definition await (env : Env) (req : Request) : Task (option JsError) :=
  ([Call req (net env req)], inr (reply_error (net env req))).

(** [if (error) throw error]. *)
Definition throw_if (e : option JsError) : Task unit :=
  match raised e with Some x => throw x | None => ret tt end.

(** [try { body } catch (e) { handler e }]. *)
Definition try_catch {A : Type} (body : Task A)
    (handler : JsError -> list Effect * A) : list Effect * A :=
  match body with
  | (es, inl e) => let (es', a) := handler e in (es ++ es', a)
  | (es, inr a) => (es, a)
  end.

Declare Scope task_scope.
Delimit Scope task_scope with task.
Notation "x <- m ;; k" := (bind m (fun x => k))
  (at level 61, m at next level, right associativity) : task_scope.
Notation "m ;; k" := (bind m (fun _ => k))
  (at level 61, right associativity) : task_scope.
Local Open Scope task_scope.

Definition showToast (text : Text) (kind : ToastKind) : Task unit :=
  emit (ShowToast text kind).

(** The [catch] block shared by the handlers that return nothing. *)
Definition toast_error (e : JsError) : list Effect * unit :=
  ([ShowToast (getErrorMessage (Some e)) error], tt).

(** [orders.find(o => o.id === orderId)]. *)
Definition find_order (orderId : string) (l : list Order) : option Order :=
  find (fun o => (id o =? orderId)%string) l.

(** An entry copied under [if (payload.x)] for a string member. *)
Definition if_truthy (col : string -> Assign) (x : option string) : list Assign :=
  match x with
  | Some v => if truthy v then [col v] else []
  | None => []
  end.

(** *** handleSaveOrder (lines 149 to 188) *)

Definition saveOrderEntry (env : Env) (orderData : Order) : HistoryEntry :=
  mkEntry (now env)
          (if truthy (id orderData) then "Updated Order" else "Created Order")
          (currentUsername env).

Definition saveOrderPayload (env : Env) (orderData : Order) : list Assign :=
  [Col_local_order_id (localOrderId orderData)]
  ++ nullable m_globalOrderId Col_global_order_id orderData (globalOrderId orderData)
  ++ [Col_client_id (clientId orderData);
      Col_store_id (storeId orderData);
      Col_price (price orderData);
      Col_currency (currency orderData)]
  ++ nullable m_priceInMRU Col_price_in_mru orderData (priceInMRU orderData)
  ++ nullable m_commission Col_commission orderData (commission orderData)
  ++ [Col_quantity (quantity orderData)]
  ++ nullable m_amountPaid Col_amount_paid orderData (amountPaid orderData)
  ++ nullable m_paymentMethod Col_payment_method orderData (paymentMethod orderData)
  ++ [Col_shipping_type (shippingType orderData)]
  ++ nullable m_transportMode Col_transport_mode orderData (transportMode orderData)
  ++ [Col_order_date (orderDate orderData);
      Col_expected_arrival_date (expectedArrivalDate orderData)]
  ++ nullable m_productLinks Col_product_links orderData (productLinks orderData)
  ++ nullable m_productImages Col_product_images orderData (productImages orderData)
  ++ nullable m_receiptImages Col_receipt_images orderData (receiptImages orderData)
  ++ nullable m_notes Col_notes orderData (notes orderData)
  ++ [Col_status (status orderData)]
  ++ nullable m_originCenter Col_origin_center orderData (originCenter orderData)
  ++ [Col_history (history_or_empty orderData ++ [saveOrderEntry env orderData])].

Definition saveOrderRequest (env : Env) (orderData : Order) : Request :=
  if truthy (id orderData)
  then Orders_update (saveOrderPayload env orderData) (eq_id (id orderData))
  else Orders_insert (saveOrderPayload env orderData).

Definition handleSaveOrder (env : Env) (orderData : Order) : list Effect :=
  if negb (supabase env) then [] else
  [SetIsSaving true]
  ++ fst (try_catch
            (res_error <- await env (saveOrderRequest env orderData) ;;
             throw_if res_error ;;
             showToast (Fixed (if truthy (id orderData)
                               then OrderUpdatedText else OrderAddedText))
                       success ;;
             emit (SetFormModalOpen false))
            toast_error)
  ++ [SetIsSaving false].

(** *** handleUpdateOrderStatus (lines 190 to 225) *)

Definition statusChangeEntry (env : Env) (payload : Payload.t) : HistoryEntry :=
  mkEntry (now env)
          ("Status changed to " ++ or_else (Payload.status payload) "Updated")%string
          (currentUsername env).

Definition statusChangePayload (env : Env) (page : Page) (orderId : string)
    (payload : Payload.t) : list Assign :=
  let order := find_order orderId (orders page) in
  if_truthy Col_status (Payload.status payload)
  ++ if_truthy Col_global_order_id (Payload.globalOrderId payload)
  ++ if_truthy Col_tracking_number (Payload.trackingNumber payload)
  ++ optional Col_weight (Payload.weight payload)
  ++ optional Col_shipping_cost (Payload.shippingCost payload)
  ++ if_truthy Col_storage_location (Payload.storageLocation payload)
  ++ if_truthy Col_arrival_date_at_office (Payload.arrivalDateAtOffice payload)
  ++ if_truthy Col_storage_date (Payload.storageDate payload)
  ++ if_truthy Col_withdrawal_date (Payload.withdrawalDate payload)
  ++ optional Col_order_images (Payload.orderImages payload)
  ++ optional Col_tracking_images (Payload.trackingImages payload)
  ++ optional Col_weighing_images (Payload.weighingImages payload)
  ++ optional Col_hub_arrival_images (Payload.hubArrivalImages payload)
  ++ if_truthy Col_origin_center (Payload.originCenter payload)
  ++ if_truthy Col_shipping_type (Payload.shippingType payload)
  ++ optional Col_local_delivery_cost (Payload.localDeliveryCost payload)
  ++ [Col_history
        (match order with Some o => history_or_empty o | None => [] end
         ++ [statusChangeEntry env payload])].

(** [.eq(orderId.includes('-') ? 'id' : 'local_order_id', orderId)]. *)
Definition statusChangeFilter (orderId : string) : Filter :=
  if includes "-" orderId then eq_id orderId else eq_local_order_id orderId.

Definition statusChangeRequest (env : Env) (page : Page) (orderId : string)
    (payload : Payload.t) : Request :=
  Orders_update (statusChangePayload env page orderId payload)
                (statusChangeFilter orderId).

Definition handleUpdateOrderStatus (env : Env) (page : Page) (orderId : string)
    (payload : Payload.t) : list Effect :=
  if negb (supabase env) then [] else
  fst (try_catch
         (err <- await env (statusChangeRequest env page orderId payload) ;;
          throw_if err ;;
          showToast (Fixed StatusUpdatedText) success ;;
          emit (SetStatusModalOpen false))
         toast_error).

(** *** handlePaymentConfirm (lines 227 to 257) *)

Definition paymentUser (env : Env) : string :=
  or_else (currentUsername env) "System".

Definition paymentLedgerRequest (env : Env) (selected : Order)
    (details : Details.t) : Request :=
  OrderPayments_insert
    (Payment.mk (id selected)
                (Details.amountPaid details)
                (Details.paymentMethod details)
                (Details.receiptImages details)
                (paymentUser env)
                "Manual Update from Card").

Definition paymentEntry {T : NumberText} (env : Env) (details : Details.t)
    : HistoryEntry :=
  mkEntry (now env)
          ("Registered payment: "
           ++ number_to_string (Details.amountPaid details) ++ " MRU")%string
          (Some (paymentUser env)).

Definition paymentOrderRequest {T : NumberText} (env : Env) (selected : Order)
    (details : Details.t) : Request :=
  let newTotalPaid :=
    js_add (number_or_0 (amountPaid selected)) (Details.amountPaid details) in
  Orders_update
    [Col_amount_paid newTotalPaid;
     Col_local_delivery_cost (Details.localDeliveryCost details);
     Col_transaction_fee
       (js_add (number_or_0 (transactionFee selected))
               (Details.transactionFee details));
     Col_history (history_or_empty selected ++ [paymentEntry env details])]
    (eq_id (id selected)).

Definition handlePaymentConfirm {T : NumberText} (env : Env) (page : Page)
    (orderId : string) (details : Details.t) : list Effect :=
  match supabase env, selectedOrder page with
  | true, Some selected =>
      fst (try_catch
             (payError <- await env (paymentLedgerRequest env selected details) ;;
              throw_if payError ;;
              orderError <- await env (paymentOrderRequest env selected details) ;;
              throw_if orderError ;;
              showToast (Fixed PaymentRegisteredText) success ;;
              emit (SetIsPaymentModalOpen false))
             toast_error)
  | _, _ => []
  end.

(** *** handleNotificationConfirm (lines 259 to 308) *)

(** [settings.whatsappTemplates?.[lang] || settings.whatsappTemplates?.['ar']]. *)
Definition notificationTemplate (env : Env) (lang : string) : option string :=
  match whatsappTemplates env with
  | None => None
  | Some templates =>
      if truthy_opt (templates lang) then templates lang else templates "ar"
  end.

Definition notificationEntry (env : Env) (lang : string) : HistoryEntry :=
  mkEntry (now env)
          ("WhatsApp Alert sent (" ++ lang ++ ")")%string
          (Some (or_else (currentUsername env) "System")).

Definition notificationRequest (env : Env) (selected : Order) (lang : string)
    : Request :=
  Orders_update
    [Col_whatsapp_notification_sent true;
     Col_history (history_or_empty selected ++ [notificationEntry env lang])]
    (eq_id (id selected)).

Definition handleNotificationConfirm {W : WhatsappLink} (env : Env)
    (page : Page) (lang : string) : list Effect :=
  match selectedOrder page, supabase env with
  | Some selected, true =>
      match find (fun c => (Client.id c =? clientId selected)%string)
                 (clients env) with
      | None => []
      | Some client =>
          fst (try_catch
                 (template <-
                    (let template := notificationTemplate env lang in
                     if truthy_opt template then ret (or_else template "")
                     else throw (ErrorInstance (Plain "Template not found"))) ;;
                  emit (WindowOpen (whatsappUrl selected client lang template
                                                (companyName env))) ;;
                  _ <- await env (notificationRequest env selected lang) ;;
                  showToast (Fixed WhatsappOpenedText) success ;;
                  emit (SetIsNotificationModalOpen false))
                 toast_error)
      end
  | _, _ => []
  end.

(** *** handleInvoiceSent (lines 310 to 328) *)

(** [o.id === order.id ? { ...o, isInvoicePrinted: true } : o]. *)
Definition markInvoicePrinted (orderId : string) (o : Order) : Order :=
  if (id o =? orderId)%string then assign (Col_is_invoice_printed true) o else o.

Definition invoiceRequest (order : Order) : Request :=
  Orders_update [Col_is_invoice_printed true] (eq_id (id order)).

Definition handleInvoiceSent (env : Env) (page : Page) (order : Order)
    : list Effect :=
  if negb (supabase env) then [] else
  fst (try_catch
         (err <- await env (invoiceRequest order) ;;
          throw_if err ;;
          emit (SetOrders (map (markInvoicePrinted (id order)))) ;;
          match searchResults page with
          | Some _ =>
              emit (SetSearchResults
                      (option_map (map (markInvoicePrinted (id order)))))
          | None => ret tt
          end ;;
          showToast (Fixed InvoiceUpdatedText) success)
         toast_error).

(** *** handleRevertStatus (lines 330 to 356) *)

(** The [switch] on [order.status]: the cases are tried in the order they
    are written, and [default] leaves the handler. *)
Definition prevStatusOf {V : StatusValues} (current : string)
    : option OrderStatus :=
  if (current =? statusValue ORDERED)%string then Some NEW
  else if (current =? statusValue SHIPPED_FROM_STORE)%string then Some ORDERED
  else if (current =? statusValue ARRIVED_AT_OFFICE)%string
       then Some SHIPPED_FROM_STORE
  else if (current =? statusValue STORED)%string then Some ARRIVED_AT_OFFICE
  else if (current =? statusValue OUT_FOR_DELIVERY)%string then Some STORED
  else if (current =? statusValue COMPLETED)%string then Some OUT_FOR_DELIVERY
  else None.

Definition revertEntry {V : StatusValues} (env : Env) (prevStatus : OrderStatus)
    : HistoryEntry :=
  mkEntry (now env)
          ("Status reverted to " ++ statusValue prevStatus)%string
          (currentUsername env).

Definition revertRequest {V : StatusValues} (env : Env) (order : Order)
    (orderId : string) (prevStatus : OrderStatus) : Request :=
  Orders_update
    [Col_status (statusValue prevStatus);
     Col_history (history_or_empty order ++ [revertEntry env prevStatus])]
    (eq_id orderId).

Definition handleRevertStatus {V : StatusValues} (env : Env) (page : Page)
    (orderId : string) (password : option string) : list Effect * bool :=
  if negb (supabase env) then ([], false) else
  try_catch
    (match find_order orderId (orders page) with
     | None => ret false
     | Some order =>
         match prevStatusOf (status order) with
         | None => ret false
         | Some prevStatus =>
             err <- await env (revertRequest env order orderId prevStatus) ;;
             throw_if err ;;
             showToast (Fixed RevertDoneText) success ;;
             ret true
         end
     end)
    (fun e => ([ShowToast (getErrorMessage (Some e)) error], false)).

(** *** handleDeleteOrder (lines 358 to 374) *)

Definition signInRequest (env : Env) (password : string) : Request :=
  Auth_signInWithPassword (or_else (option_map email (currentUser env)) "")
                          password.

Definition handleDeleteOrder (env : Env) (page : Page) (password : string)
    : list Effect :=
  match supabase env, selectedOrder page with
  | true, Some selected =>
      fst (try_catch
             (authError <- await env (signInRequest env password) ;;
              match raised authError with
              | Some _ => throw (ErrorInstance (Fixed WrongPasswordText))
              | None => ret tt
              end ;;
              err <- await env (Orders_delete (eq_id (id selected))) ;;
              throw_if err ;;
              showToast (Fixed OrderDeletedText) success ;;
              emit (SetIsDeleteModalOpen false) ;;
              emit (SetSelectedOrder None))
             toast_error)
  | _, _ => []
  end.

(* ------------------------------------------------------------------ *)
(** ** What the effects do *)

Definition matches (flt : Filter) (o : Order) : bool :=
  match flt with
  | eq_id value => (id o =? value)%string
  | eq_local_order_id value => (localOrderId o =? value)%string
  end.

(** The remote tables after one request.  A request answered with an error
    changes nothing; an update assigns the columns of the payload in every
    row the filter selects; an insert adds a row under the generated key. *)
Definition db_call (req : Request) (reply : Reply) (R : Remote) : Remote :=
  match raised (reply_error reply) with
  | Some _ => R
  | None =>
      match req with
      | Orders_insert payload =>
          mkRemote (Orders R
                    ++ [apply_payload payload (blank_order (generated_id reply))])
                   (OrderPayments R)
      | Orders_update payload flt =>
          mkRemote (map (fun o => if matches flt o
                                  then apply_payload payload o else o)
                        (Orders R))
                   (OrderPayments R)
      | Orders_delete flt =>
          mkRemote (filter (fun o => negb (matches flt o)) (Orders R))
                   (OrderPayments R)
      | OrderPayments_insert row =>
          mkRemote (Orders R) (OrderPayments R ++ [row])
      | Auth_signInWithPassword _ _ => R
      end
  end.

Definition db_effect (R : Remote) (eff : Effect) : Remote :=
  match eff with
  | Call req reply => db_call req reply R
  | _ => R
  end.

(** The remote tables after the effects of a handler. *)
Definition db_run (effs : list Effect) (R : Remote) : Remote :=
  fold_left db_effect effs R.

(** The requests a handler made, in order. *)
Fixpoint requests (effs : list Effect) : list Request :=
  match effs with
  | [] => []
  | Call req _ :: rest => req :: requests rest
  | _ :: rest => requests rest
  end.

(** The toasts a handler showed, in order. *)
Fixpoint shown (effs : list Effect) : list (Text * ToastKind) :=
  match effs with
  | [] => []
  | ShowToast text kind :: rest => (text, kind) :: shown rest
  | _ :: rest => shown rest
  end.

Definition page_effect (p : Page) (eff : Effect) : Page :=
  let '(mkPage os sr sel saving form st pay notif del ts ws) := p in
  match eff with
  | Call _ _ => p
  | ShowToast text kind =>
      mkPage os sr sel saving form st pay notif del (ts ++ [(text, kind)]) ws
  | SetOrders f => mkPage (f os) sr sel saving form st pay notif del ts ws
  | SetSearchResults f => mkPage os (f sr) sel saving form st pay notif del ts ws
  | SetSelectedOrder o => mkPage os sr o saving form st pay notif del ts ws
  | SetIsSaving b => mkPage os sr sel b form st pay notif del ts ws
  | SetFormModalOpen b => mkPage os sr sel saving b st pay notif del ts ws
  | SetStatusModalOpen b => mkPage os sr sel saving form b pay notif del ts ws
  | SetIsPaymentModalOpen b => mkPage os sr sel saving form st b notif del ts ws
  | SetIsNotificationModalOpen b =>
      mkPage os sr sel saving form st pay b del ts ws
  | SetIsDeleteModalOpen b => mkPage os sr sel saving form st pay notif b ts ws
  | WindowOpen url => mkPage os sr sel saving form st pay notif del ts (ws ++ [url])
  end.

(** The page after the effects of a handler. *)
Definition page_run (effs : list Effect) (p : Page) : Page :=
  fold_left page_effect effs p.

(** A page that shows [os] and has the order [sel] selected, everything
    else closed. *)
Definition page_showing (os : list Order) (sel : option Order) : Page :=
  mkPage os None sel false false false false false false [] [].

(* ------------------------------------------------------------------ *)
(** ** The displayed list: filteredOrders (lines 106 to 145) *)

Definition isCompleted {V : StatusValues} (o : Order) : bool :=
  (status o =? statusValue COMPLETED)%string.

(** The comparator given to [sort]. *)
Definition compareOrders {V : StatusValues} {C : Collator} (a b : Order) : Z :=
  let aIsCompleted := isCompleted a in
  let bIsCompleted := isCompleted b in
  if aIsCompleted && negb bIsCompleted then 1
  else if negb aIsCompleted && bIsCompleted then -1
  else localeCompare (localOrderId b) (localOrderId a).

(** [Array.prototype.sort] with a comparator: the sort is stable, so for a
    consistent comparator its result is the one of a stable insertion sort.
    [x] is put before the first element it does not have to follow. *)
Fixpoint sort_insert {A : Type} (cmp : A -> A -> Z) (x : A) (l : list A)
    : list A :=
  match l with
  | [] => [x]
  | y :: rest =>
      if cmp x y <=? 0 then x :: y :: rest else y :: sort_insert cmp x rest
  end.

Fixpoint sort {A : Type} (cmp : A -> A -> Z) (l : list A) : list A :=
  match l with
  | [] => []
  | x :: rest => sort_insert cmp x (sort cmp rest)
  end.

(** The [switch] on the smart filter. *)
Definition smartFilter {V : StatusValues} (today : string) (name : string)
    (o : Order) : bool :=
  if (name =? "ready_pickup")%string then
    (status o =? statusValue STORED)%string
    || (status o =? statusValue ARRIVED_AT_OFFICE)%string
  else if (name =? "late")%string then
    ((status o =? statusValue ORDERED)%string
     || (status o =? statusValue SHIPPED_FROM_STORE)%string)
    && truthy (expectedArrivalDate o)
    && String.ltb (expectedArrivalDate o) today
  else if (name =? "needs_tracking")%string then
    (status o =? statusValue ORDERED)%string
    && negb (truthy_opt (trackingNumber o))
  else if (name =? "pending_invoice")%string then
    (status o =? statusValue ORDERED)%string && negb (isInvoicePrinted o)
  else (status o =? name)%string.

(** [today] is [new Date().toISOString().split('T')[0]]; the two filters
    default to ['all'] when the property is absent. *)
Definition filteredOrders {V : StatusValues} {C : Collator}
    (today : string) (orders : list Order) (searchResults : option (list Order))
    (externalSearchTerm externalStoreFilter externalSmartFilter : option string)
    : list Order :=
  let storeFilter := match externalStoreFilter with Some f => f | None => "all" end in
  let smart := match externalSmartFilter with Some f => f | None => "all" end in
  let result := match searchResults with Some found => found | None => orders end in
  let result :=
    if negb (truthy_opt externalSearchTerm) && negb (smart =? "all")%string
    then filter (smartFilter today smart) result
    else result in
  let result :=
    if negb (storeFilter =? "all")%string
    then filter (fun o => (storeId o =? storeFilter)%string) result
    else result in
  sort compareOrders result.

(* ------------------------------------------------------------------ *)
(** ** The debounced search effect (lines 89 to 104) *)

Module Search.

(** The quiescence window of the timer, in milliseconds. *)
Definition window : N := 600.

(** [clock] is the time in milliseconds; [timer] is the pending timeout of
    [searchTimeoutRef] with its deadline and the term its callback
    captured; [issued] lists the terms [searchOrders] was called with, in
    order, and a query is named by its position in that list; [inflight]
    are the queries whose promise has not resolved yet. *)
Record State : Type := mk {
  clock : N;
  timer : option (N * string);
  issued : list string;
  inflight : list nat;
  searchResults : option (list Order);
  isSearching : bool
}.

Definition initial : State := mk 0 None [] [] None false.

Inductive Event : Type :=
| TermChanged (externalSearchTerm : option string)
    (* the effect runs for a new value of the property *)
| Elapse (ms : N)
    (* time passes; a timeout that falls due runs its callback *)
| Respond (query : nat) (found : list Order).
    (* the promise of a query resolves *)

(** The body of the effect. *)
Definition termChanged (s : State) (externalSearchTerm : option string)
    : State :=
  match externalSearchTerm with
  | None => s
  | Some term =>
      (* clearTimeout(searchTimeoutRef.current) *)
      if trim_truthy term
      then mk (clock s) (Some ((clock s + window)%N, term)) (issued s)
              (inflight s) (searchResults s) true
      else mk (clock s) None (issued s) (inflight s) None false
  end.

(** The callback of the timeout up to its [await]: the query is sent. *)
Definition fire (s : State) (term : string) (at_time : N) : State :=
  mk at_time None (issued s ++ [term])
     (inflight s ++ [List.length (issued s)])
     (searchResults s) (isSearching s).

Definition elapse (s : State) (ms : N) : State :=
  let later := (clock s + ms)%N in
  match timer s with
  | Some (deadline, term) =>
      if (deadline <=? later)%N then fire s term later
      else mk later (timer s) (issued s) (inflight s) (searchResults s)
              (isSearching s)
  | None =>
      mk later None (issued s) (inflight s) (searchResults s) (isSearching s)
  end.

(** The rest of the callback, after the [await]. *)
Definition respond (s : State) (query : nat) (found : list Order) : State :=
  if existsb (Nat.eqb query) (inflight s)
  then mk (clock s) (timer s) (issued s)
          (filter (fun q => negb (Nat.eqb query q)) (inflight s))
          (Some found) false
  else s.

Definition step (s : State) (ev : Event) : State :=
  match ev with
  | TermChanged term => termChanged s term
  | Elapse ms => elapse s ms
  | Respond query found => respond s query found
  end.

Definition run (evs : list Event) (s : State) : State :=
  fold_left step evs s.

(** The time that passes during a list of events. *)
Fixpoint duration (evs : list Event) : N :=
  match evs with
  | [] => 0%N
  | Elapse ms :: rest => (ms + duration rest)%N
  | _ :: rest => duration rest
  end.

(** No event of the list is a change of the search term. *)
Fixpoint quiet (evs : list Event) : bool :=
  match evs with
  | [] => true
  | TermChanged _ :: _ => false
  | _ :: rest => quiet rest
  end.

(** The caller types [first] and then each term of [typed], each after
    the events that come before it. *)
Fixpoint typing (typed : list (list Event * string)) : list Event :=
  match typed with
  | [] => []
  | (before, term) :: rest =>
      before ++ TermChanged (Some term) :: typing rest
  end.

(** Every pause of [typed] is quiet and shorter than the window. *)
Fixpoint within_window (typed : list (list Event * string)) : bool :=
  match typed with
  | [] => true
  | (before, _) :: rest =>
      quiet before && (duration before <? window)%N && within_window rest
  end.

(** The last term typed. *)
Fixpoint final_term (first : string) (typed : list (list Event * string))
    : string :=
  match typed with
  | [] => first
  | (_, term) :: rest => final_term term rest
  end.

End Search.

(* ------------------------------------------------------------------ *)
(** ** Sequences of operations on the store *)

(** The order [snap], as the page holds it, is the row of the store with
    its key: the page has received every earlier change of the row. *)
Definition current (R : Remote) (snap : Order) : Prop :=
  In snap (Orders R) /\
  forall o, In o (Orders R) -> id o = id snap -> o = snap.

(** The reply to [req] carries no error. *)
Definition accepted (env : Env) (req : Request) : Prop :=
  raised (reply_error (net env req)) = None.

(** *** Payments registered one after the other *)

(** One confirmation of the payment dialog: the environment of the call and
    the details entered. *)
Record PaymentCall : Type := mkCall {
  call_env : Env;
  call_details : Details.t
}.

(** The dialog is opened on the order with key [orderId] as the store has
    it, and confirmed. *)
Definition registerPayment {T : NumberText} (orderId : string) (R : Remote)
    (c : PaymentCall) : Remote :=
  let page := page_showing (Orders R) (find_order orderId (Orders R)) in
  db_run (handlePaymentConfirm (call_env c) page orderId (call_details c)) R.

Definition registerPayments {T : NumberText} (orderId : string)
    (calls : list PaymentCall) (R : Remote) : Remote :=
  fold_left (registerPayment orderId) calls R.

(** The sum of the ledger amounts registered for an order: the amounts
    added one after the other, in the order of the ledger, from 0. *)
Definition ledger_total (orderId : string) (R : Remote) : Number :=
  fold_left js_add
    (map Payment.amount
         (filter (fun row => (Payment.order_id row =? orderId)%string)
                 (OrderPayments R)))
    0.

(** The amount paid of an order of the store, as a payment reads it:
    [Number(order.amountPaid) || 0]. *)
Definition amount_paid_of (orderId : string) (R : Remote) : Number :=
  match find_order orderId (Orders R) with
  | Some o => number_or_0 (amountPaid o)
  | None => 0
  end.

(** The ledger total of the order is finite before the first call and
    after each call. *)
Fixpoint totals_finite {T : NumberText} (orderId : string)
    (calls : list PaymentCall) (R : Remote) : bool :=
  is_finite (ledger_total orderId R)
  && match calls with
     | [] => true
     | c :: rest => totals_finite orderId rest (registerPayment orderId R c)
     end.

(** The order update of a call is never answered with an error. *)
Definition order_updates_accepted (c : PaymentCall) : Prop :=
  forall payload flt, accepted (call_env c) (Orders_update payload flt).

(** The amount paid of the order, as a payment reads it, is its ledger
    total. *)
Definition balanced (orderId : string) (R : Remote) : Prop :=
  amount_paid_of orderId R = number_or_0 (Some (ledger_total orderId R)).

(* ------------------------------------------------------------------ *)
(** ** The fixed mapping of the specification *)

(** The predecessor of a status, as section 4.1 of the specification
    writes the mapping: COMPLETED, OUT_FOR_DELIVERY, STORED,
    ARRIVED_AT_OFFICE, SHIPPED_FROM_STORE, ORDERED, NEW, each to the next;
    NEW has none. *)
Definition spec_predecessor (s : OrderStatus) : option OrderStatus :=
  match s with
  | COMPLETED => Some OUT_FOR_DELIVERY
  | OUT_FOR_DELIVERY => Some STORED
  | STORED => Some ARRIVED_AT_OFFICE
  | ARRIVED_AT_OFFICE => Some SHIPPED_FROM_STORE
  | SHIPPED_FROM_STORE => Some ORDERED
  | ORDERED => Some NEW
  | NEW => None
  end.

(* ------------------------------------------------------------------ *)
(** ** Concrete data for the examples *)

Module Sample.

(** An order of the client "c-1" with the given key, local identifier,
    status and history. *)
Definition order (key localId st : string) (h : list HistoryEntry) : Order :=
  assign (Col_history h)
    (assign (Col_status st)
       (assign (Col_client_id "c-1")
          (assign (Col_local_order_id localId) (blank_order key)))).

Definition entry (what : string) : HistoryEntry :=
  mkEntry "2024-01-01T00:00:00.000Z" what (Some "amina").

Definition amina : User := mkUser "amina" "amina@example.com".

Definition client : Client.t := Client.mk "c-1" "Mariem" "22 00 00 00" None.

(** Templates in Arabic only. *)
Definition templates (lang : string) : option string :=
  if (lang =? "ar")%string then Some "{clientName}: {orderId}" else None.

Definition environment (reply : Request -> Reply) : Env :=
  mkEnv true reply "2024-01-02T10:00:00.000Z" (Some amina) [client]
        (Some templates) "Fast Comand".

(** An environment whose remote side accepts every request. *)
Definition env : Env := environment (fun _ => ok).

(** The same, with a sign-in that is refused whatever the password. *)
Definition env_wrong_password : Env :=
  environment
    (fun req =>
       match req with
       | Auth_signInWithPassword _ _ =>
           failed (ErrorObject (Some "Invalid login credentials")
                               None None None "{}")
       | _ => ok
       end).

(** The same, with a ledger that refuses every insert. *)
Definition env_ledger_down : Env :=
  environment
    (fun req =>
       match req with
       | OrderPayments_insert _ =>
           failed (ErrorObject (Some "TypeError: Failed to fetch")
                               None None None "{}")
       | _ => ok
       end).

(** The same, with an [Orders] table that refuses every update. *)
Definition env_orders_down : Env :=
  environment
    (fun req =>
       match req with
       | Orders_update _ _ =>
           failed (ErrorObject (Some "TypeError: Failed to fetch")
                               None None None "{}")
       | _ => ok
       end).

(** A collation for identifiers that differ in their digits only: the
    digits of each are read as one decimal number. *)
Fixpoint digits_value (s : string) (acc : Z) : Z :=
  match s with
  | EmptyString => acc
  | String c rest =>
      let n := Z.of_nat (nat_of_ascii c) in
      if (48 <=? n) && (n <=? 57)
      then digits_value rest (10 * acc + (n - 48))
      else digits_value rest acc
  end.

Definition byDigits : Collator := fun a b =>
  digits_value a 0 - digits_value b 0.

Definition noLink : WhatsappLink := fun _ _ _ _ _ => "https://wa.me/".

(** The text of the whole numbers up to 2^53 in magnitude, which the
    language writes with their digits, of [NaN] and of the infinities.
    The samples render no other number: for those the text is left
    empty, which is the text of no number. *)
Definition digits : NumberText := fun x =>
  match x with
  | S754_zero _ => "0"
  | S754_nan => "NaN"
  | S754_infinity s => if s then "-Infinity" else "Infinity"
  | S754_finite s m e =>
      let whole :=
        if 0 <=? e then Some (Z.pos m * 2 ^ e)
        else if (Z.pos m mod 2 ^ (- e) =? 0)
             then Some (Z.pos m / 2 ^ (- e)) else None in
      match whole with
      | Some z =>
          if z <=? 2 ^ 53
          then NilZero.string_of_int (Z.to_int (if s then - z else z))
          else ""
      | None => ""
      end
  end.

(** One order through a status change, a payment, a notification, a revert,
    an invoice-sent update and an edit, and then the creation of a second
    order: the store after each step and the row of the order in it. *)
Definition placed : Order :=
  order "7c9e-1" "FCD-12" "ORDERED" [entry "Created Order"].

Definition store0 : Remote := mkRemote [placed] [].

Definition store1 : Remote := Eval vm_compute in
  db_run (handleUpdateOrderStatus env (page_showing [placed] (Some placed))
            "7c9e-1" (Payload.only_status "SHIPPED_FROM_STORE")) store0.
Definition row1 : Order := Eval vm_compute in hd placed (Orders store1).

Definition store2 : Remote := Eval vm_compute in
  db_run (handlePaymentConfirm (T := digits) env
            (page_showing [row1] (Some row1))
            "7c9e-1" (Details.mk 300 "Bankily" None 0 0)) store1.
Definition row2 : Order := Eval vm_compute in hd placed (Orders store2).

Definition store3 : Remote := Eval vm_compute in
  db_run (handleNotificationConfirm (W := noLink) env
            (page_showing [row2] (Some row2)) "fr") store2.
Definition row3 : Order := Eval vm_compute in hd placed (Orders store3).

Definition store4 : Remote := Eval vm_compute in
  db_run (fst (handleRevertStatus (V := specLiterals) env
                 (page_showing [row3] None) "7c9e-1" None)) store3.
Definition row4 : Order := Eval vm_compute in hd placed (Orders store4).

Definition store5 : Remote := Eval vm_compute in
  db_run (handleInvoiceSent env (page_showing [row4] None) row4) store4.
Definition row5 : Order := Eval vm_compute in hd placed (Orders store5).

Definition edited : Order := Eval vm_compute in assign (Col_notes "fragile") row5.

Definition store6 : Remote := Eval vm_compute in
  db_run (handleSaveOrder env edited) store5.

Definition second : Order := Eval vm_compute in order "" "FCD-13" "NEW" [].

Definition store7 : Remote := Eval vm_compute in
  db_run (handleSaveOrder env second) store6.

End Sample.

(* ------------------------------------------------------------------ *)
(** ** Vocabulary of the statements *)

(** Columns other than [status] leave the status of a row alone. *)
Definition keeps_status (a : Assign) : Prop :=
  forall o, status (assign a o) = status o.

(** What [handleInvoiceSent] does to one order of a list: an order with the
    key has the flag set and, the flag put back, is the order it was; any
    other order is the order it was. *)
Definition invoice_marked (key : string) (o o' : Order) : Prop :=
  (id o = key ->
     isInvoicePrinted o' = true
     /\ assign (Col_is_invoice_printed (isInvoicePrinted o)) o' = o)
  /\ (id o <> key -> o' = o).

(** Under the comparator [cmp], [a] may stand before [b]. *)
Definition may_precede {A : Type} (cmp : A -> A -> Z) (a b : A) : Prop :=
  cmp a b <= 0.

(* ------------------------------------------------------------------ *)
(** ** More vocabulary: what a handler leaves alone *)

(** The effect sets neither the in-memory orders nor the search results. *)
Definition leaves_lists (eff : Effect) : Prop :=
  match eff with
  | SetOrders _ | SetSearchResults _ => False
  | _ => True
  end.

(** A computation none of whose effects sets the lists. *)
Definition calm {A : Type} (m : Task A) : Prop := Forall leaves_lists (fst m).

(** Assigning the column does not change the member [member]. *)
Definition leaves_member {A : Type} (member : Order -> A) (a : Assign) : Prop :=
  forall o, member (assign a o) = member o.

(* ------------------------------------------------------------------ *)
(** ** The application shell (App.tsx) *)

Module App.

(** *** The local cache *)

Definition CACHE_KEY_PREFIX : string := "fast_comand_v4_".

(** [localStorage]: the items, the most recently set first. *)
Definition Storage : Type := list (string * string).

Definition getItem (key : string) (st : Storage) : option string :=
  option_map snd (find (fun item => (fst item =? key)%string) st).

Definition removeItem (key : string) (st : Storage) : Storage :=
  filter (fun item => negb (fst item =? key)%string) st.

Definition setItem (key value : string) (st : Storage) : Storage :=
  (key, value) :: removeItem key st.

(** A value of JSON.  The members of an object are listed in order, and a
    member is looked up by the first entry with its name. *)
#[warnings="-register-all"]
Inductive Json : Type :=
| JNull
| JBool (b : bool)
| JNum (z : Z)
| JStr (s : string)
| JArr (items : list Json)
| JObj (members : list (string * Json)).

(** [JSON.parse] and [JSON.stringify] of the host; [parse] gives [None]
    where [JSON.parse] throws. *)
Class JSON : Type := {
  parse : string -> option Json;
  stringify : Json -> string
}.

(** [object.name]; [None] is [undefined]. *)
Definition member (name : string) (members : list (string * Json))
    : option Json :=
  option_map snd (find (fun m => (fst m =? name)%string) members).

(** Truthiness of a value. *)
Definition truthy_json (j : Json) : bool :=
  match j with
  | JNull => false
  | JBool b => b
  | JNum z => negb (z =? 0)
  | JStr s => truthy s
  | JArr _ | JObj _ => true
  end.

(** [loadFromCache] (lines 550 to 559).  [None] is what the caller cannot
    use: [null], returned for a missing or empty item and from the [catch]
    block, and [undefined], the [data] of a value that has none.
    Destructuring [null] throws; a number, a string, a boolean or an array
    has no [data]. *)
Definition loadFromCache {J : JSON} (st : Storage) (key : string)
    : option Json :=
  match getItem (CACHE_KEY_PREFIX ++ key) st with
  | None => None
  | Some stored =>
      if truthy stored then
        match parse stored with
        | Some (JObj members) => member "data" members
        | _ => None
        end
      else None
  end.

(** [saveToCache] (lines 561 to 568).  [timestamp] is [Date.now()]; [room]
    tells whether [setItem] takes the item: when it throws, the [catch]
    block leaves the storage as it is. *)
Definition saveToCache {J : JSON} (timestamp : Z) (room : bool)
    (st : Storage) (key : string) (data : Json) : Storage :=
  let cachePayload := JObj [("timestamp", JNum timestamp); ("data", data)] in
  if room then setItem (CACHE_KEY_PREFIX ++ key) (stringify cachePayload) st
  else st.

(** *** The session *)

(** What [checkAuth] and [logout] ask of the outside. *)
Inductive AuthCall : Type :=
| GetSession
| GetProfile (userId : string)
| SignOut
| LogAction (action entityType : string) (entityId : option Json)
            (details : string).

Record Auth : Type := mkAuth {
  currentUser : option Json;
  storage : Storage
}.

(** [logout] (lines 833 to 840); [client] tells whether the Supabase client
    was created. *)
Definition logout (client : bool) (s : Auth) : list AuthCall * Auth :=
  ((match currentUser s with
    | Some user =>
        if truthy_json user
        then [LogAction "Logout" "Auth"
                        (match user with
                         | JObj members => member "id" members
                         | _ => None
                         end)
                        "User logged out"]
        else []
    | None => []
    end) ++ (if client then [SignOut] else []),
   mkAuth None (removeItem (CACHE_KEY_PREFIX ++ "CurrentUser") (storage s))).

(** What the identity service answers to [checkAuth]: the session, if any,
    with the identifier of its user, or the error of [getSession]; and the
    profile row of a user, if there is one. *)
Record Identity : Type := mkIdentity {
  session : JsError + option string;
  profile : string -> option Json
}.

(** [{ ...profile, permissions: value }]: the member is replaced where it
    stands, or added last. *)
Fixpoint with_member (name : string) (value : Json)
    (members : list (string * Json)) : list (string * Json) :=
  match members with
  | [] => [(name, value)]
  | (n, v) :: rest =>
      if (n =? name)%string then (n, value) :: rest
      else (n, v) :: with_member name value rest
  end.

(** [profile.permissions || DEFAULT_EMPLOYEE_PERMISSIONS]; the constant is
    declared in [./constants], which is not under [src/]. *)
Definition safeProfile (defaultPermissions : Json)
    (members : list (string * Json)) : Json :=
  let permissions :=
    match member "permissions" members with
    | Some p => if truthy_json p then p else defaultPermissions
    | None => defaultPermissions
    end in
  JObj (with_member "permissions" permissions members).

(** [err.message] names a lost refresh token. *)
Definition refresh_token_lost (e : JsError) : bool :=
  match e with
  | ErrorInstance (Plain message)
  | ErrorObject (Some message) _ _ _ _ =>
      truthy message
      && (includes "Refresh Token Not Found" message
          || includes "Invalid Refresh Token" message)
  | _ => false
  end.

(** [currentUser.id !== session.user.id]. *)
Definition other_user (user : Json) (userId : string) : bool :=
  match user with
  | JObj members =>
      match member "id" members with
      | Some (JStr i) => negb (i =? userId)%string
      | _ => true
      end
  | _ => true
  end.

(** [checkAuth] (lines 785 to 816); [client] tells whether the Supabase
    client was created.  The profile row is an object. *)
Definition checkAuth {J : JSON} (client : bool) (timestamp : Z) (room : bool)
    (defaultPermissions : Json) (identity : Identity) (s : Auth)
    : list AuthCall * Auth :=
  if negb client then ([], mkAuth None (storage s)) else
  match session identity with
  | inl e =>
      (* [throw error], caught *)
      if refresh_token_lost e
      then ([GetSession; SignOut],
            mkAuth None
                   (removeItem (CACHE_KEY_PREFIX ++ "CurrentUser") (storage s)))
      else ([GetSession], s)
  | inr None => ([GetSession], mkAuth None (storage s))
  | inr (Some userId) =>
      if match currentUser s with
         | None => true
         | Some user => negb (truthy_json user) || other_user user userId
         end
      then
        match profile identity userId with
        | Some (JObj members) =>
            ([GetSession; GetProfile userId],
             mkAuth (Some (safeProfile defaultPermissions members))
                    (saveToCache timestamp room (storage s) "CurrentUser"
                                 (safeProfile defaultPermissions members)))
        | _ => ([GetSession; GetProfile userId], s)
        end
      else ([GetSession], s)
  end.

(** The user the application starts with:
    [useState(() => loadFromCache('CurrentUser'))]. *)
Definition initialUser {J : JSON} (st : Storage) : option Json :=
  loadFromCache st "CurrentUser".

(** *** Theme *)

(** The mode the application starts with (lines 622 to 628): the stored
    mode, or the one of the older ['theme'] item, or ['system']. *)
Definition initialThemeMode (st : Storage) : string :=
  let savedMode := getItem "themeMode" st in
  if negb (truthy_opt savedMode) && truthy_opt (getItem "theme" st)
  then (if match getItem "theme" st with
           | Some t => (t =? "dark")%string
           | None => false
           end
        then "dark" else "light")
  else or_else savedMode "system".

(** [toggleTheme] (lines 752 to 758). *)
Definition toggleTheme (prev : string) : string :=
  if (prev =? "light")%string then "dark"
  else if (prev =? "dark")%string then "system"
  else "light".

(** [isDark] of [applyTheme] (lines 728 to 741); [prefersDark] is the
    media query of the host. *)
Definition isDark (prefersDark : bool) (themeMode : string) : bool :=
  if (themeMode =? "system")%string then prefersDark
  else (themeMode =? "dark")%string.

(** What the theme effect stores (line 743):
    [localStorage.setItem('themeMode', themeMode)]. *)
Definition persistTheme (themeMode : string) (st : Storage) : Storage :=
  setItem "themeMode" themeMode st.

(** *** Navigation and scrolling *)

(** [scrollTop] is the one of the main content; [scrollPositions] is the
    object of the ref, the most recently written member first. *)
Record Nav : Type := mkNav {
  view : string;
  scrollTop : Z;
  scrollPositions : list (string * Z);
  lastScrollY : Z;
  isDockVisible : bool;
  ordersSearchTerm : string;
  shouldOpenNewOrderModal : bool
}.

(** [scrollPositions.current[view] || 0]. *)
Definition savedPosition (name : string) (positions : list (string * Z)) : Z :=
  match find (fun p => (fst p =? name)%string) positions with
  | Some (_, y) => y
  | None => 0
  end.

(** [handleScroll] (lines 637 to 646); the position of the event is the
    one the main content is at. *)
Definition handleScroll (s : Nav) : Nav :=
  let currentScrollY := scrollTop s in
  let diff := currentScrollY - lastScrollY s in
  let dock :=
    if (10 <? diff) && (50 <? currentScrollY) then false
    else if (diff <? -5) || (currentScrollY <? 50) then true
    else isDockVisible s in
  mkNav (view s) (scrollTop s) (scrollPositions s) currentScrollY dock
        (ordersSearchTerm s) (shouldOpenNewOrderModal s).

(** The person scrolls the main content to [y]. *)
Definition scrollTo (y : Z) (s : Nav) : Nav :=
  handleScroll (mkNav (view s) y (scrollPositions s) (lastScrollY s)
                      (isDockVisible s) (ordersSearchTerm s)
                      (shouldOpenNewOrderModal s)).

(** [handleViewChange] (lines 766 to 776), followed by the layout effect
    (lines 778 to 780), which runs when the view has changed. *)
Definition handleViewChange (newView : string) (s : Nav) : Nav :=
  let positions := (view s, scrollTop s) :: scrollPositions s in
  let leavingOrders := (view s =? "orders")%string
                       && negb (newView =? "orders")%string in
  mkNav newView
        (if (newView =? view s)%string then scrollTop s
         else savedPosition newView positions)
        positions
        (lastScrollY s)
        true
        (if leavingOrders then "" else ordersSearchTerm s)
        (if leavingOrders then false else shouldOpenNewOrderModal s).

(** One thing a person does in the shell. *)
Inductive Move : Type :=
| Scroll (y : Z)
| Visit (newView : string).

Definition move (s : Nav) (m : Move) : Nav :=
  match m with
  | Scroll y => scrollTo y s
  | Visit newView => handleViewChange newView s
  end.


(** *** The counts of the header (lines 843 to 848) *)

Definition countByStatus (orders : list Order) (value : string) : nat :=
  List.length (filter (fun o => (status o =? value)%string) orders).

Definition awaitsPickup {V : StatusValues} (o : Order) : bool :=
  (status o =? statusValue STORED)%string
  || (status o =? statusValue ARRIVED_AT_OFFICE)%string.

Definition countPendingNotification {V : StatusValues} (orders : list Order)
    : nat :=
  List.length
    (filter (fun o => awaitsPickup o && negb (whatsappNotificationSent o))
            orders).

Definition readyForDeliveryCount {V : StatusValues} (orders : list Order)
    : nat :=
  List.length (filter awaitsPickup orders).

Definition activeDeliveryCount {V : StatusValues} (orders : list Order) : nat :=
  List.length
    (filter (fun o => (status o =? statusValue OUT_FOR_DELIVERY)%string)
            orders).

End App.

(* ------------------------------------------------------------------ *)
(** ** The login form (LoginPage.tsx, handleLogin, lines 89 to 182) *)

Module Login.

(** [String.prototype.trim]: the white-space characters at the start of the
    string are dropped, and so is the end of the string from where it is
    white space only. *)
Fixpoint trimStart (s : string) : string :=
  match s with
  | EmptyString => EmptyString
  | String a r1 =>
      if space1 a then trimStart r1
      else match r1 with
           | EmptyString => s
           | String b r2 =>
               if space2 a b then trimStart r2
               else match r2 with
                    | EmptyString => s
                    | String c r3 => if space3 a b c then trimStart r3 else s
                    end
           end
  end.

Fixpoint trimEnd (s : string) : string :=
  match s with
  | EmptyString => EmptyString
  | String c rest => if all_space s then EmptyString else String c (trimEnd rest)
  end.

Definition trim (s : string) : string := trimEnd (trimStart s).

(** Every character of [s] is of the class [[^\s@]]: no white-space
    character and no [@] starts anywhere in [s]. *)
Fixpoint all_plain (s : string) : bool :=
  match s with
  | EmptyString => true
  | String c rest =>
      negb (starts_with_space s) && negb (Ascii.eqb c "@") && all_plain rest
  end.

(** Some dot of [s] has a character after it. *)
Fixpoint dot_inside (s : string) : bool :=
  match s with
  | EmptyString => false
  | String c rest =>
      (Ascii.eqb c "." && negb (rest =? "")%string) || dot_inside rest
  end.

(** The part of [s] before its first [@] and the part after it. *)
Fixpoint split_at (s : string) : option (string * string) :=
  match s with
  | EmptyString => None
  | String c rest =>
      if Ascii.eqb c "@" then Some (EmptyString, rest)
      else match split_at rest with
           | Some (before, after) => Some (String c before, after)
           | None => None
           end
  end.

(** [/^[^\s@]+@[^\s@]+\.[^\s@]+$/.test(s)]. *)
Definition isEmailFormat (s : string) : bool :=
  match split_at s with
  | Some (name, domain) =>
      negb (name =? "")%string && all_plain name && all_plain domain
      && match domain with
         | EmptyString => false
         | String _ rest => dot_inside rest
         end
  | None => false
  end.

(** What the form shows as its error. *)
Inductive Message : Type :=
| ConnectionError           (* the literal "CONNECTION_ERROR" *)
| DatabaseNotInitialised    (* the Arabic text about the setup code *)
| UnknownUsername
| InvalidCredentials
| EmailNotConfirmed
| Shown (text : Text).      (* what [getErrorMessage] gives *)

Inductive Request : Type :=
| SignOut
| LookupEmail (username : string)
| SignIn (email password : string)
| GetUser
| GetUsername (userId : string)
| LogLogin (user entityId : string).

Inductive Effect : Type :=
| Call (req : Request)
| SetError (m : option Message)
| SetLoading (b : bool)
| SetIsDbSetupOpen (b : bool).

(** An awaited promise: resolved with a value, or rejected. *)
Inductive Outcome (A : Type) : Type :=
| Resolved (a : A)
| Rejected (e : JsError).
Arguments Resolved {A} a.
Arguments Rejected {A} e.

(** The reply to the look-up of a user name: the row, if any, with its
    e-mail, and the [code] of the error, if any. *)
Record Lookup : Type := mkLookup {
  data : option (option string);
  error_code : option string
}.

Record AuthUser : Type := mkAuthUser {
  user_id : string;
  user_email : option string
}.

(** What the handler closes over: the client, the two items of
    [localStorage], the constants of [../constants] (not under [src/]) and
    the replies of the remote side.  The error of a sign-in is an
    [AuthError], an [Error] with a message, given here by its message. *)
Record Host : Type := mkHost {
  client : bool;
  local_setup_username : option string;
  local_setup_code : option string;
  DEFAULT_SETUP_USERNAME : string;
  DEFAULT_SETUP_CODE : string;
  signOut : Outcome unit;
  lookup : string -> Outcome Lookup;
  signIn : string -> string -> Outcome (option string);
  getUser : Outcome (option AuthUser);
  username_of : string -> Outcome (option string);
  logInsert : string -> string -> Outcome unit
}.

Record Form : Type := mkForm {
  loginInput : string;
  password : string
}.

(** How a part of the handler ends other than with a value. *)
Inductive Exit : Type :=
| Return
| Throw (e : JsError).

Definition Step (A : Type) : Type := (list Effect * (Exit + A))%type.

Definition ret {A : Type} (a : A) : Step A := ([], inr a).

Definition bind {A B : Type} (m : Step A) (k : A -> Step B) : Step B :=
  match m with
  | (es, inl x) => (es, inl x)
  | (es, inr a) => let (es', r) := k a in (es ++ es', r)
  end.

Definition emit (eff : Effect) : Step unit := ([eff], inr tt).

(** [return;]. *)
Definition leave {A : Type} : Step A := ([], inl Return).

(** [await] of a request. *)
Definition await {A : Type} (req : Request) (o : Outcome A) : Step A :=
  match o with
  | Resolved a => ([Call req], inr a)
  | Rejected e => ([Call req], inl (Throw e))
  end.

(** [try { body } catch (e) { handler e }]. *)
Definition try_catch (body : Step unit) (handler : JsError -> list Effect)
    : list Effect :=
  match body with
  | (es, inl (Throw e)) => es ++ handler e
  | (es, _) => es
  end.

Declare Scope login_scope.
Delimit Scope login_scope with login.
Notation "x <- m ;; k" := (bind m (fun x => k))
  (at level 61, m at next level, right associativity) : login_scope.
Notation "m ;; k" := (bind m (fun _ => k))
  (at level 61, right associativity) : login_scope.

Definition accessUser (host : Host) : string :=
  or_else (local_setup_username host) (DEFAULT_SETUP_USERNAME host).

Definition accessCode (host : Host) : string :=
  or_else (local_setup_code host) (DEFAULT_SETUP_CODE host).

(** The form holds the setup credentials. *)
Definition isSetupCode (host : Host) (form : Form) : bool :=
  (trim (loginInput form) =? accessUser host)%string
  && (trim (password form) =? accessCode host)%string.

(** The e-mail to sign in with: the input itself when it has the form of an
    e-mail, the e-mail of the user with that name otherwise. *)
Definition resolveEmail (host : Host) (cleanInput : string) : Step string :=
  (if isEmailFormat cleanInput then ret cleanInput
   else
     found <- await (LookupEmail cleanInput) (lookup host cleanInput) ;;
     if match error_code found with
        | Some code => (code =? "42P01")%string
        | None => false
        end
     then emit (SetError (Some DatabaseNotInitialised)) ;;
          emit (SetLoading false) ;;
          leave
     else
       match data found with
       | Some row =>
           if truthy_opt row then ret (or_else row "") else ret cleanInput
       | None =>
           emit (SetError (Some UnknownUsername)) ;;
           emit (SetLoading false) ;;
           leave
       end)%login.

Definition signInMessage (message : string) : Message :=
  if (message =? "Invalid login credentials")%string then InvalidCredentials
  else if includes "Email not confirmed" message then EmailNotConfirmed
  else Shown (getErrorMessage (Some (ErrorInstance (Plain message)))).

(** The body of the [try] block. *)
Definition signInAndLog (host : Host) (form : Form) : Step unit :=
  (targetEmail <- resolveEmail host (trim (loginInput form)) ;;
   signInError <- await (SignIn targetEmail (password form))
                        (signIn host targetEmail (password form)) ;;
   match signInError with
   | Some message =>
       emit (SetError (Some (signInMessage message))) ;;
       emit (SetLoading false) ;;
       leave
   | None =>
       user <- await GetUser (getUser host) ;;
       match user with
       | Some u =>
           userName <- await (GetUsername (user_id u))
                             (username_of host (user_id u)) ;;
           let userNameLog :=
             or_else userName (or_else (user_email u) "Unknown") in
           await (LogLogin userNameLog (user_id u))
                 (logInsert host userNameLog (user_id u))
       | None => ret tt
       end
   end)%login.

Definition handleLogin (host : Host) (form : Form) : list Effect :=
  [SetError None; SetLoading true]
  ++ (if client host then [Call SignOut] else [])
  ++ match (if client host then signOut host else Resolved tt) with
     | Rejected _ => []
         (* the rejection is not caught: the handler stops here *)
     | Resolved _ =>
         if isSetupCode host form
         then [SetIsDbSetupOpen true; SetLoading false]
         else if negb (client host)
         then [SetError (Some ConnectionError); SetLoading false]
         else try_catch (signInAndLog host form)
                (fun e => [SetError (Some (Shown (getErrorMessage (Some e))));
                           SetLoading false])
     end.

(** The state of the form the handler sets. *)
Record View : Type := mkView {
  error : option Message;
  loading : bool;
  isDbSetupOpen : bool
}.

Definition apply (s : View) (eff : Effect) : View :=
  match eff with
  | Call _ => s
  | SetError m => mkView m (loading s) (isDbSetupOpen s)
  | SetLoading b => mkView (error s) b (isDbSetupOpen s)
  | SetIsDbSetupOpen b => mkView (error s) (loading s) b
  end.

Definition after (effs : list Effect) (s : View) : View :=
  fold_left apply effs s.

(** The requests made, in order. *)
Fixpoint requests (effs : list Effect) : list Request :=
  match effs with
  | [] => []
  | Call req :: rest => req :: requests rest
  | _ :: rest => requests rest
  end.

End Login.

(* ------------------------------------------------------------------ *)
(** ** Sequences of events of the search effect *)

Module SearchTrace.
Import Search.

(** The number of times the effect armed its timer: the changes of the
    term to a value that is not blank. *)
Fixpoint searches_asked (evs : list Event) : nat :=
  match evs with
  | [] => 0
  | TermChanged (Some term) :: rest =>
      (if trim_truthy term then 1 else 0) + searches_asked rest
  | _ :: rest => searches_asked rest
  end.

(** One for a pending timeout. *)
Definition pending (s : State) : nat :=
  match timer s with Some _ => 1 | None => 0 end.

(** What holds of the state after the events [evs]. *)
Record Invariant (evs : list Event) (s : State) : Prop := {
  issued_typed :
    forall t, In t (issued s) ->
              trim_truthy t = true /\ In (TermChanged (Some t)) evs;
  inflight_issued :
    forall q, In q (inflight s) -> (q < List.length (issued s))%nat;
  inflight_once : NoDup (inflight s);
  timer_ahead :
    forall d t, timer s = Some (d, t) ->
                (clock s < d <= clock s + window)%N
                /\ trim_truthy t = true /\ In (TermChanged (Some t)) evs;
  issued_bound :
    (List.length (issued s) + pending s <= searches_asked evs)%nat;
  results_received :
    searchResults s = None
    \/ exists q found, In (Respond q found) evs /\ searchResults s = Some found
}.

End SearchTrace.

(* ------------------------------------------------------------------ *)
(** ** Sample data of the shell and of the login form *)

Module ShellSample.

Definition user : App.Json :=
  App.JObj [("id", App.JStr "u-1"); ("username", App.JStr "amina");
            ("permissions", App.JObj [("canEdit", App.JBool true)])].

Definition row : list (string * App.Json) :=
  [("id", App.JStr "u-1"); ("username", App.JStr "amina");
   ("permissions", App.JNull)].

Definition defaultPermissions : App.Json :=
  App.JObj [("canEdit", App.JBool true)].

Definition cachedText : string := "{timestamp:1700000000000,data:{id:u-1}}".

(** A host that writes every value as the one document [cachedText] and
    reads that document back as the cached [user]: it behaves as the JSON
    of the host on the one payload the samples cache. *)
#[local] Instance codec : App.JSON := {|
  App.parse := fun s =>
    if (s =? cachedText)%string
    then Some (App.JObj [("timestamp", App.JNum 1700000000000);
                         ("data", user)])
    else None;
  App.stringify := fun _ => cachedText
|}.

Definition identity : App.Identity :=
  App.mkIdentity (inr (Some "u-1"))
    (fun userId => if (userId =? "u-1")%string then Some (App.JObj row)
                   else None).

Definition signedOut : App.Auth := App.mkAuth None [("themeMode", "dark")].

(** The login form of a host where amina is registered. *)
Definition host : Login.Host :=
  Login.mkHost true None None "admin_setup" "sys_setup"
    (Login.Resolved tt)
    (fun name =>
       Login.Resolved
         (Login.mkLookup
            (if (name =? "amina")%string then Some (Some "amina@example.com")
             else None)
            None))
    (fun email pass =>
       Login.Resolved
         (if (email =? "amina@example.com")%string && (pass =? " secret")%string
          then None else Some "Invalid login credentials"))
    (Login.Resolved (Some (Login.mkAuthUser "u-1" (Some "amina@example.com"))))
    (fun _ => Login.Resolved (Some "amina"))
    (fun _ _ => Login.Resolved tt).

End ShellSample.

(* ================================================================== *)
(** * Properties *)

(* ------------------------------------------------------------------ *)
(** ** Payloads and rows *)

Lemma id_assign (a : Assign) (o : Order) : id (assign a o) = id o.
Proof. destruct a; try reflexivity. destruct m; reflexivity. Qed.

(** The member each column stands for. *)
Lemma assign_column (o : Order) :
  (forall v, localOrderId (assign (Col_local_order_id v) o) = v)
  /\ (forall v, globalOrderId (assign (Col_global_order_id v) o) = Some v)
  /\ (forall v, clientId (assign (Col_client_id v) o) = v)
  /\ (forall v, storeId (assign (Col_store_id v) o) = v)
  /\ (forall v, price (assign (Col_price v) o) = v)
  /\ (forall v, currency (assign (Col_currency v) o) = v)
  /\ (forall v, priceInMRU (assign (Col_price_in_mru v) o) = Some v)
  /\ (forall v, commission (assign (Col_commission v) o) = Some v)
  /\ (forall v, quantity (assign (Col_quantity v) o) = v)
  /\ (forall v, amountPaid (assign (Col_amount_paid v) o) = Some v)
  /\ (forall v, paymentMethod (assign (Col_payment_method v) o) = Some v)
  /\ (forall v, shippingType (assign (Col_shipping_type v) o) = v)
  /\ (forall v, transportMode (assign (Col_transport_mode v) o) = Some v)
  /\ (forall v, orderDate (assign (Col_order_date v) o) = v)
  /\ (forall v, expectedArrivalDate (assign (Col_expected_arrival_date v) o) = v)
  /\ (forall v, productLinks (assign (Col_product_links v) o) = Some v)
  /\ (forall v, productImages (assign (Col_product_images v) o) = Some v)
  /\ (forall v, receiptImages (assign (Col_receipt_images v) o) = Some v)
  /\ (forall v, notes (assign (Col_notes v) o) = Some v)
  /\ (forall v, status (assign (Col_status v) o) = v)
  /\ (forall v, originCenter (assign (Col_origin_center v) o) = Some v)
  /\ (forall v, history (assign (Col_history v) o) = Some v)
  /\ (forall v, trackingNumber (assign (Col_tracking_number v) o) = Some v)
  /\ (forall v, weight (assign (Col_weight v) o) = Some v)
  /\ (forall v, shippingCost (assign (Col_shipping_cost v) o) = Some v)
  /\ (forall v, storageLocation (assign (Col_storage_location v) o) = Some v)
  /\ (forall v, arrivalDateAtOffice (assign (Col_arrival_date_at_office v) o) = Some v)
  /\ (forall v, storageDate (assign (Col_storage_date v) o) = Some v)
  /\ (forall v, withdrawalDate (assign (Col_withdrawal_date v) o) = Some v)
  /\ (forall v, orderImages (assign (Col_order_images v) o) = Some v)
  /\ (forall v, trackingImages (assign (Col_tracking_images v) o) = Some v)
  /\ (forall v, weighingImages (assign (Col_weighing_images v) o) = Some v)
  /\ (forall v, hubArrivalImages (assign (Col_hub_arrival_images v) o) = Some v)
  /\ (forall v, localDeliveryCost (assign (Col_local_delivery_cost v) o) = Some v)
  /\ (forall v, transactionFee (assign (Col_transaction_fee v) o) = Some v)
  /\ (forall v, whatsappNotificationSent (assign (Col_whatsapp_notification_sent v) o) = v)
  /\ (forall v, isInvoicePrinted (assign (Col_is_invoice_printed v) o) = v).
Proof. repeat split. Qed.

Lemma id_apply_payload (p : list Assign) (o : Order) :
  id (apply_payload p o) = id o.
Proof.
  revert o. induction p as [|a p IH]; intro o; simpl.
  - reflexivity.
  - unfold apply_payload in *. simpl. rewrite IH. apply id_assign.
Qed.

Lemma apply_payload_app (p q : list Assign) (o : Order) :
  apply_payload (p ++ q) o = apply_payload q (apply_payload p o).
Proof. unfold apply_payload. apply fold_left_app. Qed.

(** A payload that ends with the history column leaves that history in the
    row. *)
Lemma history_apply_last (p : list Assign) (h : list HistoryEntry) (o : Order) :
  history (apply_payload (p ++ [Col_history h]) o) = Some h.
Proof. rewrite apply_payload_app. reflexivity. Qed.

Lemma history_or_empty_apply_last (p : list Assign) (h : list HistoryEntry)
    (o : Order) :
  history_or_empty (apply_payload (p ++ [Col_history h]) o) = h.
Proof. unfold history_or_empty. rewrite history_apply_last. reflexivity. Qed.

Lemma find_order_id (orderId : string) (l : list Order) (o : Order) :
  find_order orderId l = Some o -> id o = orderId.
Proof.
  intro H. apply find_some in H. destruct H as [_ H].
  now apply String.eqb_eq in H.
Qed.

Lemma find_order_In (orderId : string) (l : list Order) (o : Order) :
  find_order orderId l = Some o -> In o l.
Proof. intro H. now apply find_some in H. Qed.

(** An accepted update, seen row by row. *)
Lemma db_update_row (p : list Assign) (flt : Filter) (reply : Reply)
    (R : Remote) (i : nat) (o : Order) :
  raised (reply_error reply) = None ->
  nth_error (Orders R) i = Some o ->
  nth_error (Orders (db_call (Orders_update p flt) reply R)) i
  = Some (if matches flt o then apply_payload p o else o).
Proof.
  intros Hr H. unfold db_call. rewrite Hr. cbn [Orders].
  rewrite nth_error_map, H. reflexivity.
Qed.

(** Only the calls among the effects reach the store. *)
Ltac db_step := cbn [db_run fold_left db_effect fst snd].

(** A store with one order: the order is as the store has it. *)
Lemma current_single (o : Order) (ledger : list Payment.t) :
  current (mkRemote [o] ledger) o.
Proof. split; [left; reflexivity|]. intros r [<-|[]] _. reflexivity. Qed.

(* ------------------------------------------------------------------ *)
(** ** The model on small inputs *)

Example getErrorMessage_of_object :
  getErrorMessage (Some (ErrorObject None None (Some "row is locked") None "{}"))
  = Plain "row is locked".
Proof. reflexivity. Qed.

Example getErrorMessage_of_fetch_failure :
  getErrorMessage (Some (ErrorString "TypeError: Failed to fetch"))
  = Fixed ConnectionFailedText.
Proof. reflexivity. Qed.

Example getErrorMessage_of_nothing :
  getErrorMessage None = Plain "Unknown error"
  /\ getErrorMessage (Some (ErrorObject None None None None "{}"))
     = Plain "Unknown Error (Empty Object)".
Proof. split; reflexivity. Qed.

Example payment_history_text :
  activity (paymentEntry (T := Sample.digits) Sample.env
              (Details.mk 300 "Bankily" None 0 0))
  = "Registered payment: 300 MRU"%string.
Proof. reflexivity. Qed.

Example revert_of_new_order :
  handleRevertStatus (V := specLiterals) Sample.env
    (page_showing [Sample.order "7c9e-1" "FCD-12" "NEW" []] None) "7c9e-1" None
  = ([], false).
Proof. reflexivity. Qed.

Example revert_of_unlisted_order :
  handleRevertStatus (V := specLiterals) Sample.env (page_showing [] None)
                     "7c9e-1" None
  = ([], false).
Proof. reflexivity. Qed.

Example late_orders_only :
  map localOrderId
      (filteredOrders (V := specLiterals) (C := Sample.byDigits) "2024-03-01"
         [assign (Col_expected_arrival_date "2024-02-20")
                 (Sample.order "k1" "FCD-7" "ORDERED" []);
          assign (Col_expected_arrival_date "2024-03-05")
                 (Sample.order "k2" "FCD-8" "ORDERED" []);
          assign (Col_expected_arrival_date "2024-02-01")
                 (Sample.order "k3" "FCD-9" "STORED" [])]
         None (Some "") None (Some "late"))
  = ["FCD-7"].
Proof. reflexivity. Qed.

Example search_results_replace_the_list :
  map localOrderId
      (filteredOrders (V := specLiterals) (C := Sample.byDigits) "2024-03-01"
         [Sample.order "k1" "FCD-7" "ORDERED" []]
         (Some [Sample.order "k2" "FCD-8" "NEW" []; Sample.order "k3" "FCD-19" "NEW" []])
         (Some "FCD") None (Some "late"))
  = ["FCD-19"; "FCD-8"].
Proof. reflexivity. Qed.

Example blank_term_clears_results :
  Search.searchResults
    (Search.run [Search.TermChanged (Some "a"); Search.Elapse 600;
                 Search.Respond 0 [Sample.placed];
                 Search.TermChanged (Some "  ")] Search.initial)
  = None.
Proof. reflexivity. Qed.

(** White space is what [trim] takes it to be: a no-break space, U+00A0,
    an ideographic space, U+3000, a line separator, U+2028, and a byte
    order mark, U+FEFF, are blank; a zero-width space, U+200B, and an [e]
    with an acute accent are not. *)
Example white_space_beyond_ascii :
  let utf8 (bytes : list nat) :=
    fold_right (fun b rest => String (ascii_of_nat b) rest) "" bytes in
  map (fun bytes => trim_truthy (utf8 bytes))
      [[194; 160]; [32; 227; 128; 128; 9]; [226; 128; 168]; [239; 187; 191];
       [226; 128; 139]; [195; 169]; [32; 97; 194; 160]]%nat
  = [false; false; false; false; true; true; true].
Proof. reflexivity. Qed.

(** A term that is one no-break space sets no timer and sends no query. *)
Example no_break_space_is_no_search :
  let nbsp := String (ascii_of_nat 194) (String (ascii_of_nat 160) "") in
  let s := Search.run [Search.TermChanged (Some nbsp); Search.Elapse 600]
                      Search.initial in
  (Search.timer s, Search.issued s, Search.searchResults s)
  = (None, [], None).
Proof. reflexivity. Qed.

(** A no-break space inside the name is refused by the test for an
    e-mail, and a name between no-break spaces is trimmed. *)
Example no_break_space_at_login :
  let nbsp := String (ascii_of_nat 194) (String (ascii_of_nat 160) "") in
  Login.isEmailFormat ("a" ++ nbsp ++ "b@example.com") = false
  /\ Login.trim (nbsp ++ "amina" ++ nbsp ++ " ") = "amina"%string.
Proof. split; reflexivity. Qed.

(** The end-to-end example of the specification: a payment of 300 on an
    order with nothing paid leaves 300 paid and one more history entry. *)
Example payment_of_300 :
  let o := Sample.order "7c9e-1" "FCD-12" "ORDERED" [Sample.entry "Created Order"] in
  let R := registerPayment (T := Sample.digits) "7c9e-1" (mkRemote [o] [])
             (mkCall Sample.env (Details.mk 300 "Bankily" None 0 0)) in
  amount_paid_of "7c9e-1" R = 300
  /\ map (fun r => List.length (history_or_empty r)) (Orders R) = [2%nat].
Proof. split; reflexivity. Qed.

(* ------------------------------------------------------------------ *)
(** ** Status values *)

Lemma specLiterals_distinct : distinct_values specLiterals.
Proof. intros s t; destruct s, t; cbv; intro E; congruence. Qed.

Ltac decide_status_tests H :=
  repeat match goal with
  | |- context [String.eqb ?x ?x] => rewrite (String.eqb_refl x)
  | |- context [String.eqb (statusValue ?a) (statusValue ?b)] =>
      let E := fresh "E" in
      destruct (String.eqb_spec (statusValue a) (statusValue b)) as [E|_];
      [apply H in E; discriminate E|]
  end.

(** With distinct values, the [switch] of [handleRevertStatus] computes the
    fixed mapping of the specification. *)
Lemma prevStatusOf_value {V : StatusValues} (s : OrderStatus) :
  distinct_values V ->
  prevStatusOf (statusValue s) = spec_predecessor s.
Proof.
  intro H. destruct s; unfold prevStatusOf; decide_status_tests H; reflexivity.
Qed.

(* ------------------------------------------------------------------ *)
(** ** Reverting a status *)

(** C2, where the claim fails.  Not every order that is not NEW is
    reverted.  The handler looks the order up in the in-memory list only
    (line 333): for a COMPLETED order shown from the search results it
    returns [false] and sends nothing.  The history it sends is the one of
    the in-memory copy: when the store holds three entries and the copy
    one, the stored history is two entries long after the revert.  And
    when the update is refused the status stays and [false] is
    returned. *)
Lemma revert_not_for_every_order :
  let created := Sample.entry "Created Order" in
  let o := Sample.order "7c9e-1" "FCD-12" "COMPLETED" [created] in
  let revert (env : Env) (page : Page) :=
    handleRevertStatus (V := specLiterals) env page "7c9e-1" None in
  let statuses (S : Remote) := map status (Orders S) in
  let activities (S : Remote) :=
    map (fun r => map activity (history_or_empty r)) (Orders S) in
  (* shown from the search results only *)
  revert Sample.env
         (mkPage [] (Some [o]) (Some o) false false false false false false
                 [] [])
  = ([], false)
  /\
  (* an in-memory copy behind the store *)
  (let stored :=
     Sample.order "7c9e-1" "FCD-12" "COMPLETED"
       [created; Sample.entry "Registered payment: 300 MRU";
        Sample.entry "Status changed to COMPLETED"] in
   let R := mkRemote [stored] [] in
   let r := revert Sample.env (page_showing [o] None) in
   snd r = true
   /\ activities R
      = [["Created Order"; "Registered payment: 300 MRU";
          "Status changed to COMPLETED"]]
   /\ activities (db_run (fst r) R)
      = [["Created Order"; "Status reverted to OUT_FOR_DELIVERY"]])
  /\
  (* the update is refused *)
  (let R := mkRemote [o] [] in
   let r := revert Sample.env_orders_down (page_showing [o] None) in
   snd r = false
   /\ statuses (db_run (fst r) R) = ["COMPLETED"]
   /\ activities (db_run (fst r) R) = [["Created Order"]]).
Proof. repeat split. Qed.

(** C2. For an order that the in-memory list holds as the store has it
    and whose status is a member [s] of the enum: when [s] is NEW the
    handler returns [false] without any request or message, so the order
    is unchanged; otherwise it sends one update, and when the update is
    accepted it returns [true], the row of the order in the store has the
    predecessor of [s] under the fixed mapping as its status and its
    history followed by the one entry "Status reverted to <prevStatus>",
    and the rows with another key are as before. *)
Theorem revert_follows_fixed_mapping {V : StatusValues} (env : Env)
    (page : Page) (orderId : string) (password : option string)
    (order : Order) (s : OrderStatus) (R : Remote) :
  distinct_values V ->
  supabase env = true ->
  find_order orderId (orders page) = Some order ->
  current R order ->
  status order = statusValue s ->
  (s = NEW ->
   handleRevertStatus env page orderId password = ([], false)) /\
  (forall prev, spec_predecessor s = Some prev ->
     let entry :=
       mkEntry (now env) ("Status reverted to " ++ statusValue prev)%string
               (currentUsername env) in
     let req :=
       Orders_update
         [Col_status (statusValue prev);
          Col_history (history_or_empty order ++ [entry])]
         (eq_id orderId) in
     accepted env req ->
     handleRevertStatus env page orderId password
     = ([Call req (net env req); ShowToast (Fixed RevertDoneText) success], true)
     /\
     forall i row,
       nth_error (Orders R) i = Some row ->
       exists row',
         nth_error
           (Orders (db_run (fst (handleRevertStatus env page orderId password)) R))
           i = Some row'
         /\ (id row <> orderId -> row' = row)
         /\ (id row = orderId ->
             status row = statusValue s
             /\ status row' = statusValue prev
             /\ history_or_empty row' = history_or_empty row ++ [entry])).
Proof.
  intros Hd Hs Hf Hcur Hst. split.
  - intros ->. unfold handleRevertStatus. rewrite Hs, Hf, Hst. simpl.
    rewrite (prevStatusOf_value NEW Hd). reflexivity.
  - intros prev Hp entry req Hacc.
    assert (Hrun : handleRevertStatus env page orderId password
                   = ([Call req (net env req);
                       ShowToast (Fixed RevertDoneText) success], true)).
    { unfold handleRevertStatus. rewrite Hs, Hf, Hst. simpl.
      rewrite (prevStatusOf_value s Hd), Hp.
      unfold revertRequest, revertEntry, await, throw_if. fold entry. fold req.
      unfold accepted in Hacc. simpl. rewrite Hacc. reflexivity. }
    split; [exact Hrun|].
    intros i row Hrow. rewrite Hrun. db_step. subst req.
    rewrite (db_update_row _ (eq_id orderId) _ _ _ _ Hacc Hrow).
    cbn [matches]. eexists. split; [reflexivity|].
    destruct (String.eqb_spec (id row) orderId) as [E|E];
      (split; [intro H|intro H; try contradiction]);
      [contradiction| |reflexivity].
    assert (Hsame : row = order).
    { apply (proj2 Hcur); [now apply nth_error_In in Hrow|].
      rewrite E. symmetry. exact (find_order_id _ _ _ Hf). }
    subst row. split; [exact Hst|]. split; reflexivity.
Qed.

(** The theorem at an order that is COMPLETED and alone in the store, under
    the literal values of the specification. *)
Lemma revert_follows_fixed_mapping_witness :
  let o := Sample.order "7c9e-1" "FCD-12" "COMPLETED" [Sample.entry "Created Order"] in
  let R := mkRemote [o] [] in
  let r := handleRevertStatus (V := specLiterals) Sample.env
             (page_showing [o] None) "7c9e-1" None in
  r = ([Call (revertRequest (V := specLiterals) Sample.env o "7c9e-1" OUT_FOR_DELIVERY) ok;
        ShowToast (Fixed RevertDoneText) success], true)
  /\ exists row',
       nth_error (Orders (db_run (fst r) R)) 0 = Some row'
       /\ status row' = "OUT_FOR_DELIVERY"
       /\ map activity (history_or_empty row')
          = ["Created Order"; "Status reverted to OUT_FOR_DELIVERY"].
Proof.
  intros o R r.
  destruct (@revert_follows_fixed_mapping specLiterals Sample.env
              (page_showing [o] None) "7c9e-1" None o COMPLETED R
              specLiterals_distinct eq_refl eq_refl (current_single o [])
              eq_refl) as [_ H].
  destruct (H OUT_FOR_DELIVERY eq_refl eq_refl) as [E Hrows].
  split; [exact E|].
  destruct (Hrows 0%nat o eq_refl) as [row' [Hn [_ Hrow]]].
  exists row'. split; [exact Hn|].
  destruct (Hrow eq_refl) as [_ [Hstat Hhist]].
  split; [exact Hstat|]. rewrite Hhist. reflexivity.
Defined.

(** The password given to [handleRevertStatus] is not looked at. *)
Lemma revert_ignores_password {V : StatusValues} (env : Env) (page : Page)
    (orderId : string) (password : option string) :
  handleRevertStatus env page orderId password
  = handleRevertStatus env page orderId None.
Proof. reflexivity. Qed.

(** The sibling handler does check: with a password the identity service
    refuses, [handleDeleteOrder] stops after the sign-in request and shows
    the wrong-password text. *)
Lemma delete_checks_password :
  let o := Sample.order "7c9e-1" "FCD-12" "COMPLETED" [] in
  let effs := handleDeleteOrder Sample.env_wrong_password
                                (page_showing [o] (Some o)) "not-the-password" in
  requests effs = [Auth_signInWithPassword "amina@example.com" "not-the-password"]
  /\ shown effs = [(Fixed WrongPasswordText, error)]
  /\ Orders (db_run effs (mkRemote [o] [])) = [o].
Proof. repeat split. Qed.

(** C9. A revert out of COMPLETED called with a password that the identity
    service refuses: the handler makes no sign-in request, sends the update
    and returns [true]; the row of the store is reverted. *)
Theorem revert_applied_without_verification :
  let o := Sample.order "7c9e-1" "FCD-12" "COMPLETED" [] in
  let env := Sample.env_wrong_password in
  let run := handleRevertStatus (V := specLiterals) env (page_showing [o] None)
                                "7c9e-1" (Some "not-the-password") in
  raised (reply_error (net env (signInRequest env "not-the-password"))) <> None
  /\ requests (fst run)
     = [revertRequest (V := specLiterals) env o "7c9e-1" OUT_FOR_DELIVERY]
  /\ snd run = true
  /\ map status (Orders (db_run (fst run) (mkRemote [o] [])))
     = ["OUT_FOR_DELIVERY"].
Proof. repeat split. discriminate. Qed.

(* ------------------------------------------------------------------ *)
(** ** Changing a status *)

Lemma status_apply_payload (p : list Assign) (o : Order) :
  Forall keeps_status p -> status (apply_payload p o) = status o.
Proof.
  intro H. revert o. induction H as [|a p Ha _ IH]; intro o.
  - reflexivity.
  - unfold apply_payload in *. simpl. rewrite IH. apply Ha.
Qed.

Lemma keeps_status_if_truthy (col : string -> Assign) (x : option string) :
  (forall v, keeps_status (col v)) -> Forall keeps_status (if_truthy col x).
Proof.
  intro H. destruct x as [v|]; simpl; [destruct (truthy v)|]; auto.
Qed.

Lemma keeps_status_optional {A : Type} (col : A -> Assign) (x : option A) :
  (forall v, keeps_status (col v)) -> Forall keeps_status (optional col x).
Proof. intro H. destruct x; simpl; auto. Qed.

(** C4, at a target outside the enum: the handler sends the update, the store
    takes the target as the new status and the success message is shown. *)
Lemma status_change_accepts_unknown_target :
  let o := Sample.order "7c9e-1" "FCD-12" "NEW" [] in
  let effs := handleUpdateOrderStatus Sample.env (page_showing [o] (Some o))
                                      "7c9e-1" (Payload.only_status "CANCELLED") in
  in_enum (V := specLiterals) "CANCELLED" = false
  /\ shown effs = [(Fixed StatusUpdatedText, success)]
  /\ map status (Orders (db_run effs (mkRemote [o] []))) = ["CANCELLED"]
  /\ db_run effs (mkRemote [o] []) <> mkRemote [o] [].
Proof. repeat split. discriminate. Qed.

(** C4, as the handler has it.  The target is not validated: whatever
    non-empty target the payload carries, the handler sends one update that
    writes the target to the status column of the rows it selects and ends
    their history with "Status changed to <target>"; when the update is
    accepted the success message is shown. *)
Theorem status_change_writes_any_target (env : Env) (page : Page)
    (orderId : string) (payload : Payload.t) (target : string) :
  supabase env = true ->
  Payload.status payload = Some target ->
  truthy target = true ->
  accepted env (statusChangeRequest env page orderId payload) ->
  let effs := handleUpdateOrderStatus env page orderId payload in
  requests effs = [statusChangeRequest env page orderId payload]
  /\ shown effs = [(Fixed StatusUpdatedText, success)]
  /\ forall R i row,
       nth_error (Orders R) i = Some row ->
       matches (statusChangeFilter orderId) row = true ->
       exists row' before,
         nth_error (Orders (db_run effs R)) i = Some row'
         /\ status row' = target
         /\ history_or_empty row'
            = before ++ [mkEntry (now env)
                                 ("Status changed to " ++ target)%string
                                 (currentUsername env)].
Proof.
  intros Hs Hp Ht Hacc effs.
  assert (Heffs : effs = [Call (statusChangeRequest env page orderId payload)
                               (net env (statusChangeRequest env page orderId payload));
                          ShowToast (Fixed StatusUpdatedText) success;
                          SetStatusModalOpen false]).
  { unfold effs, handleUpdateOrderStatus, await, throw_if.
    rewrite Hs. unfold accepted in Hacc. cbn [negb bind]. rewrite Hacc.
    reflexivity. }
  rewrite Heffs. repeat split.
  intros R i row Hrow Hm. db_step.
  unfold statusChangeRequest at 1.
  rewrite (db_update_row _ _ _ _ _ _ Hacc Hrow), Hm.
  unfold statusChangePayload, statusChangeEntry.
  rewrite Hp. cbn [if_truthy or_else]. rewrite Ht.
  eexists. eexists. split; [reflexivity|]. split.
  - rewrite apply_payload_app. rewrite status_apply_payload; [reflexivity|].
    repeat (apply Forall_app; split);
      first [ apply keeps_status_if_truthy; intros v o; reflexivity
            | apply keeps_status_optional; intros v o; reflexivity
            | repeat constructor; intro o; reflexivity ].
  - repeat rewrite app_assoc.
    apply history_or_empty_apply_last.
Qed.

(** The theorem at the target "CANCELLED". *)
Lemma status_change_writes_any_target_witness :
  let o := Sample.order "7c9e-1" "FCD-12" "NEW" [] in
  shown (handleUpdateOrderStatus Sample.env (page_showing [o] (Some o))
                                 "7c9e-1" (Payload.only_status "CANCELLED"))
  = [(Fixed StatusUpdatedText, success)].
Proof.
  intro o.
  destruct (@status_change_writes_any_target Sample.env
              (page_showing [o] (Some o)) "7c9e-1"
              (Payload.only_status "CANCELLED") "CANCELLED"
              eq_refl eq_refl eq_refl eq_refl) as [_ [H _]].
  exact H.
Defined.

(* ------------------------------------------------------------------ *)
(** ** Registering a payment *)

(** The effects of [handlePaymentConfirm] when both writes are accepted. *)
Lemma handlePaymentConfirm_accepted {T : NumberText} (env : Env) (page : Page)
    (orderId : string) (details : Details.t) (selected : Order) :
  supabase env = true ->
  selectedOrder page = Some selected ->
  accepted env (paymentLedgerRequest env selected details) ->
  accepted env (paymentOrderRequest env selected details) ->
  handlePaymentConfirm env page orderId details
  = [Call (paymentLedgerRequest env selected details)
          (net env (paymentLedgerRequest env selected details));
     Call (paymentOrderRequest env selected details)
          (net env (paymentOrderRequest env selected details));
     ShowToast (Fixed PaymentRegisteredText) success;
     SetIsPaymentModalOpen false].
Proof.
  intros Hs Hsel H1 H2. unfold handlePaymentConfirm, await, throw_if.
  rewrite Hs, Hsel. unfold accepted in H1, H2.
  cbn [bind]. rewrite H1. cbn [bind ret app]. rewrite H2. reflexivity.
Qed.

(** The effects of [handlePaymentConfirm] when the ledger insert is
    refused. *)
Lemma handlePaymentConfirm_ledger_refused {T : NumberText} (env : Env) (page : Page)
    (orderId : string) (details : Details.t) (selected : Order) (e : JsError) :
  supabase env = true ->
  selectedOrder page = Some selected ->
  raised (reply_error (net env (paymentLedgerRequest env selected details)))
    = Some e ->
  handlePaymentConfirm env page orderId details
  = [Call (paymentLedgerRequest env selected details)
          (net env (paymentLedgerRequest env selected details));
     ShowToast (getErrorMessage (Some e)) error].
Proof.
  intros Hs Hsel H1. unfold handlePaymentConfirm, await, throw_if.
  rewrite Hs, Hsel. cbn [bind]. rewrite H1. reflexivity.
Qed.

(** The effects of [handlePaymentConfirm] when the ledger insert is accepted
    and the order update is refused. *)
Lemma handlePaymentConfirm_update_refused {T : NumberText} (env : Env) (page : Page)
    (orderId : string) (details : Details.t) (selected : Order) (e : JsError) :
  supabase env = true ->
  selectedOrder page = Some selected ->
  accepted env (paymentLedgerRequest env selected details) ->
  raised (reply_error (net env (paymentOrderRequest env selected details)))
    = Some e ->
  handlePaymentConfirm env page orderId details
  = [Call (paymentLedgerRequest env selected details)
          (net env (paymentLedgerRequest env selected details));
     Call (paymentOrderRequest env selected details)
          (net env (paymentOrderRequest env selected details));
     ShowToast (getErrorMessage (Some e)) error].
Proof.
  intros Hs Hsel H1 H2. unfold handlePaymentConfirm, await, throw_if.
  rewrite Hs, Hsel. unfold accepted in H1.
  cbn [bind]. rewrite H1. cbn [bind ret app]. rewrite H2. reflexivity.
Qed.

(** C8. A payment is two requests in sequence, the ledger insert and then
    the order update.  When the ledger insert is refused the order update is
    not sent, the rows of the store and the orders the page holds are as
    before, and the message of the error is shown. *)
Theorem payment_stops_at_refused_ledger {T : NumberText} (env : Env)
    (page : Page) (orderId : string) (details : Details.t) (selected : Order) :
  supabase env = true ->
  selectedOrder page = Some selected ->
  let ledger := paymentLedgerRequest env selected details in
  let update := paymentOrderRequest env selected details in
  let effs := handlePaymentConfirm env page orderId details in
  (accepted env ledger -> requests effs = [ledger; update])
  /\ (forall e, raised (reply_error (net env ledger)) = Some e ->
        requests effs = [ledger]
        /\ shown effs = [(getErrorMessage (Some e), error)]
        /\ (forall R, db_run effs R = R)
        /\ orders (page_run effs page) = orders page
        /\ searchResults (page_run effs page) = searchResults page
        /\ selectedOrder (page_run effs page) = selectedOrder page).
Proof.
  intros Hs Hsel ledger update effs. split.
  - intro H1.
    destruct (raised (reply_error (net env update))) as [e|] eqn:H2.
    + unfold effs.
      rewrite (handlePaymentConfirm_update_refused _ _ _ _ _ _ Hs Hsel H1 H2).
      reflexivity.
    + unfold effs.
      rewrite (handlePaymentConfirm_accepted _ _ _ _ _ Hs Hsel H1 H2).
      reflexivity.
  - intros e H1. unfold effs.
    rewrite (handlePaymentConfirm_ledger_refused _ _ _ _ _ _ Hs Hsel H1).
    repeat split.
    intro R. db_step. unfold db_call. fold ledger. rewrite H1. reflexivity.
Qed.

(** The theorem where the ledger refuses every insert. *)
Lemma payment_stops_at_refused_ledger_witness :
  let o := Sample.order "7c9e-1" "FCD-12" "ORDERED" [] in
  let d := Details.mk 300 "Bankily" None 0 0 in
  let effs := handlePaymentConfirm (T := Sample.digits) Sample.env_ledger_down
                                   (page_showing [o] (Some o)) "7c9e-1" d in
  requests effs = [paymentLedgerRequest Sample.env_ledger_down o d]
  /\ shown effs = [(Plain "TypeError: Failed to fetch", error)]
  /\ db_run effs (mkRemote [o] []) = mkRemote [o] [].
Proof.
  intros o d effs.
  destruct (payment_stops_at_refused_ledger (T := Sample.digits)
              Sample.env_ledger_down
              (page_showing [o] (Some o)) "7c9e-1" d o eq_refl eq_refl)
    as [_ H].
  destruct (H _ eq_refl) as [H1 [H2 [H3 _]]].
  split; [exact H1|]. split; [exact H2|]. exact (H3 (mkRemote [o] [])).
Defined.

(** At one confirmation whose ledger insert is accepted and whose order
    update is refused: the ledger holds the amount, the amount paid of the
    order is as before, and the two differ. *)
Lemma payment_between_the_writes :
  let o := Sample.order "7c9e-1" "FCD-12" "ORDERED" [] in
  let d := Details.mk 300 "Bankily" None 0 0 in
  let R := registerPayments (T := Sample.digits) "7c9e-1"
             [mkCall Sample.env_orders_down d] (mkRemote [o] []) in
  amount_paid_of "7c9e-1" (mkRemote [o] []) = 0
  /\ ledger_total "7c9e-1" R = 300
  /\ amount_paid_of "7c9e-1" R = 0
  /\ amount_paid_of "7c9e-1" R <> ledger_total "7c9e-1" R.
Proof. repeat split. discriminate. Qed.

(** Two confirmations made from the same copy of the order, which the page
    still holds after the first (search results are not refreshed): the
    second update starts from the amount the copy has, and the amount paid
    ends below the ledger total. *)
Lemma payment_from_stale_copy :
  let o := Sample.order "7c9e-1" "FCD-12" "ORDERED" [] in
  let page := mkPage [] (Some [o]) (Some o) false false false true false false [] [] in
  let R1 := db_run (handlePaymentConfirm (T := Sample.digits) Sample.env page
                      "7c9e-1" (Details.mk 300 "Bankily" None 0 0))
                   (mkRemote [o] []) in
  let R2 := db_run (handlePaymentConfirm (T := Sample.digits) Sample.env page
                      "7c9e-1" (Details.mk 200 "Cash" None 0 0)) R1 in
  ledger_total "7c9e-1" R2 = 500 /\ amount_paid_of "7c9e-1" R2 = 200.
Proof. split; reflexivity. Qed.

(** The amounts are doubles, and so is their sum.  On an order with
    9007199254740992 (2^53) paid, a payment of 1 is accepted and leaves the
    amount paid as it was; payments of 2^53, 1 and 1 from nothing paid leave
    2^53 paid, where the three amounts add up to 2^53 + 2, which is a
    double; and a tenth and two tenths do not add up to three tenths. *)
Lemma payment_rounded_to_a_double :
  let big := 9007199254740992 in
  let o := assign (Col_amount_paid big)
                  (Sample.order "7c9e-1" "FCD-12" "ORDERED" []) in
  let pay (amount : Number) :=
    mkCall Sample.env (Details.mk amount "Cash" None 0 0) in
  amount_paid_of "7c9e-1"
    (registerPayments (T := Sample.digits) "7c9e-1" [pay 1] (mkRemote [o] []))
  = big
  /\ amount_paid_of "7c9e-1"
       (registerPayments (T := Sample.digits) "7c9e-1" [pay big; pay 1; pay 1]
          (mkRemote [Sample.order "7c9e-1" "FCD-12" "ORDERED" []] []))
     = big
  /\ js_eq big (number_of_Z (9007199254740992 + 1 + 1)) = false
  /\ js_eq (js_add (js_div 1 10) (js_div 2 10)) (js_div 3 10) = false.
Proof. repeat split. Qed.

(** C3, where the claim fails.  The amount paid does not follow the
    ledger when the order update is refused after the ledger insert, or when
    the payment is made from a copy of the order that is behind the store;
    an amount is added as a double, not exactly; and after an amount that
    is not a number the next payment starts from nothing paid. *)
Lemma payments_do_not_always_add_up :
  let o := Sample.order "7c9e-1" "FCD-12" "ORDERED" [] in
  let pay env (amount : Number) :=
    mkCall env (Details.mk amount "Cash" None 0 0) in
  (* the order update is refused *)
  (let R := registerPayments (T := Sample.digits) "7c9e-1"
              [pay Sample.env_orders_down 300] (mkRemote [o] []) in
   ledger_total "7c9e-1" R = 300 /\ amount_paid_of "7c9e-1" R = 0)
  (* two payments from one copy of the order *)
  /\ (let page := mkPage [] (Some [o]) (Some o) false false false true false
                         false [] [] in
      let R1 := db_run (handlePaymentConfirm (T := Sample.digits) Sample.env
                          page "7c9e-1" (Details.mk 300 "Bankily" None 0 0))
                       (mkRemote [o] []) in
      let R2 := db_run (handlePaymentConfirm (T := Sample.digits) Sample.env
                          page "7c9e-1" (Details.mk 200 "Cash" None 0 0)) R1 in
      ledger_total "7c9e-1" R2 = 500 /\ amount_paid_of "7c9e-1" R2 = 200)
  (* 2^53, 1 and 1, each paid on the order as the store has it *)
  /\ (let R := registerPayments (T := Sample.digits) "7c9e-1"
                 [pay Sample.env 9007199254740992; pay Sample.env 1;
                  pay Sample.env 1] (mkRemote [o] []) in
      amount_paid_of "7c9e-1" R = 9007199254740992
      /\ js_eq (amount_paid_of "7c9e-1" R)
               (number_of_Z (9007199254740992 + 1 + 1)) = false)
  (* 300, an amount that is [NaN], and 200 *)
  /\ (let R := registerPayments (T := Sample.digits) "7c9e-1"
                 [pay Sample.env 300; pay Sample.env S754_nan;
                  pay Sample.env 200] (mkRemote [o] []) in
      map Payment.amount (OrderPayments R) = [300 : Number; S754_nan; 200 : Number]
      /\ amount_paid_of "7c9e-1" R = 200).
Proof. repeat split. Qed.

(** One accepted payment, seen in the store. *)
Lemma payment_in_store {T : NumberText} (env : Env) (page : Page)
    (orderId : string) (details : Details.t) (selected : Order) (R : Remote) :
  supabase env = true ->
  selectedOrder page = Some selected ->
  accepted env (paymentLedgerRequest env selected details) ->
  accepted env (paymentOrderRequest env selected details) ->
  db_run (handlePaymentConfirm env page orderId details) R
  = mkRemote
      (map (fun o =>
              if (id o =? id selected)%string
              then assign (Col_history (history_or_empty selected
                                        ++ [paymentEntry env details]))
                     (assign (Col_transaction_fee
                                (js_add (number_or_0 (transactionFee selected))
                                        (Details.transactionFee details)))
                        (assign (Col_local_delivery_cost
                                   (Details.localDeliveryCost details))
                           (assign (Col_amount_paid
                                      (js_add
                                         (number_or_0 (amountPaid selected))
                                         (Details.amountPaid details))) o)))
              else o)
           (Orders R))
      (OrderPayments R
       ++ [Payment.mk (id selected) (Details.amountPaid details)
                      (Details.paymentMethod details)
                      (Details.receiptImages details)
                      (paymentUser env) "Manual Update from Card"]).
Proof.
  intros Hs Hsel H1 H2.
  rewrite (handlePaymentConfirm_accepted _ _ _ _ _ Hs Hsel H1 H2). db_step.
  unfold db_call. unfold accepted in H1, H2. rewrite H1, H2. reflexivity.
Qed.

Lemma ledger_total_insert (orderId : string) (os : list Order)
    (ps : list Payment.t) (row : Payment.t) :
  ledger_total orderId (mkRemote os (ps ++ [row]))
  = if (Payment.order_id row =? orderId)%string
    then js_add (ledger_total orderId (mkRemote os ps)) (Payment.amount row)
    else ledger_total orderId (mkRemote os ps).
Proof.
  unfold ledger_total. cbn [OrderPayments].
  rewrite filter_app, map_app, fold_left_app. simpl.
  destruct (Payment.order_id row =? orderId)%string; reflexivity.
Qed.

Lemma find_order_map_update (key : string) (f : Order -> Order) (l : list Order) :
  (forall o, id (f o) = id o) ->
  find_order key (map (fun o => if (id o =? key)%string then f o else o) l)
  = option_map f (find_order key l).
Proof.
  intro Hf. unfold find_order. induction l as [|x l IH]; simpl.
  - reflexivity.
  - destruct (id x =? key)%string eqn:E.
    + rewrite Hf, E. reflexivity.
    + rewrite E. exact IH.
Qed.

(** [|| 0] makes no difference to a sum, as the next [|| 0] reads it,
    unless it replaces [NaN]. *)
Lemma number_or_0_add (total amount : Number) :
  is_finite total = true ->
  number_or_0 (Some (js_add (number_or_0 (Some total)) amount))
  = number_or_0 (Some (js_add total amount)).
Proof.
  destruct total as [s|s| |s m e]; try discriminate; intros _;
    [|reflexivity].
  destruct s; [|reflexivity].
  destruct amount as [s'|s'| |s' m' e']; try reflexivity.
  destruct s'; reflexivity.
Qed.

(** A finite number is equal to what [|| 0] makes of it. *)
Lemma number_or_0_finite (x : Number) :
  is_finite x = true -> js_eq (number_or_0 (Some x)) x = true.
Proof.
  destruct x as [s|s| |s m e]; try discriminate; intros _.
  - reflexivity.
  - unfold js_eq, SFeqb. cbn [number_or_0 SFcompare].
    rewrite Z.compare_refl, Pos.compare_cont_refl. destruct s; reflexivity.
Qed.

(** One confirmation keeps the amount paid at the ledger total of the
    order, as long as the order update is not refused and the total was
    finite. *)
Lemma registerPayment_keeps_balance {T : NumberText} (orderId : string)
    (R : Remote) (c : PaymentCall) :
  order_updates_accepted c ->
  is_finite (ledger_total orderId R) = true ->
  balanced orderId R ->
  balanced orderId (registerPayment orderId R c).
Proof.
  unfold balanced. intros Hu Hfin Hbal. unfold registerPayment.
  destruct (supabase (call_env c)) eqn:Hs.
  2:{ unfold handlePaymentConfirm. rewrite Hs. exact Hbal. }
  destruct (find_order orderId (Orders R)) as [o|] eqn:Hf.
  2:{ unfold handlePaymentConfirm. rewrite Hs. simpl. exact Hbal. }
  pose proof (find_order_id _ _ _ Hf) as Hid.
  set (page := page_showing (Orders R) (Some o)).
  destruct (raised (reply_error
                      (net (call_env c)
                           (paymentLedgerRequest (call_env c) o (call_details c)))))
    as [e|] eqn:H1.
  - rewrite (handlePaymentConfirm_ledger_refused (call_env c) page orderId
               (call_details c) o e Hs eq_refl H1).
    db_step. unfold db_call. rewrite H1. exact Hbal.
  - rewrite (payment_in_store (call_env c) page orderId (call_details c) o R
               Hs eq_refl H1 (Hu _ _)).
    rewrite ledger_total_insert. cbn [Payment.order_id Payment.amount].
    rewrite Hid, String.eqb_refl.
    unfold ledger_total at 1. cbn [OrderPayments].
    fold (ledger_total orderId R).
    rewrite <- (number_or_0_add _ _ Hfin), <- Hbal.
    unfold amount_paid_of. cbn [Orders].
    rewrite find_order_map_update by (intro; reflexivity).
    rewrite Hf. reflexivity.
Qed.

(** C3, as the handler has it.  An accepted payment sends the ledger insert
    and then the order update.  Made on the order as the store has it, it
    leaves the ledger with one more row, for the order and the amount, and
    the row of the order with the sum of its amount paid and the amount,
    the sum of its transaction fee and the fee, both sums those of doubles
    (line 243), the local delivery cost and its history extended by one
    entry.  Over any number of confirmations, each made on the order as
    the store has it and none with its order update refused, with a ledger
    total that stays finite, an order that starts with nothing paid and
    nothing in the ledger ends with an amount paid equal to its ledger
    amounts added up, one after the other, as doubles. *)
Theorem payments_add_up {T : NumberText} (env : Env) (page : Page)
    (details : Details.t) (selected : Order) (orderId : string)
    (calls : list PaymentCall) (R : Remote) :
  supabase env = true ->
  selectedOrder page = Some selected ->
  accepted env (paymentLedgerRequest env selected details) ->
  accepted env (paymentOrderRequest env selected details) ->
  Forall order_updates_accepted calls ->
  totals_finite orderId calls R = true ->
  amount_paid_of orderId R = 0 ->
  ledger_total orderId R = 0 ->
  let effs := handlePaymentConfirm env page (id selected) details in
  let paid :=
    Payment.mk (id selected) (Details.amountPaid details)
               (Details.paymentMethod details) (Details.receiptImages details)
               (paymentUser env) "Manual Update from Card" in
  (requests effs
   = [OrderPayments_insert paid; paymentOrderRequest env selected details]
   /\ forall R0,
        current R0 selected ->
        OrderPayments (db_run effs R0) = OrderPayments R0 ++ [paid]
        /\ forall i row,
             nth_error (Orders R0) i = Some row ->
             exists row',
               nth_error (Orders (db_run effs R0)) i = Some row'
               /\ (id row <> id selected -> row' = row)
               /\ (id row = id selected ->
                   amountPaid row'
                   = Some (js_add (number_or_0 (amountPaid row))
                                  (Details.amountPaid details))
                   /\ transactionFee row'
                      = Some (js_add (number_or_0 (transactionFee row))
                                     (Details.transactionFee details))
                   /\ localDeliveryCost row'
                      = Some (Details.localDeliveryCost details)
                   /\ history_or_empty row'
                      = history_or_empty row ++ [paymentEntry env details]))
  /\ js_eq (amount_paid_of orderId (registerPayments orderId calls R))
           (ledger_total orderId (registerPayments orderId calls R)) = true.
Proof.
  intros Hs Hsel H1 H2 Hcalls Hfinite Hpaid Hledger effs paid. split.
  - split.
    + unfold effs.
      rewrite (handlePaymentConfirm_accepted _ _ _ _ _ Hs Hsel H1 H2). reflexivity.
    + intros R0 Hcur. unfold effs.
      rewrite (payment_in_store env page (id selected) details selected R0
                 Hs Hsel H1 H2).
      cbn [Orders OrderPayments]. split; [reflexivity|].
      intros i row Hrow. rewrite nth_error_map, Hrow. cbn [option_map].
      eexists. split; [reflexivity|].
      destruct (String.eqb_spec (id row) (id selected)) as [E|E];
        (split; [intro H|intro H; try contradiction]);
        [contradiction| |reflexivity].
      assert (Hsame : row = selected)
        by (apply (proj2 Hcur); [now apply nth_error_In in Hrow|exact E]).
      subst row. repeat split.
  - assert (Hbal : balanced orderId R)
      by (unfold balanced; rewrite Hpaid, Hledger; reflexivity).
    clear Hpaid Hledger. revert R Hbal Hfinite.
    induction Hcalls as [|c calls Hc _ IH]; intros R Hbal Hfinite.
    + cbn [registerPayments fold_left]. unfold balanced in Hbal.
      rewrite Hbal. apply number_or_0_finite.
      cbn [totals_finite] in Hfinite. now rewrite andb_true_r in Hfinite.
    + cbn [totals_finite] in Hfinite. apply andb_true_iff in Hfinite.
      destruct Hfinite as [Hfin Hrest].
      unfold registerPayments in *. cbn [fold_left]. apply IH; [|exact Hrest].
      now apply registerPayment_keeps_balance.
Qed.

(** The theorem for payments of 300 and 200 on an order with nothing
    paid: the amount paid and the ledger total are both 500. *)
Lemma payments_add_up_witness :
  let o := Sample.order "7c9e-1" "FCD-12" "ORDERED" [] in
  let calls := [mkCall Sample.env (Details.mk 300 "Bankily" None 0 0);
                mkCall Sample.env_ledger_down (Details.mk 50 "Cash" None 0 0);
                mkCall Sample.env (Details.mk 200 "Cash" None 100 5)] in
  let R := registerPayments (T := Sample.digits) "7c9e-1" calls
                            (mkRemote [o] []) in
  js_eq (amount_paid_of "7c9e-1" R) (ledger_total "7c9e-1" R) = true
  /\ amount_paid_of "7c9e-1" R = 500.
Proof.
  intros o calls R. split; [|reflexivity].
  refine (proj2 (@payments_add_up Sample.digits Sample.env
                   (page_showing [o] (Some o))
                   (Details.mk 300 "Bankily" None 0 0) o "7c9e-1" calls
                   (mkRemote [o] []) eq_refl eq_refl eq_refl eq_refl _
                   eq_refl eq_refl eq_refl)).
  repeat constructor.
Defined.

(* ------------------------------------------------------------------ *)
(** ** Marking an invoice as sent *)

Lemma markInvoicePrinted_other (key : string) (o : Order) :
  id o <> key -> markInvoicePrinted key o = o.
Proof.
  intro H. unfold markInvoicePrinted.
  destruct (String.eqb_spec (id o) key); [contradiction|reflexivity].
Qed.

Lemma markInvoicePrinted_target (key : string) (o : Order) :
  id o = key ->
  markInvoicePrinted key o = assign (Col_is_invoice_printed true) o.
Proof. intros <-. unfold markInvoicePrinted. now rewrite String.eqb_refl. Qed.

Lemma invoice_marked_map (key : string) (l : list Order) (i : nat) (o : Order) :
  nth_error l i = Some o ->
  exists o',
    nth_error (map (markInvoicePrinted key) l) i = Some o'
    /\ invoice_marked key o o'.
Proof.
  intro H. exists (markInvoicePrinted key o). split.
  - rewrite nth_error_map, H. reflexivity.
  - split.
    + intro E. rewrite (markInvoicePrinted_target _ _ E). split; reflexivity.
    + intro E. apply markInvoicePrinted_other, E.
Qed.

(** The handler is made with the page of one render, [page], and goes on
    after its request on the page as it is by then, [later].  When the
    update is accepted, the orders of [later] are at the same places, an
    order with the key of the targeted order has [isInvoicePrinted] true
    and every other member as before, and every other order is as
    before.  The search results of [later] are treated the same when
    [page] had search results (the test of line 316 reads [page]), and
    are left as they are when it had none. *)
Lemma invoice_sent_at_resume (env : Env) (page later : Page) (order : Order) :
  supabase env = true ->
  accepted env (invoiceRequest order) ->
  let page' := page_run (handleInvoiceSent env page order) later in
  List.length (orders page') = List.length (orders later)
  /\ (forall i o, nth_error (orders later) i = Some o ->
        exists o', nth_error (orders page') i = Some o'
                   /\ invoice_marked (id order) o o')
  /\ match searchResults page, searchResults later with
     | Some _, Some found =>
         exists found',
           searchResults page' = Some found'
           /\ List.length found' = List.length found
           /\ forall i o, nth_error found i = Some o ->
                exists o', nth_error found' i = Some o'
                           /\ invoice_marked (id order) o o'
     | _, _ => searchResults page' = searchResults later
     end
  /\ selectedOrder page' = selectedOrder later.
Proof.
  intros Hs Hacc page'.
  assert (Hp : page'
               = mkPage (map (markInvoicePrinted (id order)) (orders later))
                   (match searchResults page with
                    | Some _ =>
                        option_map (map (markInvoicePrinted (id order)))
                                   (searchResults later)
                    | None => searchResults later
                    end)
                   (selectedOrder later) (isSaving later)
                   (isFormModalOpen later) (isStatusModalOpen later)
                   (isPaymentModalOpen later) (isNotificationModalOpen later)
                   (isDeleteModalOpen later)
                   (toasts later ++ [(Fixed InvoiceUpdatedText, success)])
                   (windows later)).
  { unfold page', handleInvoiceSent, await, throw_if. rewrite Hs.
    unfold accepted in Hacc. cbn [negb bind]. rewrite Hacc.
    destruct (searchResults page); reflexivity. }
  rewrite Hp. cbn. repeat split.
  - apply length_map.
  - intros i o H. now apply invoice_marked_map.
  - destruct (searchResults page) as [shown|];
      destruct (searchResults later) as [found|]; cbn; try reflexivity.
    eexists. split; [reflexivity|]. split; [apply length_map|].
    intros i o H. now apply invoice_marked_map.
Qed.

(** On the page of the call, both lists are marked. *)
Example invoice_sent_on_the_same_page :
  let a := Sample.order "7c9e-1" "FCD-12" "ORDERED" [Sample.entry "Created Order"] in
  let b := Sample.order "7c9e-2" "FCD-13" "ORDERED" [] in
  let page := mkPage [a; b] (Some [a]) None false false false false false false [] [] in
  let page' := page_run (handleInvoiceSent Sample.env page a) page in
  map isInvoicePrinted (orders page') = [true; false]
  /\ option_map (map isInvoicePrinted) (searchResults page') = Some [true].
Proof. split; reflexivity. Qed.

(** C10. The search results are not always marked.  The handler tests
    [searchResults] after its request (line 316), and what it reads there
    is the value of the render that made it, while the two updates run on
    the lists as they are by then.  An order is marked from the main list
    while a search is on its way, and the results, which hold the order,
    arrive before the update is answered: the update is accepted, the
    order is marked in the main list, and in the search results, which
    are the list shown from then on, its flag is still false.  With the
    same results there from the start both lists are marked. *)
Theorem invoice_sent_misses_arriving_results :
  let o := Sample.order "7c9e-1" "FCD-12" "ORDERED" [Sample.entry "Created Order"] in
  let flags (p : Page) :=
    (map isInvoicePrinted (orders p),
     option_map (map isInvoicePrinted) (searchResults p)) in
  let at_call := page_showing [o] None in
  let at_resume :=
    mkPage [o] (Some [o]) None false false false false false false [] [] in
  let effs := handleInvoiceSent Sample.env at_call o in
  requests effs = [Orders_update [Col_is_invoice_printed true] (eq_id "7c9e-1")]
  /\ shown effs = [(Fixed InvoiceUpdatedText, success)]
  /\ flags at_resume = ([false], Some [false])
  /\ flags (page_run effs at_resume) = ([true], Some [false])
  /\ flags (page_run (handleInvoiceSent Sample.env at_resume o) at_resume)
     = ([true], Some [true]).
Proof. repeat split. Qed.

(* ------------------------------------------------------------------ *)
(** ** History across operations *)

Lemma handleSaveOrder_accepted (env : Env) (orderData : Order) :
  supabase env = true ->
  accepted env (saveOrderRequest env orderData) ->
  handleSaveOrder env orderData
  = [SetIsSaving true;
     Call (saveOrderRequest env orderData)
          (net env (saveOrderRequest env orderData));
     ShowToast (Fixed (if truthy (id orderData)
                       then OrderUpdatedText else OrderAddedText)) success;
     SetFormModalOpen false;
     SetIsSaving false].
Proof.
  intros Hs Hacc. unfold handleSaveOrder, await, throw_if. rewrite Hs.
  unfold accepted in Hacc. cbn [negb bind]. rewrite Hacc. reflexivity.
Qed.

Lemma handleUpdateOrderStatus_accepted (env : Env) (page : Page)
    (orderId : string) (payload : Payload.t) :
  supabase env = true ->
  accepted env (statusChangeRequest env page orderId payload) ->
  handleUpdateOrderStatus env page orderId payload
  = [Call (statusChangeRequest env page orderId payload)
          (net env (statusChangeRequest env page orderId payload));
     ShowToast (Fixed StatusUpdatedText) success;
     SetStatusModalOpen false].
Proof.
  intros Hs Hacc. unfold handleUpdateOrderStatus, await, throw_if. rewrite Hs.
  unfold accepted in Hacc. cbn [negb bind]. rewrite Hacc. reflexivity.
Qed.

Lemma handleNotificationConfirm_sent {W : WhatsappLink} (env : Env)
    (page : Page) (lang : string) (selected : Order) (client : Client.t) :
  supabase env = true ->
  selectedOrder page = Some selected ->
  find (fun c => (Client.id c =? clientId selected)%string) (clients env)
    = Some client ->
  truthy_opt (notificationTemplate env lang) = true ->
  handleNotificationConfirm env page lang
  = [WindowOpen (whatsappUrl selected client lang
                             (or_else (notificationTemplate env lang) "")
                             (companyName env));
     Call (notificationRequest env selected lang)
          (net env (notificationRequest env selected lang));
     ShowToast (Fixed WhatsappOpenedText) success;
     SetIsNotificationModalOpen false].
Proof.
  intros Hs Hsel Hc Ht. unfold handleNotificationConfirm.
  rewrite Hsel, Hs, Hc, Ht. reflexivity.
Qed.

Lemma handleRevertStatus_accepted {V : StatusValues} (env : Env) (page : Page)
    (orderId : string) (password : option string) (order : Order)
    (prevStatus : OrderStatus) :
  supabase env = true ->
  find_order orderId (orders page) = Some order ->
  prevStatusOf (status order) = Some prevStatus ->
  accepted env (revertRequest env order orderId prevStatus) ->
  handleRevertStatus env page orderId password
  = ([Call (revertRequest env order orderId prevStatus)
           (net env (revertRequest env order orderId prevStatus));
      ShowToast (Fixed RevertDoneText) success], true).
Proof.
  intros Hs Hf Hp Hacc. unfold handleRevertStatus, await, throw_if.
  rewrite Hs, Hf, Hp. unfold accepted in Hacc.
  cbn [negb bind]. rewrite Hacc. reflexivity.
Qed.

Lemma handleInvoiceSent_store (env : Env) (page : Page) (order : Order)
    (R : Remote) :
  supabase env = true ->
  accepted env (invoiceRequest order) ->
  db_run (handleInvoiceSent env page order) R
  = db_call (invoiceRequest order) (net env (invoiceRequest order)) R.
Proof.
  intros Hs Hacc. unfold handleInvoiceSent, await, throw_if. rewrite Hs.
  unfold accepted in Hacc. cbn [negb bind]. rewrite Hacc.
  destruct page as [os [found|] sel saving form st pay notif del ts ws];
    reflexivity.
Qed.

Lemma saveOrderPayload_history (env : Env) (orderData o : Order) :
  history_or_empty (apply_payload (saveOrderPayload env orderData) o)
  = history_or_empty orderData ++ [saveOrderEntry env orderData].
Proof.
  unfold saveOrderPayload. repeat rewrite app_assoc.
  apply history_or_empty_apply_last.
Qed.

Lemma statusChangePayload_history (env : Env) (page : Page) (orderId : string)
    (payload : Payload.t) (o : Order) :
  history_or_empty (apply_payload (statusChangePayload env page orderId payload) o)
  = match find_order orderId (orders page) with
    | Some found => history_or_empty found
    | None => []
    end ++ [statusChangeEntry env payload].
Proof.
  unfold statusChangePayload. repeat rewrite app_assoc.
  apply history_or_empty_apply_last.
Qed.

(** The five other handlers send, with their update, the history of the
    order they were given followed by one entry: whatever the row held, it
    holds that history once the update is applied.  [handleInvoiceSent]
    sends the flag alone, and the history of the row is as it was. *)
Lemma siblings_send_history_with_one_entry {V : StatusValues}
    {T : NumberText} (env : Env) (page : Page) (given row : Order) :
  history_or_empty (apply_payload (saveOrderPayload env given) row)
  = history_or_empty given ++ [saveOrderEntry env given]
  /\ (forall orderId payload,
        find_order orderId (orders page) = Some given ->
        history_or_empty
          (apply_payload (statusChangePayload env page orderId payload) row)
        = history_or_empty given ++ [statusChangeEntry env payload])
  /\ (forall details payload flt,
        paymentOrderRequest env given details = Orders_update payload flt ->
        history_or_empty (apply_payload payload row)
        = history_or_empty given ++ [paymentEntry env details])
  /\ (forall lang payload flt,
        notificationRequest env given lang = Orders_update payload flt ->
        history_or_empty (apply_payload payload row)
        = history_or_empty given ++ [notificationEntry env lang])
  /\ (forall orderId prevStatus payload flt,
        revertRequest env given orderId prevStatus
        = Orders_update payload flt ->
        history_or_empty (apply_payload payload row)
        = history_or_empty given ++ [revertEntry env prevStatus])
  /\ (forall payload flt,
        invoiceRequest given = Orders_update payload flt ->
        history (apply_payload payload row) = history row).
Proof.
  split; [apply saveOrderPayload_history|]. split.
  - intros orderId payload Hf. rewrite statusChangePayload_history, Hf.
    reflexivity.
  - repeat split; intros; match goal with
                          | H : _ = Orders_update _ _ |- _ =>
                              injection H as <- <-
                          end; reflexivity.
Qed.

(** At the invoice-sent update: the handler changes the order in the store
    and on the page, and the history of the order is the one it had, with
    no entry appended. *)
Lemma invoice_sent_appends_nothing :
  let o := Sample.order "7c9e-1" "FCD-12" "ORDERED" [Sample.entry "Created Order"] in
  let page := page_showing [o] None in
  let effs := handleInvoiceSent Sample.env page o in
  requests effs = [Orders_update [Col_is_invoice_printed true] (eq_id "7c9e-1")]
  /\ map isInvoicePrinted (Orders (db_run effs (mkRemote [o] []))) = [true]
  /\ map history_or_empty (Orders (db_run effs (mkRemote [o] [])))
     = [[Sample.entry "Created Order"]]
  /\ map history_or_empty (orders (page_run effs page))
     = [[Sample.entry "Created Order"]].
Proof. repeat split. Qed.

(** A status change asked for an order that the in-memory list does not
    hold (the page shows it as a search result): the history sent is the
    new entry alone, and the two entries of the row are gone. *)
Lemma status_change_unlisted_order :
  let o := Sample.order "7c9e-1" "FCD-12" "ORDERED"
             [Sample.entry "Created Order"; Sample.entry "Status changed to ORDERED"] in
  let page := mkPage [] (Some [o]) (Some o) false false true false false false [] [] in
  let effs := handleUpdateOrderStatus Sample.env page "7c9e-1"
                (Payload.only_status "SHIPPED_FROM_STORE") in
  map (fun r => List.length (history_or_empty r))
      (Orders (db_run effs (mkRemote [o] []))) = [1%nat].
Proof. reflexivity. Qed.

(** C1. The history is not append-only.  Marking the invoice of an order
    as sent changes the row, its flag going from false to true, and appends
    no entry: the one request carries the flag alone.  And the history a
    handler sends is built on the copy of the order the page holds: after a
    payment and then a notification made from one card of the search
    results, which are not refreshed, the row has the entry of the
    notification in the place of the entry of the payment, which is
    lost; and after a status change made from such a card, for an order
    the in-memory list does not hold, the row is left with the new entry
    alone, one entry where it had two. *)
Theorem history_entry_missing_or_lost :
  let o := Sample.order "7c9e-1" "FCD-12" "ORDERED" [Sample.entry "Created Order"] in
  let R := mkRemote [o] [] in
  let activities (S : Remote) :=
    map (fun r => map activity (history_or_empty r)) (Orders S) in
  (let effs := handleInvoiceSent Sample.env (page_showing [o] None) o in
   requests effs = [Orders_update [Col_is_invoice_printed true] (eq_id "7c9e-1")]
   /\ map isInvoicePrinted (Orders R) = [false]
   /\ map isInvoicePrinted (Orders (db_run effs R)) = [true]
   /\ activities (db_run effs R) = activities R)
  /\ (let card := mkPage [] (Some [o]) (Some o) false false false false false
                         false [] [] in
      let R1 := db_run (handlePaymentConfirm (T := Sample.digits) Sample.env
                          card "7c9e-1" (Details.mk 300 "Bankily" None 0 0))
                       R in
      let R2 := db_run (handleNotificationConfirm (W := Sample.noLink)
                          Sample.env card "fr") R1 in
      activities R = [["Created Order"]]
      /\ activities R1 = [["Created Order"; "Registered payment: 300 MRU"]]
      /\ activities R2 = [["Created Order"; "WhatsApp Alert sent (fr)"]])
  /\ (let o2 := Sample.order "7c9e-1" "FCD-12" "ORDERED"
                  [Sample.entry "Created Order";
                   Sample.entry "Status changed to ORDERED"] in
      let card := mkPage [] (Some [o2]) (Some o2) false false true false false
                         false [] [] in
      let effs := handleUpdateOrderStatus Sample.env card "7c9e-1"
                    (Payload.only_status "SHIPPED_FROM_STORE") in
      activities (db_run effs (mkRemote [o2] []))
      = [["Status changed to SHIPPED_FROM_STORE"]]).
Proof. repeat split. Qed.

(* ------------------------------------------------------------------ *)
(** ** The order of the displayed list *)

Section Sorting.

Context {A : Type} (cmp : A -> A -> Z).

Hypothesis cmp_total :
  forall a b, may_precede cmp a b \/ may_precede cmp b a.
Hypothesis cmp_trans :
  forall a b c,
    may_precede cmp a b -> may_precede cmp b c -> may_precede cmp a c.

Lemma sort_insert_perm (x : A) (l : list A) :
  Permutation (x :: l) (sort_insert cmp x l).
Proof.
  induction l as [|y l IH]; simpl.
  - apply Permutation_refl.
  - destruct (cmp x y <=? 0).
    + apply Permutation_refl.
    + eapply perm_trans; [apply perm_swap|]. now apply perm_skip.
Qed.

Lemma sort_perm (l : list A) : Permutation l (sort cmp l).
Proof.
  induction l as [|x l IH]; simpl.
  - apply perm_nil.
  - eapply perm_trans; [apply perm_skip, IH|]. apply sort_insert_perm.
Qed.

Lemma sort_insert_sorted (x : A) (l : list A) :
  StronglySorted (may_precede cmp) l ->
  StronglySorted (may_precede cmp) (sort_insert cmp x l).
Proof.
  induction 1 as [|y l Hs IH Hy]; simpl.
  - repeat constructor.
  - destruct (Z.leb_spec (cmp x y) 0) as [Hxy|Hxy].
    + constructor; [now constructor|].
      constructor; [exact Hxy|].
      eapply Forall_impl; [|exact Hy].
      intros z Hz. now apply cmp_trans with y.
    + constructor; [exact IH|].
      apply (Permutation_Forall (sort_insert_perm x l)).
      constructor; [|exact Hy].
      destruct (cmp_total y x) as [H|H]; [exact H|].
      unfold may_precede in H. lia.
Qed.

Lemma sort_sorted (l : list A) : StronglySorted (may_precede cmp) (sort cmp l).
Proof.
  induction l as [|x l IH]; simpl.
  - constructor.
  - now apply sort_insert_sorted.
Qed.

End Sorting.

Lemma StronglySorted_nth {A : Type} (R : A -> A -> Prop) (l : list A) :
  StronglySorted R l ->
  forall i j a b,
    (i < j)%nat -> nth_error l i = Some a -> nth_error l j = Some b -> R a b.
Proof.
  induction 1 as [|x l Hs IH Hx]; intros i j a b Hij Ha Hb.
  - destruct i; discriminate.
  - destruct j as [|j]; [lia|]. simpl in Hb.
    destruct i as [|i]; simpl in Ha.
    + injection Ha as <-. rewrite Forall_forall in Hx.
      apply Hx. eapply nth_error_In, Hb.
    + apply (IH i j); [lia|assumption|assumption].
Qed.

(** What the comparator of the page means. *)
Lemma compareOrders_spec {V : StatusValues} {C : Collator} (a b : Order) :
  compareOrders a b <= 0 <->
  (isCompleted a = false /\ isCompleted b = true)
  \/ (isCompleted a = isCompleted b
      /\ localeCompare (localOrderId b) (localOrderId a) <= 0).
Proof.
  unfold compareOrders.
  destruct (isCompleted a), (isCompleted b); simpl; split; intro H;
    try lia; auto;
    try (destruct H as [[H1 H2]|[H1 H2]]; try discriminate; try lia; auto).
Qed.

(** C7. In the displayed list every COMPLETED order stands after every order
    that is not COMPLETED, and two orders of the same group stand in
    descending order of their local identifiers under the numeric collation;
    the collation is assumed to compare any two identifiers and to be
    transitive. *)
Theorem displayed_orders_ordering {V : StatusValues} {C : Collator}
    (today : string) (orders : list Order) (searchResults : option (list Order))
    (term store smart : option string) :
  (forall x y, localeCompare x y <= 0 \/ localeCompare y x <= 0) ->
  (forall x y z, localeCompare x y <= 0 -> localeCompare y z <= 0 ->
                 localeCompare x z <= 0) ->
  forall i j a b,
    (i < j)%nat ->
    nth_error (filteredOrders today orders searchResults term store smart) i
      = Some a ->
    nth_error (filteredOrders today orders searchResults term store smart) j
      = Some b ->
    (isCompleted a = true -> isCompleted b = true)
    /\ (isCompleted a = isCompleted b ->
        localeCompare (localOrderId b) (localOrderId a) <= 0).
Proof.
  intros Htot Htrans i j a b Hij Ha Hb.
  assert (Hab : compareOrders a b <= 0).
  { unfold filteredOrders in Ha, Hb.
    refine (StronglySorted_nth (may_precede compareOrders) _
              (sort_sorted compareOrders _ _ _) i j a b Hij Ha Hb).
    - intros x y. unfold may_precede. rewrite !compareOrders_spec.
      destruct (isCompleted x), (isCompleted y);
        destruct (Htot (localOrderId x) (localOrderId y)); auto.
    - intros x y z. unfold may_precede. rewrite !compareOrders_spec.
      intros [[H1 H2]|[H1 H2]] [[H3 H4]|[H3 H4]];
        try congruence; auto.
      + left. split; congruence.
      + left. split; congruence.
      + right. split; [congruence|]. eapply Htrans; eassumption. }
  apply compareOrders_spec in Hab.
  destruct Hab as [[H1 H2]|[H1 H2]]; split; intros; try congruence; auto.
Qed.

(** The theorem on four orders, with identifiers compared by their
    digits. *)
Lemma displayed_orders_ordering_witness :
  let l := [Sample.order "k1" "FCD-9" "COMPLETED" [];
            Sample.order "k2" "FCD-100" "ORDERED" [];
            Sample.order "k3" "FCD-120" "COMPLETED" [];
            Sample.order "k4" "FCD-99" "NEW" []] in
  let shown_list := filteredOrders (V := specLiterals) (C := Sample.byDigits)
                                   "2024-01-02" l None None None None in
  map localOrderId shown_list = ["FCD-100"; "FCD-99"; "FCD-120"; "FCD-9"]
  /\ localeCompare (Collator := Sample.byDigits) "FCD-99" "FCD-100" <= 0.
Proof.
  intros l shown_list. split; [reflexivity|].
  refine (proj2 (displayed_orders_ordering (V := specLiterals)
                   (C := Sample.byDigits) "2024-01-02" l None None None None
                   _ _ 0%nat 1%nat
                   (Sample.order "k2" "FCD-100" "ORDERED" [])
                   (Sample.order "k4" "FCD-99" "NEW" [])
                   _ eq_refl eq_refl) eq_refl).
  - intros x y. unfold localeCompare, Sample.byDigits. lia.
  - intros x y z. unfold localeCompare, Sample.byDigits. lia.
  - lia.
Defined.

(* ------------------------------------------------------------------ *)
(** ** The debounced search *)

Module SearchFacts.
Import Search.

Lemma run_app (evs evs' : list Event) (s : State) :
  run (evs ++ evs') s = run evs' (run evs s).
Proof. unfold run. apply fold_left_app. Qed.

(** With no timeout pending, quiet events send nothing. *)
Lemma quiet_idle (evs : list Event) (s : State) :
  quiet evs = true ->
  timer s = None ->
  timer (run evs s) = None /\ issued (run evs s) = issued s.
Proof.
  revert s. induction evs as [|ev evs IH]; intros s Hq Ht.
  - now split.
  - destruct ev as [term|ms|query found]; [discriminate| |]; simpl in Hq.
    + cbn [run fold_left step]. unfold elapse. rewrite Ht.
      apply (IH (mk (clock s + ms) None (issued s) (inflight s)
                    (searchResults s) (isSearching s)) Hq eq_refl).
    + cbn [run fold_left step]. unfold respond.
      destruct (existsb (Nat.eqb query) (inflight s)).
      * destruct (IH (mk (clock s) (timer s) (issued s)
                        (filter (fun q => negb (Nat.eqb query q)) (inflight s))
                        (Some found) false) Hq Ht) as [H1 H2].
        now split.
      * now apply IH.
Qed.

(** With a timeout pending, quiet events send its term once the deadline
    is reached, and nothing before. *)
Lemma quiet_pending (evs : list Event) (s : State) (deadline : N)
    (term : string) :
  quiet evs = true ->
  timer s = Some (deadline, term) ->
  (clock s < deadline)%N ->
  if (deadline <=? clock s + duration evs)%N
  then timer (run evs s) = None /\ issued (run evs s) = issued s ++ [term]
  else timer (run evs s) = Some (deadline, term)
       /\ issued (run evs s) = issued s.
Proof.
  revert s. induction evs as [|ev evs IH]; intros s Hq Ht Hc.
  - cbn [duration run fold_left]. rewrite N.add_0_r.
    destruct (N.leb_spec deadline (clock s)); [lia|now split].
  - destruct ev as [t|ms|query found]; [discriminate| |]; simpl in Hq.
    + cbn [run fold_left step duration]. unfold elapse. rewrite Ht.
      destruct (N.leb_spec deadline (clock s + ms)) as [Hd|Hd].
      * destruct (N.leb_spec deadline (clock s + (ms + duration evs)));
          [|lia].
        apply (quiet_idle evs (fire s term (clock s + ms)) Hq eq_refl).
      * specialize (IH (mk (clock s + ms) (timer s) (issued s) (inflight s)
                           (searchResults s) (isSearching s)) Hq Ht Hd).
        cbn [clock issued] in IH. rewrite <- N.add_assoc in IH.
        rewrite Ht in *. exact IH.
    + cbn [run fold_left step duration]. unfold respond.
      destruct (existsb (Nat.eqb query) (inflight s)).
      * apply (IH (mk (clock s) (timer s) (issued s)
                      (filter (fun q => negb (Nat.eqb query q)) (inflight s))
                      (Some found) false) Hq Ht Hc).
      * now apply IH.
Qed.

(** After a term is typed, a quiet pause shorter than the window sends
    nothing. *)
Lemma pause_sends_nothing (before : list Event) (s : State) (term : string) :
  quiet before = true ->
  (duration before <? window)%N = true ->
  issued (run before (termChanged s (Some term))) = issued s.
Proof.
  intros Hq Hd. apply N.ltb_lt in Hd. unfold termChanged.
  destruct (trim_truthy term).
  - pose proof (quiet_pending before
                  (mk (clock s) (Some ((clock s + window)%N, term)) (issued s)
                      (inflight s) (searchResults s) true)
                  (clock s + window)%N term Hq eq_refl) as H.
    cbn [clock issued] in H.
    destruct (N.leb_spec (clock s + window) (clock s + duration before));
      [lia|].
    apply H. unfold window. lia.
  - apply (quiet_idle before
             (mk (clock s) None (issued s) (inflight s) None false) Hq eq_refl).
Qed.

(** C6. Terms typed one after the other, each after a quiet pause shorter
    than 600 ms, the last of them not blank: whatever time then passes,
    the queries sent are the ones sent before, followed by one query for
    the last term once 600 ms have passed since it was typed, and by none
    until then. *)
Theorem debounce_single_query (s : State) (first : string)
    (typed : list (list Event * string)) (tail : list Event) :
  within_window typed = true ->
  quiet tail = true ->
  trim_truthy (final_term first typed) = true ->
  issued (run (TermChanged (Some first) :: typing typed ++ tail) s)
  = issued s
    ++ (if (window <=? duration tail)%N then [final_term first typed] else []).
Proof.
  revert s first. induction typed as [|[before term] rest IH];
    intros s first Hw Hq Hlast.
  - cbn [typing app final_term run fold_left step] in *.
    unfold termChanged. rewrite Hlast.
    pose proof (quiet_pending tail
                  (mk (clock s) (Some ((clock s + window)%N, first)) (issued s)
                      (inflight s) (searchResults s) true)
                  (clock s + window)%N first Hq eq_refl) as H.
    cbn [clock issued] in H.
    assert (Hlt : (clock s < clock s + window)%N) by (unfold window; lia).
    specialize (H Hlt).
    destruct (N.leb_spec (clock s + window) (clock s + duration tail));
      destruct (N.leb_spec window (duration tail)); try lia.
    + apply H.
    + rewrite app_nil_r. apply H.
  - cbn [within_window] in Hw.
    apply andb_prop in Hw. destruct Hw as [Hw Hrest].
    apply andb_prop in Hw. destruct Hw as [Hqb Hdb].
    cbn [typing final_term] in *.
    rewrite <- app_assoc. cbn [app].
    change (run (TermChanged (Some first)
                 :: before ++ TermChanged (Some term) :: typing rest ++ tail) s)
      with (run (before ++ TermChanged (Some term) :: typing rest ++ tail)
                (termChanged s (Some first))).
    rewrite run_app.
    rewrite (IH _ term Hrest Hq Hlast).
    now rewrite (pause_sends_nothing before s first Hqb Hdb).
Qed.

(** The theorem for "a", "ab" after 200 ms and "abc" after 300 ms more,
    then 600 ms without typing. *)
Lemma debounce_single_query_witness :
  issued (run ([TermChanged (Some "a"); Elapse 200; TermChanged (Some "ab");
                Elapse 300; TermChanged (Some "abc")] ++ [Elapse 600])
              initial)
  = ["abc"].
Proof.
  exact (debounce_single_query initial "a"
           [([Elapse 200%N], "ab"); ([Elapse 300%N], "abc")]
           [Elapse 600%N] eq_refl eq_refl eq_refl).
Defined.

(** C5, at two searches that complete in the opposite order: the query for
    "a" is sent, then the one for "ab"; the response for "ab" arrives
    first and the response for "a" after it; the page ends up showing the
    results of "a". *)
Lemma superseded_search_overwrites_results :
  let k1 := Sample.order "7c9e-1" "FCD-12" "ORDERED" [] in
  let k2 := Sample.order "7c9e-2" "FCD-13" "ORDERED" [] in
  let found_a := [k1; k2] in
  let found_ab := [k1] in
  let s := run [TermChanged (Some "a"); Elapse 600;
                TermChanged (Some "ab"); Elapse 600;
                Respond 1 found_ab; Respond 0 found_a] initial in
  issued s = ["a"; "ab"]
  /\ searchResults s = Some found_a
  /\ found_a <> found_ab.
Proof. repeat split. discriminate. Qed.

(** C5, as the effect has it.  A change of the term replaces the pending
    timeout and nothing else: no query is sent for the term it replaces,
    and the queries already sent stay in flight.  The response of a query
    in flight is shown when it arrives, whatever was sent after it, so the
    results shown are those of the response that arrived last. *)
Theorem search_results_follow_arrival (s : State) (query : nat)
    (found : list Order) (term : string) :
  existsb (Nat.eqb query) (inflight s) = true ->
  searchResults (step s (Respond query found)) = Some found
  /\ issued (step s (TermChanged (Some term))) = issued s
  /\ inflight (step s (TermChanged (Some term))) = inflight s
  /\ timer (step s (TermChanged (Some term)))
     = if trim_truthy term then Some ((clock s + window)%N, term) else None.
Proof.
  intro H. cbn [step]. unfold respond, termChanged. rewrite H.
  destruct (trim_truthy term); repeat split.
Qed.

(** The theorem in the state where the queries for "a" and "ab" are both
    in flight. *)
Lemma search_results_follow_arrival_witness :
  let s := run [TermChanged (Some "a"); Elapse 600;
                TermChanged (Some "ab"); Elapse 600] initial in
  searchResults (step s (Respond 0 [])) = Some [].
Proof.
  intro s.
  exact (proj1 (search_results_follow_arrival s 0%nat [] "abc" eq_refl)).
Defined.

End SearchFacts.

(* ================================================================== *)
(** * Further properties of the orders page *)

(* ------------------------------------------------------------------ *)
(** ** Deleting an order *)

Lemma In_filter_not_matching (key : string) (l : list Order) (o : Order) :
  In o (filter (fun r => negb (matches (eq_id key) r)) l)
  <-> In o l /\ id o <> key.
Proof.
  rewrite filter_In. cbn [matches]. split; intros [H1 H2]; split; auto.
  - intro E. rewrite E, String.eqb_refl in H2. discriminate.
  - apply Bool.negb_true_iff. now apply String.eqb_neq.
Qed.

(** X1. [handleDeleteOrder] signs in with the password before anything
    else.  When the sign-in is refused, no delete is sent, the store is
    as before, the wrong-password text is shown, and the order stays
    selected with the dialog as it was.  When the sign-in and the
    delete are accepted, the rows with the key of the selected order, and no
    others, leave the store, the selection is cleared and the dialog is
    closed. *)
Theorem delete_checks_then_removes (env : Env) (page : Page) (password : string)
    (selected : Order) :
  supabase env = true ->
  selectedOrder page = Some selected ->
  let effs := handleDeleteOrder env page password in
  (forall e,
     raised (reply_error (net env (signInRequest env password))) = Some e ->
     requests effs = [signInRequest env password]
     /\ shown effs = [(Fixed WrongPasswordText, error)]
     /\ (forall R, db_run effs R = R)
     /\ selectedOrder (page_run effs page) = Some selected
     /\ isDeleteModalOpen (page_run effs page) = isDeleteModalOpen page)
  /\ (accepted env (signInRequest env password) ->
      accepted env (Orders_delete (eq_id (id selected))) ->
      requests effs
      = [signInRequest env password; Orders_delete (eq_id (id selected))]
      /\ shown effs = [(Fixed OrderDeletedText, success)]
      /\ (forall R o, In o (Orders (db_run effs R))
                      <-> In o (Orders R) /\ id o <> id selected)
      /\ (forall R, OrderPayments (db_run effs R) = OrderPayments R)
      /\ selectedOrder (page_run effs page) = None
      /\ isDeleteModalOpen (page_run effs page) = false).
Proof.
  intros Hs Hsel effs. split.
  - intros e He.
    assert (E : effs = [Call (signInRequest env password)
                             (net env (signInRequest env password));
                        ShowToast (Fixed WrongPasswordText) error]).
    { unfold effs, handleDeleteOrder, await. rewrite Hs, Hsel.
      cbn [bind]. rewrite He. reflexivity. }
    rewrite E. repeat split.
    all: try (intro R; db_step; unfold db_call; rewrite He; reflexivity).
    all: destruct page; cbn in *; congruence.
  - intros H1 H2. unfold accepted in H1, H2.
    assert (E : effs = [Call (signInRequest env password)
                             (net env (signInRequest env password));
                        Call (Orders_delete (eq_id (id selected)))
                             (net env (Orders_delete (eq_id (id selected))));
                        ShowToast (Fixed OrderDeletedText) success;
                        SetIsDeleteModalOpen false;
                        SetSelectedOrder None]).
    { unfold effs, handleDeleteOrder, await, throw_if. rewrite Hs, Hsel.
      cbn [bind]. rewrite H1. cbn [bind ret app]. rewrite H2. reflexivity. }
    assert (Hdb : forall R,
               db_run effs R
               = mkRemote (filter (fun r => negb (matches (eq_id (id selected)) r))
                                  (Orders R))
                          (OrderPayments R)).
    { intro R. rewrite E. db_step. unfold db_call. rewrite H1, H2.
      reflexivity. }
    split; [rewrite E; reflexivity|].
    split; [rewrite E; reflexivity|].
    split; [intros R o; rewrite Hdb; apply In_filter_not_matching|].
    split; [intro R; rewrite Hdb; reflexivity|].
    rewrite E. destruct page; split; reflexivity.
Qed.

Lemma delete_checks_then_removes_witness :
  let other := Sample.order "7c9e-2" "FCD-13" "NEW" [] in
  let page := page_showing [Sample.placed; other] (Some Sample.placed) in
  Orders (db_run (handleDeleteOrder Sample.env_wrong_password page "guess")
                 (mkRemote [Sample.placed; other] []))
  = [Sample.placed; other]
  /\ (In other (Orders (db_run (handleDeleteOrder Sample.env page "secret")
                               (mkRemote [Sample.placed; other] [])))
      <-> In other [Sample.placed; other] /\ id other <> id Sample.placed).
Proof.
  intros other page.
  destruct (delete_checks_then_removes Sample.env_wrong_password page "guess"
              Sample.placed eq_refl eq_refl) as [H _].
  destruct (H _ eq_refl) as [_ [_ [H1 _]]].
  destruct (delete_checks_then_removes Sample.env page "secret"
              Sample.placed eq_refl eq_refl) as [_ H'].
  destruct (H' eq_refl eq_refl) as [_ [_ [H2 _]]].
  split.
  - now rewrite H1.
  - apply (H2 (mkRemote [Sample.placed; other] []) other).
Defined.

(* ------------------------------------------------------------------ *)
(** ** Refused writes *)

(** X2. A write that the store refuses changes nothing: for saving an
    order, changing a status, reverting a status and marking an invoice as
    sent, when the one request of the handler is refused the store is as
    before, the message of the error is the one thing shown, and the page
    keeps its lists and its dialogs; the revert returns [false]. *)
Theorem refused_write_changes_nothing {V : StatusValues} (env : Env)
    (page : Page) (e : JsError) :
  supabase env = true ->
  (forall orderData,
     raised (reply_error (net env (saveOrderRequest env orderData))) = Some e ->
     let effs := handleSaveOrder env orderData in
     (forall R, db_run effs R = R)
     /\ shown effs = [(getErrorMessage (Some e), error)]
     /\ isFormModalOpen (page_run effs page) = isFormModalOpen page)
  /\ (forall orderId payload,
        raised (reply_error
                  (net env (statusChangeRequest env page orderId payload)))
          = Some e ->
        let effs := handleUpdateOrderStatus env page orderId payload in
        (forall R, db_run effs R = R)
        /\ shown effs = [(getErrorMessage (Some e), error)]
        /\ isStatusModalOpen (page_run effs page) = isStatusModalOpen page)
  /\ (forall orderId password order prevStatus,
        find_order orderId (orders page) = Some order ->
        prevStatusOf (status order) = Some prevStatus ->
        raised (reply_error
                  (net env (revertRequest env order orderId prevStatus)))
          = Some e ->
        let run := handleRevertStatus env page orderId password in
        (forall R, db_run (fst run) R = R)
        /\ shown (fst run) = [(getErrorMessage (Some e), error)]
        /\ snd run = false)
  /\ (forall order,
        raised (reply_error (net env (invoiceRequest order))) = Some e ->
        let effs := handleInvoiceSent env page order in
        (forall R, db_run effs R = R)
        /\ shown effs = [(getErrorMessage (Some e), error)]
        /\ orders (page_run effs page) = orders page
        /\ searchResults (page_run effs page) = searchResults page).
Proof.
  intro Hs. split; [|split; [|split]].
  - intros orderData H effs.
    assert (E : effs = [SetIsSaving true;
                        Call (saveOrderRequest env orderData)
                             (net env (saveOrderRequest env orderData));
                        ShowToast (getErrorMessage (Some e)) error;
                        SetIsSaving false]).
    { unfold effs, handleSaveOrder, await, throw_if. rewrite Hs.
      cbn [negb bind]. rewrite H. reflexivity. }
    rewrite E. repeat split.
    all: try (intro R; db_step; unfold db_call; rewrite H; reflexivity).
    all: try (destruct page; reflexivity).
  - intros orderId payload H effs.
    assert (E : effs = [Call (statusChangeRequest env page orderId payload)
                             (net env (statusChangeRequest env page orderId payload));
                        ShowToast (getErrorMessage (Some e)) error]).
    { unfold effs, handleUpdateOrderStatus, await, throw_if. rewrite Hs.
      cbn [negb bind]. rewrite H. reflexivity. }
    rewrite E. repeat split.
    all: try (intro R; db_step; unfold db_call; rewrite H; reflexivity).
    all: try (destruct page; reflexivity).
  - intros orderId password order prevStatus Hf Hp H run.
    assert (E : run = ([Call (revertRequest env order orderId prevStatus)
                             (net env (revertRequest env order orderId prevStatus));
                        ShowToast (getErrorMessage (Some e)) error], false)).
    { unfold run, handleRevertStatus, await, throw_if. rewrite Hs, Hf, Hp.
      cbn [negb bind]. rewrite H. reflexivity. }
    rewrite E. repeat split.
    all: try (intro R; db_step; unfold db_call; rewrite H; reflexivity).
  - intros order H effs.
    assert (E : effs = [Call (invoiceRequest order)
                             (net env (invoiceRequest order));
                        ShowToast (getErrorMessage (Some e)) error]).
    { unfold effs, handleInvoiceSent, await, throw_if. rewrite Hs.
      cbn [negb bind]. rewrite H. reflexivity. }
    rewrite E. repeat split.
    all: try (intro R; db_step; unfold db_call; rewrite H; reflexivity).
    all: try (destruct page; reflexivity).
Qed.

Lemma refused_write_changes_nothing_witness :
  db_run (handleInvoiceSent Sample.env_orders_down
            (page_showing [Sample.placed] None) Sample.placed)
         Sample.store0
  = Sample.store0.
Proof.
  destruct (refused_write_changes_nothing (V := specLiterals)
              Sample.env_orders_down (page_showing [Sample.placed] None)
              (ErrorObject (Some "TypeError: Failed to fetch") None None None "{}")
              eq_refl) as [_ [_ [_ H]]].
  destruct (H Sample.placed eq_refl) as [H1 _].
  exact (H1 Sample.store0).
Defined.

(* ------------------------------------------------------------------ *)
(** ** Saving an order *)

(** X3. Whatever the store answers, [handleSaveOrder] makes exactly one
    request, shows exactly one message and leaves the saving flag down when
    it ends; the form is closed only when the request is accepted. *)
Theorem save_always_settles (env : Env) (page : Page) (orderData : Order) :
  supabase env = true ->
  let effs := handleSaveOrder env orderData in
  requests effs = [saveOrderRequest env orderData]
  /\ List.length (shown effs) = 1%nat
  /\ isSaving (page_run effs page) = false
  /\ (isFormModalOpen (page_run effs page) <> isFormModalOpen page ->
      accepted env (saveOrderRequest env orderData)).
Proof.
  intros Hs effs. unfold effs, handleSaveOrder, await, throw_if, accepted.
  rewrite Hs. cbn [negb bind].
  destruct (raised (reply_error (net env (saveOrderRequest env orderData))))
    as [e|] eqn:E; destruct page; cbn; repeat split; try congruence.
Qed.

Lemma save_always_settles_witness :
  isSaving (page_run (handleSaveOrder Sample.env_orders_down Sample.edited)
                     (page_showing [Sample.row5] (Some Sample.row5)))
  = false.
Proof.
  exact (proj1 (proj2 (proj2
           (save_always_settles Sample.env_orders_down
              (page_showing [Sample.row5] (Some Sample.row5)) Sample.edited
              eq_refl)))).
Defined.

(* ------------------------------------------------------------------ *)
(** ** What the handlers leave to the store *)

Lemma page_run_leaves_lists (effs : list Effect) (p : Page) :
  Forall leaves_lists effs ->
  orders (page_run effs p) = orders p
  /\ searchResults (page_run effs p) = searchResults p.
Proof.
  intro H. revert p. induction H as [|eff effs He _ IH]; intro p.
  - now split.
  - unfold page_run in *. cbn [fold_left].
    destruct (IH (page_effect p eff)) as [H1 H2]. rewrite H1, H2.
    destruct eff; try contradiction; destruct p; now split.
Qed.

Lemma calm_ret {A : Type} (a : A) : calm (ret a).
Proof. constructor. Qed.

Lemma calm_throw {A : Type} (e : JsError) : calm (throw (A := A) e).
Proof. constructor. Qed.

Lemma calm_emit (eff : Effect) : leaves_lists eff -> calm (emit eff).
Proof. intro H. repeat constructor. exact H. Qed.

Lemma calm_await (env : Env) (req : Request) : calm (await env req).
Proof. repeat constructor. Qed.

Lemma calm_throw_if (e : option JsError) : calm (throw_if e).
Proof. unfold throw_if. destruct (raised e); constructor. Qed.

Lemma calm_bind {A B : Type} (m : Task A) (k : A -> Task B) :
  calm m -> (forall a, calm (k a)) -> calm (bind m k).
Proof.
  unfold calm, bind. destruct m as [es [e|a]]; intros Hm Hk; [exact Hm|].
  specialize (Hk a). destruct (k a) as [es' r]. cbn [fst] in *.
  apply Forall_app. now split.
Qed.

Lemma calm_try_catch {A : Type} (body : Task A)
    (handler : JsError -> list Effect * A) :
  calm body ->
  (forall e, Forall leaves_lists (fst (handler e))) ->
  Forall leaves_lists (fst (try_catch body handler)).
Proof.
  unfold calm, try_catch. destruct body as [es [e|a]]; intros Hb Hh.
  - specialize (Hh e). destruct (handler e) as [es' a]. cbn [fst] in *.
    apply Forall_app. now split.
  - exact Hb.
Qed.

Ltac calm_steps :=
  repeat first
    [ apply calm_try_catch
    | apply calm_bind
    | apply calm_await
    | apply calm_throw_if
    | apply calm_ret
    | apply calm_throw
    | apply calm_emit; exact I
    | progress unfold showToast
    | intro
    | match goal with
      | |- calm (match ?x with _ => _ end) => destruct x
      | |- calm (if ?x then _ else _) => destruct x
      | |- Forall leaves_lists (fst (toast_error _)) =>
          repeat constructor
      | |- Forall leaves_lists (fst (_, _)) => repeat constructor
      end ].

(** X4. Saving an order, changing or reverting a status, registering a
    payment, sending a notification and deleting an order never set the
    in-memory orders or the search results of the page, whatever the store
    answers: what the page lists changes only when the store tells it, and
    the search results not at all. *)
Theorem only_invoice_sent_patches_the_lists {V : StatusValues}
    {W : WhatsappLink} {T : NumberText} (env : Env) (page : Page) :
  let kept effs :=
    orders (page_run effs page) = orders page
    /\ searchResults (page_run effs page) = searchResults page in
  (forall orderData, kept (handleSaveOrder env orderData))
  /\ (forall orderId payload,
        kept (handleUpdateOrderStatus env page orderId payload))
  /\ (forall orderId details, kept (handlePaymentConfirm env page orderId details))
  /\ (forall lang, kept (handleNotificationConfirm env page lang))
  /\ (forall orderId password,
        kept (fst (handleRevertStatus env page orderId password)))
  /\ (forall password, kept (handleDeleteOrder env page password)).
Proof.
  intro kept. unfold kept. repeat split; intros; apply page_run_leaves_lists.
  all: try (unfold handleSaveOrder; destruct (supabase env); cbn [negb];
            [|constructor];
            constructor; [exact I|]; apply Forall_app; split;
            [|repeat constructor]; calm_steps).
  all: try (unfold handleUpdateOrderStatus; destruct (supabase env);
            cbn [negb]; [|constructor]; calm_steps).
  all: try (unfold handlePaymentConfirm; destruct (supabase env);
            [|constructor]; destruct (selectedOrder page); [|constructor];
            calm_steps).
  all: try (unfold handleNotificationConfirm;
            destruct (selectedOrder page); [|constructor];
            destruct (supabase env); [|constructor];
            match goal with
            | |- context [find ?f ?l] => destruct (find f l)
            end; [|constructor]; calm_steps).
  all: try (unfold handleRevertStatus; destruct (supabase env); cbn [negb];
            [|constructor]; calm_steps).
  all: try (unfold handleDeleteOrder; destruct (supabase env);
            [|constructor]; destruct (selectedOrder page); [|constructor];
            calm_steps).
Qed.

(* ------------------------------------------------------------------ *)
(** ** Notifying a client *)

(** X5. The notification is reported as sent whatever the store answers.
    With a client and a template, [handleNotificationConfirm] opens the
    link, sends the update, shows the success text and closes the dialog;
    when the update is refused the store is as before, and the flag and the
    history entry are not written, although success was shown. *)
Theorem notification_success_whatever_the_reply {W : WhatsappLink} (env : Env)
    (page : Page) (lang : string) (selected : Order) (client : Client.t) :
  supabase env = true ->
  selectedOrder page = Some selected ->
  find (fun c => (Client.id c =? clientId selected)%string) (clients env)
    = Some client ->
  truthy_opt (notificationTemplate env lang) = true ->
  let effs := handleNotificationConfirm env page lang in
  shown effs = [(Fixed WhatsappOpenedText, success)]
  /\ isNotificationModalOpen (page_run effs page) = false
  /\ List.length (windows (page_run effs page)) = S (List.length (windows page))
  /\ (forall e,
        raised (reply_error (net env (notificationRequest env selected lang)))
          = Some e ->
        forall R, db_run effs R = R).
Proof.
  intros Hs Hsel Hc Ht effs. unfold effs.
  rewrite (handleNotificationConfirm_sent env page lang selected client
             Hs Hsel Hc Ht).
  split; [reflexivity|]. split; [destruct page; reflexivity|]. split.
  - destruct page; cbn. rewrite length_app. cbn. lia.
  - intros e He R. db_step. unfold db_call. rewrite He. reflexivity.
Qed.

Lemma notification_success_whatever_the_reply_witness :
  shown (handleNotificationConfirm (W := Sample.noLink) Sample.env_orders_down
           (page_showing [Sample.row2] (Some Sample.row2)) "fr")
  = [(Fixed WhatsappOpenedText, success)]
  /\ db_run (handleNotificationConfirm (W := Sample.noLink)
               Sample.env_orders_down
               (page_showing [Sample.row2] (Some Sample.row2)) "fr")
            Sample.store2
     = Sample.store2.
Proof.
  destruct (notification_success_whatever_the_reply (W := Sample.noLink)
              Sample.env_orders_down
              (page_showing [Sample.row2] (Some Sample.row2)) "fr"
              Sample.row2 Sample.client eq_refl eq_refl eq_refl eq_refl)
    as [H1 [_ [_ H2]]].
  split; [exact H1|]. exact (H2 _ eq_refl Sample.store2).
Defined.



(* ------------------------------------------------------------------ *)
(** ** What a status change leaves alone *)

Lemma member_apply_payload {A : Type} (member : Order -> A) (p : list Assign)
    (o : Order) :
  Forall (leaves_member member) p -> member (apply_payload p o) = member o.
Proof.
  intro H. revert o. induction H as [|a p Ha _ IH]; intro o.
  - reflexivity.
  - unfold apply_payload in *. simpl. rewrite IH. apply Ha.
Qed.

Lemma leaves_member_if_truthy {A : Type} (member : Order -> A)
    (col : string -> Assign) (x : option string) :
  (forall v, leaves_member member (col v)) ->
  Forall (leaves_member member) (if_truthy col x).
Proof. intro H. destruct x as [v|]; simpl; [destruct (truthy v)|]; auto. Qed.

Lemma leaves_member_optional {A B : Type} (member : Order -> A)
    (col : B -> Assign) (x : option B) :
  (forall v, leaves_member member (col v)) ->
  Forall (leaves_member member) (optional col x).
Proof. intro H. destruct x; simpl; auto. Qed.

Lemma leaves_member_nullable {A B : Type} (member : Order -> A)
    (m : OptionalMember) (col : B -> Assign) (o : Order) (x : option B) :
  (forall v, leaves_member member (col v)) ->
  leaves_member member (Col_null m) ->
  Forall (leaves_member member) (nullable m col o x).
Proof.
  intros H Hnull. unfold nullable.
  destruct x; [auto|]. destruct (existsb _ _); auto.
Qed.

Ltac payload_leaves :=
  repeat match goal with
         | |- Forall _ (_ ++ _) => apply Forall_app; split
         end;
  first [ apply leaves_member_if_truthy; intros ? ?; reflexivity
        | apply leaves_member_optional; intros ? ?; reflexivity
        | apply leaves_member_nullable;
          [intros ? ?; reflexivity|intros ?; reflexivity]
        | repeat constructor; intros ?; reflexivity ].

(** X7. Whatever the payload, the update a status change sends leaves the
    money and the flags of a row alone: its key, its local identifier, its
    client and store, its price, the amount paid, the transaction fee and
    the two flags are as before.  With no target in the payload, or an empty
    one, the status is as before too, and the entry appended reads "Status
    changed to Updated". *)
Theorem status_change_frame (env : Env) (page : Page) (orderId : string)
    (payload : Payload.t) (row : Order) :
  let row' := apply_payload (statusChangePayload env page orderId payload) row in
  id row' = id row
  /\ localOrderId row' = localOrderId row
  /\ clientId row' = clientId row
  /\ storeId row' = storeId row
  /\ price row' = price row
  /\ amountPaid row' = amountPaid row
  /\ transactionFee row' = transactionFee row
  /\ isInvoicePrinted row' = isInvoicePrinted row
  /\ whatsappNotificationSent row' = whatsappNotificationSent row
  /\ (truthy_opt (Payload.status payload) = false ->
      status row' = status row
      /\ exists before,
           history_or_empty row'
           = before ++ [mkEntry (now env) "Status changed to Updated"
                                (currentUsername env)]).
Proof.
  intro row'. unfold row', statusChangePayload.
  repeat split; try (apply member_apply_payload; payload_leaves).
  - apply member_apply_payload.
    replace (if_truthy Col_status (Payload.status payload)) with (@nil Assign)
      by (destruct (Payload.status payload) as [v|]; simpl in *;
          [rewrite H|]; reflexivity).
    payload_leaves.
  - eexists. repeat rewrite app_assoc.
    rewrite history_or_empty_apply_last. unfold statusChangeEntry.
    replace (or_else (Payload.status payload) "Updated") with "Updated"%string
      by (destruct (Payload.status payload) as [v|]; simpl in *;
          [rewrite H|]; reflexivity).
    reflexivity.
Qed.

Lemma status_change_frame_witness :
  let payload := Payload.mk (Some "") None (Some "TRK-1") None None None None
                            None None None None None None None None None in
  status (apply_payload
            (statusChangePayload Sample.env (page_showing [Sample.row2] None)
                                 "7c9e-1" payload)
            Sample.row2)
  = status Sample.row2.
Proof.
  intro payload.
  destruct (status_change_frame Sample.env (page_showing [Sample.row2] None)
              "7c9e-1" payload Sample.row2)
    as [_ [_ [_ [_ [_ [_ [_ [_ [_ H]]]]]]]]].
  exact (proj1 (H eq_refl)).
Defined.

(* ------------------------------------------------------------------ *)
(** ** What the list displays *)

Lemma In_sort {A : Type} (cmp : A -> A -> Z) (l : list A) (x : A) :
  In x (sort cmp l) <-> In x l.
Proof.
  split; intro H.
  - eapply Permutation_in; [apply Permutation_sym, sort_perm|exact H].
  - eapply Permutation_in; [apply sort_perm|exact H].
Qed.

Lemma length_sort {A : Type} (cmp : A -> A -> Z) (l : list A) :
  List.length (sort cmp l) = List.length l.
Proof. symmetry. apply Permutation_length, sort_perm. Qed.

(** X8. The displayed list holds exactly the orders of its source (the
    search results when there are some, the in-memory orders otherwise)
    that pass the filters in force: the smart filter counts only while no
    search term is typed and it is not 'all', the store filter only when it
    is not 'all'.  With no filter in force the displayed list is a
    rearrangement of the source: nothing is dropped or shown twice. *)
Theorem displayed_orders_are_the_filtered_source {V : StatusValues}
    {C : Collator} (today : string) (orders : list Order)
    (searchResults : option (list Order)) (term store smart : option string) :
  let source := match searchResults with Some found => found | None => orders end in
  let smartName := match smart with Some f => f | None => "all" end in
  let storeName := match store with Some f => f | None => "all" end in
  (forall o,
     In o (filteredOrders today orders searchResults term store smart)
     <-> In o source
         /\ (truthy_opt term = false -> smartName <> "all" ->
             smartFilter today smartName o = true)
         /\ (storeName <> "all" -> storeId o = storeName))
  /\ (truthy_opt term = true \/ smartName = "all" ->
      storeName = "all" ->
      Permutation source
        (filteredOrders today orders searchResults term store smart)).
Proof.
  intros source smartName storeName. unfold filteredOrders.
  fold source smartName storeName. split.
  - intro o. rewrite In_sort.
    destruct (String.eqb_spec storeName "all") as [Es|Es];
      destruct (truthy_opt term); destruct (String.eqb_spec smartName "all")
        as [Em|Em]; cbn [negb andb]; repeat rewrite filter_In;
      repeat rewrite String.eqb_eq; intuition congruence.
  - intros Hsmart Hstore. rewrite Hstore. cbn [String.eqb negb].
    replace (negb (truthy_opt term) && negb (smartName =? "all")%string)
      with false.
    + apply sort_perm.
    + destruct Hsmart as [-> | ->]; [reflexivity|].
      cbn. now rewrite andb_false_r.
Qed.

Lemma displayed_orders_are_the_filtered_source_witness :
  let a := Sample.order "7c9e-1" "FCD-12" "ORDERED" [] in
  let b := Sample.order "7c9e-2" "FCD-13" "COMPLETED" [] in
  Permutation [a; b]
    (filteredOrders (V := specLiterals) (C := Sample.byDigits) "2024-03-01"
                    [a; b] None (Some "amina") None (Some "late")).
Proof.
  intros a b.
  exact (proj2 (displayed_orders_are_the_filtered_source (V := specLiterals)
                  (C := Sample.byDigits) "2024-03-01" [a; b] None
                  (Some "amina") None (Some "late"))
               (or_introl eq_refl) eq_refl).
Defined.

(** X9. The numbers of the header agree with the lists they announce.  With
    no search in progress and no store filter, the list under the filter
    'all' has as many orders as the pill "all" says, the list under a status
    name (any name that is not one of the five named filters) as many as
    [countByStatus] of that name, and the list under 'ready_pickup' as many
    as [readyForDeliveryCount]; the orders awaiting their notification are
    never more than those. *)
Theorem header_counts_match_lists {V : StatusValues} {C : Collator}
    (today : string) (orders : list Order) :
  List.length (filteredOrders today orders None None None (Some "all"))
    = List.length orders
  /\ (forall value,
        ~ In value ["all"; "ready_pickup"; "late"; "needs_tracking";
                    "pending_invoice"] ->
        List.length (filteredOrders today orders None None None (Some value))
        = App.countByStatus orders value)
  /\ List.length
       (filteredOrders today orders None None None (Some "ready_pickup"))
     = App.readyForDeliveryCount orders
  /\ (App.countPendingNotification orders
      <= App.readyForDeliveryCount orders)%nat.
Proof.
  unfold filteredOrders. cbn [truthy_opt negb andb String.eqb Ascii.eqb
                              Bool.eqb].
  split; [apply length_sort|]. split; [|split].
  - intros value H. rewrite length_sort. unfold App.countByStatus.
    destruct (String.eqb_spec value "all") as [->|_];
      [exfalso; apply H; simpl; tauto|].
    cbn [negb]. f_equal. apply filter_ext. intro o. unfold smartFilter.
    destruct (String.eqb_spec value "ready_pickup") as [->|_];
      [exfalso; apply H; simpl; tauto|].
    destruct (String.eqb_spec value "late") as [->|_];
      [exfalso; apply H; simpl; tauto|].
    destruct (String.eqb_spec value "needs_tracking") as [->|_];
      [exfalso; apply H; simpl; tauto|].
    destruct (String.eqb_spec value "pending_invoice") as [->|_];
      [exfalso; apply H; simpl; tauto|].
    reflexivity.
  - rewrite length_sort. reflexivity.
  - unfold App.countPendingNotification, App.readyForDeliveryCount.
    induction orders as [|o l IH]; simpl; [lia|].
    destruct (App.awaitsPickup o); cbn [andb].
    + destruct (negb (whatsappNotificationSent o)); simpl; lia.
    + exact IH.
Qed.

Lemma header_counts_match_lists_witness :
  let a := Sample.order "7c9e-1" "FCD-12" "ORDERED" [] in
  let b := Sample.order "7c9e-2" "FCD-13" "COMPLETED" [] in
  List.length
    (filteredOrders (V := specLiterals) (C := Sample.byDigits) "2024-03-01"
                    [a; b; a] None None None (Some "ORDERED"))
  = App.countByStatus [a; b; a] "ORDERED".
Proof.
  intros a b.
  apply (proj1 (proj2 (header_counts_match_lists (V := specLiterals)
                         (C := Sample.byDigits) "2024-03-01" [a; b; a]))
               "ORDERED").
  simpl. intros [H|[H|[H|[H|[H|[]]]]]]; discriminate H.
Defined.

Lemma in_enum_value {V : StatusValues} (target : string) :
  in_enum target = true -> exists s, statusValue s = target.
Proof.
  unfold in_enum. rewrite existsb_exists. intros [s [_ H]].
  exists s. now apply String.eqb_eq.
Qed.

(** X10. The filter 'pending_notification' is not one of the named cases of
    the list: it is compared with the status itself.  So the list under it
    holds only orders whose status is that very string, and when every
    order has a status of the enumeration (none of which is that string)
    the list is empty, whatever [countPendingNotification] shows on the
    pill that selects it. *)
Theorem pending_notification_lists_by_status {V : StatusValues} {C : Collator}
    (today : string) (orders : list Order) (store : option string) :
  (forall o,
     In o (filteredOrders today orders None None store
                          (Some "pending_notification")) ->
     status o = "pending_notification")
  /\ ((forall s, statusValue s <> "pending_notification") ->
      Forall (fun o => in_enum (status o) = true) orders ->
      filteredOrders today orders None None store
                     (Some "pending_notification") = []).
Proof.
  assert (Hin : forall o,
     In o (filteredOrders today orders None None store
                          (Some "pending_notification")) ->
     In o orders /\ status o = "pending_notification").
  { intros o H. unfold filteredOrders in H. apply In_sort in H.
    cbn [truthy_opt negb andb String.eqb Ascii.eqb Bool.eqb] in H.
    assert (H' : In o (filter (smartFilter today "pending_notification")
                              orders)).
    { destruct (negb _) in H; [apply filter_In in H; tauto|exact H]. }
    apply filter_In in H'. destruct H' as [Ho Hf]. split; [exact Ho|].
    unfold smartFilter in Hf.
    cbn [String.eqb Ascii.eqb Bool.eqb] in Hf. now apply String.eqb_eq. }
  split.
  - intros o H. apply (Hin o H).
  - intros Hne Henum.
    destruct (filteredOrders today orders None None store
                             (Some "pending_notification")) as [|o l] eqn:E;
      [reflexivity|].
    destruct (Hin o (or_introl eq_refl)) as [Ho Hst].
    rewrite Forall_forall in Henum.
    destruct (in_enum_value _ (Henum o Ho)) as [s Hs].
    exfalso. apply (Hne s). congruence.
Qed.

Lemma pending_notification_lists_by_status_witness :
  let a := Sample.order "7c9e-1" "FCD-12" "STORED" [] in
  filteredOrders (V := specLiterals) (C := Sample.byDigits) "2024-03-01"
                 [a] None None None (Some "pending_notification") = []
  /\ App.countPendingNotification (V := specLiterals) [a] = 1%nat.
Proof.
  intro a. split; [|reflexivity].
  apply (proj2 (pending_notification_lists_by_status (V := specLiterals)
                  (C := Sample.byDigits) "2024-03-01" [a] None)).
  - intros s; destruct s; discriminate.
  - repeat constructor.
Defined.




(* ------------------------------------------------------------------ *)
(** ** The search effect over any sequence of events *)

Module SearchTraces.
Import Search.
Import SearchTrace.

Lemma searches_asked_app (evs evs' : list Event) :
  searches_asked (evs ++ evs') = (searches_asked evs + searches_asked evs')%nat.
Proof.
  induction evs as [|ev evs IH]; [reflexivity|].
  destruct ev as [[t|]|ms|q found]; simpl; rewrite IH; lia.
Qed.

Lemma invariant_initial : Invariant [] initial.
Proof.
  constructor; simpl; try (intros; contradiction); try discriminate.
  - constructor.
  - unfold pending. simpl. lia.
  - now left.
Qed.

Lemma invariant_step (evs : list Event) (s : State) (ev : Event) :
  Invariant evs s -> Invariant (evs ++ [ev]) (step s ev).
Proof.
  intros [I1 I2 I2' I3 I4 I5]. unfold pending in I4.
  assert (Hin : forall e, In e evs -> In e (evs ++ [ev]))
    by (intros e He; apply in_or_app; now left).
  assert (Hlast : In ev (evs ++ [ev]))
    by (apply in_or_app; right; now left).
  assert (I5' : searchResults s = None
                \/ exists q found, In (Respond q found) (evs ++ [ev])
                                   /\ searchResults s = Some found).
  { destruct I5 as [H|[q [found [H1 H2]]]]; [now left|right].
    exists q, found. split; [now apply Hin|exact H2]. }
  destruct s as [c tm iss inf res srch]. cbn [clock timer issued inflight
    searchResults isSearching] in *.
  destruct ev as [[term|]|ms|query found]; cbn [step].
  - (* a new term *)
    unfold termChanged. cbn [clock timer issued inflight searchResults
      isSearching]. destruct (trim_truthy term) eqn:Et.
    + constructor; cbn [clock timer issued inflight searchResults
        isSearching]; auto.
      * intros t Ht. destruct (I1 t Ht). auto.
      * intros d t H. injection H as <- <-. unfold window. repeat split;
          [lia|lia|exact Et|exact Hlast].
      * unfold pending. cbn [timer]. rewrite searches_asked_app. simpl.
        rewrite Et. destruct tm; lia.
    + constructor; cbn [clock timer issued inflight searchResults
        isSearching]; auto.
      * intros t Ht. destruct (I1 t Ht). auto.
      * discriminate.
      * unfold pending. cbn [timer]. rewrite searches_asked_app. simpl.
        rewrite Et. destruct tm; lia.
  - (* the property is absent *)
    cbn [termChanged]. constructor; cbn [clock timer issued inflight
      searchResults isSearching]; auto.
    + intros t Ht. destruct (I1 t Ht). auto.
    + intros d t H. destruct (I3 d t H) as [H1 [H2 H3]]. auto.
    + unfold pending. cbn [timer]. rewrite searches_asked_app. simpl. lia.
  - (* time passes *)
    unfold elapse. cbn [clock timer issued inflight searchResults
      isSearching]. destruct tm as [[d t]|].
    + destruct (I3 d t eq_refl) as [Hd [Ht Ht']].
      destruct (N.leb_spec d (c + ms)) as [Hle|Hgt].
      * unfold fire. constructor; cbn [clock timer issued inflight
          searchResults isSearching]; auto.
        -- intros t' H. apply in_app_or in H. destruct H as [H|[<-|[]]].
           ++ destruct (I1 t' H). auto.
           ++ auto.
        -- intros q H. rewrite length_app. simpl.
           apply in_app_or in H. destruct H as [H|[<-|[]]].
           ++ specialize (I2 q H). lia.
           ++ lia.
        -- apply NoDup_app; [exact I2'|repeat constructor; now intros []|].
           intros q H [<-|[]]. specialize (I2 _ H). lia.
        -- discriminate.
        -- unfold pending. cbn [timer]. rewrite length_app,
             searches_asked_app. simpl. lia.
      * constructor; cbn [clock timer issued inflight searchResults
          isSearching]; auto.
        -- intros t' H. destruct (I1 t' H). auto.
        -- intros d' t' H. injection H as <- <-. repeat split; auto; lia.
        -- unfold pending. cbn [timer]. rewrite searches_asked_app. simpl.
           lia.
    + constructor; cbn [clock timer issued inflight searchResults
        isSearching]; auto.
      * intros t' H. destruct (I1 t' H). auto.
      * discriminate.
      * unfold pending. cbn [timer]. rewrite searches_asked_app. simpl. lia.
  - (* a response *)
    unfold respond. cbn [clock timer issued inflight searchResults
      isSearching]. destruct (existsb (Nat.eqb query) inf).
    + constructor; cbn [clock timer issued inflight searchResults
        isSearching]; auto.
      * intros t' H. destruct (I1 t' H). auto.
      * intros q H. apply filter_In in H. now apply I2.
      * now apply NoDup_filter.
      * intros d t H. destruct (I3 d t H) as [H1 [H2 H3]]. auto.
      * unfold pending. cbn [timer]. rewrite searches_asked_app. simpl. lia.
      * right. exists query, found. now split.
    + constructor; cbn [clock timer issued inflight searchResults
        isSearching]; auto.
      * intros t' H. destruct (I1 t' H). auto.
      * intros d t H. destruct (I3 d t H) as [H1 [H2 H3]]. auto.
      * unfold pending. cbn [timer]. rewrite searches_asked_app. simpl. lia.
Qed.

Lemma invariant_run (evs : list Event) : Invariant evs (run evs initial).
Proof.
  induction evs as [|ev evs IH] using rev_ind.
  - apply invariant_initial.
  - unfold run in *. rewrite fold_left_app. cbn [fold_left].
    now apply invariant_step.
Qed.

(** X12. Whatever the sequence of term changes, elapsed times and
    responses, from the initial state of the page: every term a query was
    sent for was typed and is not blank; the queries sent and the timeout
    still pending are never more than the non-blank terms typed; a pending
    timeout falls due in the future, at most 600 ms ahead; every query in
    flight is one that was sent, once; and the results shown are those of a
    response that arrived. *)
Theorem search_sends_only_what_was_typed (evs : list Event) :
  let s := run evs initial in
  Forall (fun t => trim_truthy t = true /\ In (TermChanged (Some t)) evs)
         (issued s)
  /\ (List.length (issued s) + pending s <= searches_asked evs)%nat
  /\ (forall d t, timer s = Some (d, t) ->
                  (clock s < d <= clock s + window)%N)
  /\ NoDup (inflight s)
  /\ Forall (fun q => (q < List.length (issued s))%nat) (inflight s)
  /\ (forall found, searchResults s = Some found ->
                    exists q, In (Respond q found) evs).
Proof.
  intro s. subst s. destruct (invariant_run evs) as [I1 I2 I2' I3 I4 I5].
  repeat split; auto.
  - apply Forall_forall. exact I1.
  - apply (I3 d t H).
  - apply (I3 d t H).
  - apply Forall_forall. exact I2.
  - intros found H. destruct I5 as [H'|[q [f [H1 H2]]]]; [congruence|].
    exists q. congruence.
Qed.

Lemma search_sends_only_what_was_typed_witness :
  let evs := [TermChanged (Some "a"); Elapse 600; TermChanged (Some " ");
              TermChanged (Some "ab"); Elapse 10] in
  issued (run evs initial) = ["a"]
  /\ (List.length (issued (run evs initial)) + pending (run evs initial)
      <= searches_asked evs)%nat.
Proof.
  intro evs. split; [reflexivity|].
  exact (proj1 (proj2 (search_sends_only_what_was_typed evs))).
Defined.

(** X13. A blank term clears the search: the pending timeout is cancelled,
    the results are set to null and the searching flag is lowered, and no
    query is sent for as long as the term does not change.  It does not
    cancel a query that was sent: when the response of a query in flight
    arrives after the term was cleared, its results are shown. *)
Theorem blank_term_clears_but_not_in_flight (s : State) (term : string) :
  trim_truthy term = false ->
  let cleared := step s (TermChanged (Some term)) in
  timer cleared = None
  /\ searchResults cleared = None
  /\ isSearching cleared = false
  /\ (forall evs, quiet evs = true ->
                  issued (run evs cleared) = issued s)
  /\ (forall q found, In q (inflight s) ->
        searchResults (step cleared (Respond q found)) = Some found).
Proof.
  intros Hb cleared. unfold cleared. cbn [step]. unfold termChanged.
  rewrite Hb. cbn [timer searchResults isSearching].
  split; [reflexivity|]. split; [reflexivity|]. split; [reflexivity|]. split.
  - intros evs Hq.
    destruct (SearchFacts.quiet_idle evs
                (mk (clock s) None (issued s) (inflight s) None false)
                Hq eq_refl) as [_ H].
    exact H.
  - intros q found Hin. cbn [step]. unfold respond. cbn [inflight].
    replace (existsb (Nat.eqb q) (inflight s)) with true; [reflexivity|].
    symmetry. apply existsb_exists. exists q. split; [exact Hin|].
    apply Nat.eqb_refl.
Qed.

Lemma blank_term_clears_but_not_in_flight_witness :
  let s := run [TermChanged (Some "a"); Elapse 600] initial in
  searchResults (run [TermChanged (Some ""); Respond 0 [Sample.placed]] s)
  = Some [Sample.placed].
Proof.
  intro s.
  exact (proj2 (proj2 (proj2 (proj2
           (blank_term_clears_but_not_in_flight s "" eq_refl))))
           0%nat [Sample.placed] (or_introl eq_refl)).
Defined.

End SearchTraces.

(* ------------------------------------------------------------------ *)
(** ** The application shell *)

Module AppFacts.
Import App.

Lemma getItem_removeItem (key : string) (st : Storage) :
  getItem key (removeItem key st) = None.
Proof.
  unfold getItem, removeItem. induction st as [|[k v] st IH]; [reflexivity|].
  cbn [filter fst]. destruct (String.eqb_spec k key) as [E|E]; cbn [negb].
  - exact IH.
  - cbn [find fst]. destruct (String.eqb_spec k key); [contradiction|exact IH].
Qed.

Lemma getItem_removeItem_other (key other : string) (st : Storage) :
  other <> key -> getItem other (removeItem key st) = getItem other st.
Proof.
  intro H. unfold getItem, removeItem.
  induction st as [|[k v] st IH]; [reflexivity|].
  cbn [filter find fst]. destruct (String.eqb_spec k key) as [E|E]; cbn [negb].
  - destruct (String.eqb_spec k other); [congruence|exact IH].
  - cbn [find fst]. destruct (String.eqb_spec k other); [reflexivity|exact IH].
Qed.

Lemma getItem_setItem (key value : string) (st : Storage) :
  getItem key (setItem key value st) = Some value.
Proof. unfold getItem, setItem. cbn [find fst]. now rewrite String.eqb_refl. Qed.

Lemma getItem_setItem_other (key other value : string) (st : Storage) :
  other <> key -> getItem other (setItem key value st) = getItem other st.
Proof.
  intro H. unfold setItem.
  transitivity (getItem other (removeItem key st)).
  - unfold getItem at 1. cbn [find fst].
    destruct (String.eqb_spec key other); [congruence|reflexivity].
  - now apply getItem_removeItem_other.
Qed.

Lemma prefix_injective (p a b : string) :
  (p ++ a)%string = (p ++ b)%string -> a = b.
Proof.
  induction p as [|c p IH]; simpl; intro H; [exact H|].
  injection H as H. now apply IH.
Qed.

Lemma cache_key_other (key other : string) :
  other <> key ->
  (CACHE_KEY_PREFIX ++ other)%string <> (CACHE_KEY_PREFIX ++ key)%string.
Proof. intros H E. apply H. exact (prefix_injective _ _ _ E). Qed.

(** The plain items of the application are not items of the cache. *)
Lemma cache_key_not_plain (key : string) :
  (CACHE_KEY_PREFIX ++ key)%string <> "themeMode"
  /\ (CACHE_KEY_PREFIX ++ key)%string <> "theme".
Proof. split; discriminate. Qed.

Lemma cache_reads_back {J : JSON} (timestamp : Z) (st : Storage)
    (key : string) (data : Json) :
  parse (stringify (JObj [("timestamp", JNum timestamp); ("data", data)]))
    = Some (JObj [("timestamp", JNum timestamp); ("data", data)]) ->
  stringify (JObj [("timestamp", JNum timestamp); ("data", data)]) <> "" ->
  loadFromCache (saveToCache timestamp true st key data) key = Some data.
Proof.
  intros Hparse Hne. unfold loadFromCache, saveToCache.
  rewrite getItem_setItem. unfold truthy.
  destruct (String.eqb_spec
              (stringify (JObj [("timestamp", JNum timestamp);
                                ("data", data)])) ""); [contradiction|].
  cbn [negb]. rewrite Hparse. reflexivity.
Qed.

(** X14. What [saveToCache] stores under a key, [loadFromCache] gives back
    for that key, when the storage takes the item and the host reads its
    own serialisation of the payload back; the values cached under the
    other keys are as before.  When the storage refuses the item, nothing
    changes and nothing is reported. *)
Theorem cache_round_trip {J : JSON} (timestamp : Z) (st : Storage)
    (key : string) (data : Json) :
  let cachePayload := JObj [("timestamp", JNum timestamp); ("data", data)] in
  parse (stringify cachePayload) = Some cachePayload ->
  stringify cachePayload <> "" ->
  loadFromCache (saveToCache timestamp true st key data) key = Some data
  /\ (forall other,
        other <> key ->
        loadFromCache (saveToCache timestamp true st key data) other
        = loadFromCache st other)
  /\ (forall other,
        loadFromCache (saveToCache timestamp false st key data) other
        = loadFromCache st other).
Proof.
  intros cachePayload Hparse Hne. split; [|split].
  - now apply cache_reads_back.
  - intros other H. unfold loadFromCache, saveToCache.
    now rewrite (getItem_setItem_other _ _ _ _ (cache_key_other _ _ H)).
  - reflexivity.
Qed.

Lemma cache_round_trip_witness :
  loadFromCache (J := ShellSample.codec)
    (saveToCache (J := ShellSample.codec) 1700000000000 true
                 [("themeMode", "dark")] "CurrentUser" ShellSample.user)
    "CurrentUser"
  = Some ShellSample.user.
Proof.
  exact (proj1 (cache_round_trip (J := ShellSample.codec) 1700000000000
                  [("themeMode", "dark")] "CurrentUser" ShellSample.user
                  eq_refl ltac:(discriminate))).
Defined.

(** X15. After [logout] no user is signed in and none is cached: a start
    of the application from the storage it leaves begins signed out.  The
    other items of the storage, cached or plain, are as before; the
    sign-out is requested exactly when there is a client, and the action
    is logged only for a user that was signed in. *)
Theorem logout_forgets_the_user {J : JSON} (client : bool) (s : Auth) :
  let calls := fst (logout client s) in
  let s' := snd (logout client s) in
  currentUser s' = None
  /\ initialUser (storage s') = None
  /\ (forall key, key <> "CurrentUser" ->
        loadFromCache (storage s') key = loadFromCache (storage s) key)
  /\ initialThemeMode (storage s') = initialThemeMode (storage s)
  /\ (In SignOut calls <-> client = true)
  /\ (currentUser s = None ->
      calls = if client then [SignOut] else []).
Proof.
  intros calls s'. unfold calls, s', logout. cbn [fst snd currentUser storage].
  split; [reflexivity|]. split; [|split; [|split; [|split]]].
  - unfold initialUser, loadFromCache. now rewrite getItem_removeItem.
  - intros key H. unfold loadFromCache.
    now rewrite (getItem_removeItem_other _ _ _ (cache_key_other _ _ H)).
  - unfold initialThemeMode.
    rewrite !getItem_removeItem_other by discriminate. reflexivity.
  - rewrite in_app_iff. split.
    + intros [H|H].
      * destruct (currentUser s) as [user|]; [|contradiction].
        destruct (truthy_json user); [|contradiction].
        destruct H as [H|[]]. discriminate H.
      * destruct client; [reflexivity|contradiction].
    + intros ->. right. now left.
  - intros ->. reflexivity.
Qed.

Lemma logout_forgets_the_user_witness :
  fst (logout true (mkAuth None [("themeMode", "dark")])) = [SignOut].
Proof.
  exact (proj2 (proj2 (proj2 (proj2 (proj2
           (logout_forgets_the_user (J := ShellSample.codec) true
              (mkAuth None [("themeMode", "dark")]))))))
           eq_refl).
Defined.

Lemma member_with_member (name : string) (value : Json)
    (members : list (string * Json)) :
  member name (with_member name value members) = Some value.
Proof.
  unfold member. induction members as [|[n v] rest IH]; cbn [with_member].
  - cbn [find fst]. now rewrite String.eqb_refl.
  - destruct (String.eqb_spec n name) as [E|E]; cbn [find fst].
    + subst n. now rewrite String.eqb_refl.
    + destruct (String.eqb_spec n name); [contradiction|exact IH].
Qed.

Lemma member_with_member_other (name other : string) (value : Json)
    (members : list (string * Json)) :
  other <> name ->
  member other (with_member name value members) = member other members.
Proof.
  intro H. unfold member.
  induction members as [|[n v] rest IH]; cbn [with_member].
  - cbn [find fst]. destruct (String.eqb_spec name other); [congruence|].
    reflexivity.
  - destruct (String.eqb_spec n name) as [E|E]; cbn [find fst].
    + subst n. destruct (String.eqb_spec name other); [congruence|].
      reflexivity.
    + destruct (String.eqb_spec n other); [reflexivity|exact IH].
Qed.

(** X16. The user [checkAuth] signs in always has permissions: those of
    the profile row when it has some, the default ones otherwise; every
    other member of the row is kept as it is. *)
Theorem safe_profile_has_permissions (defaultPermissions : Json)
    (members : list (string * Json)) :
  truthy_json defaultPermissions = true ->
  exists members' permissions,
    safeProfile defaultPermissions members = JObj members'
    /\ member "permissions" members' = Some permissions
    /\ truthy_json permissions = true
    /\ (forall p, member "permissions" members = Some p ->
                  truthy_json p = true -> permissions = p)
    /\ (forall name, name <> "permissions" ->
                     member name members' = member name members).
Proof.
  intro Hd. unfold safeProfile.
  set (permissions := match member "permissions" members with
                      | Some p => if truthy_json p then p
                                  else defaultPermissions
                      | None => defaultPermissions
                      end).
  exists (with_member "permissions" permissions members), permissions.
  split; [reflexivity|]. split; [apply member_with_member|]. split; [|split].
  - unfold permissions. destruct (member "permissions" members) as [p|];
      [destruct (truthy_json p) eqn:E|]; auto.
  - intros p Hp Ht. unfold permissions. now rewrite Hp, Ht.
  - intros name H. now apply member_with_member_other.
Qed.

Lemma safe_profile_has_permissions_witness :
  exists members',
    safeProfile ShellSample.defaultPermissions ShellSample.row = JObj members'
    /\ member "permissions" members' = Some ShellSample.defaultPermissions.
Proof.
  destruct (safe_profile_has_permissions ShellSample.defaultPermissions
              ShellSample.row eq_refl) as [members' [p [H1 _]]].
  exists members'. split; [exact H1|].
  injection H1 as <-. reflexivity.
Defined.

End AppFacts.

Module SessionFacts.
Import App.

(** X17. A profile fetched by [checkAuth] is the user of the next start.
    With a session, nobody signed in, a profile row for the user of the
    session, a storage that takes the item and a host that reads its own
    serialisation back: the session and the profile are requested, the
    user signed in is the safe profile, and a start of the application
    from the storage left behind begins with that same user.  For that
    user, whose [id] is the one of the session, a second [checkAuth]
    requests the session only and changes nothing. *)
Theorem profile_cached_for_next_start {J : JSON} (timestamp : Z)
    (defaultPermissions : Json) (identity : Identity) (s : Auth)
    (userId : string) (members : list (string * Json)) :
  session identity = inr (Some userId) ->
  currentUser s = None ->
  profile identity userId = Some (JObj members) ->
  let user := safeProfile defaultPermissions members in
  let cachePayload := JObj [("timestamp", JNum timestamp); ("data", user)] in
  parse (stringify cachePayload) = Some cachePayload ->
  stringify cachePayload <> "" ->
  let first := checkAuth true timestamp true defaultPermissions identity s in
  fst first = [GetSession; GetProfile userId]
  /\ currentUser (snd first) = Some user
  /\ initialUser (storage (snd first)) = Some user
  /\ (member "id" members = Some (JStr userId) ->
      forall timestamp' room,
        checkAuth true timestamp' room defaultPermissions identity (snd first)
        = ([GetSession], snd first)).
Proof.
  intros Hsession Huser Hprofile user cachePayload Hparse Hne first.
  assert (E : first
              = ([GetSession; GetProfile userId],
                 mkAuth (Some user)
                        (saveToCache timestamp true (storage s) "CurrentUser"
                                     user))).
  { unfold first, checkAuth. cbn [negb]. rewrite Hsession, Huser, Hprofile.
    reflexivity. }
  rewrite E. cbn [fst snd currentUser storage].
  split; [reflexivity|]. split; [reflexivity|]. split.
  - unfold initialUser.
    exact (AppFacts.cache_reads_back timestamp (storage s) "CurrentUser" user
             Hparse Hne).
  - intros Hid timestamp' room. unfold checkAuth. cbn [negb currentUser].
    rewrite Hsession.
    replace (negb (truthy_json user) || other_user user userId) with false;
      [reflexivity|].
    unfold user, safeProfile, other_user. cbn [truthy_json negb orb].
    rewrite AppFacts.member_with_member_other by discriminate.
    rewrite Hid. now rewrite String.eqb_refl.
Qed.

Lemma profile_cached_for_next_start_witness :
  initialUser (J := ShellSample.codec)
    (storage (snd (checkAuth (J := ShellSample.codec) true 1700000000000 true
                     ShellSample.defaultPermissions ShellSample.identity
                     ShellSample.signedOut)))
  = Some ShellSample.user.
Proof.
  exact (proj1 (proj2 (proj2
           (profile_cached_for_next_start (J := ShellSample.codec)
              1700000000000 ShellSample.defaultPermissions
              ShellSample.identity ShellSample.signedOut "u-1"
              ShellSample.row eq_refl eq_refl eq_refl eq_refl
              ltac:(discriminate))))).
Defined.

Ltac no_sign_out :=
  solve [ repeat split; intros; auto; try congruence; try contradiction;
          match goal with
          | H : In _ _ |- _ => simpl in H; intuition congruence
          end ].

(** X18. Whatever the identity service answers, [checkAuth] touches one
    item of the storage only, the cached user: every other cached value
    and the theme are as before.  The user it leaves is nobody, the user
    there was, or the safe profile of the session's user; and when it
    ends a session whose refresh token is lost, the cached user is gone,
    so that the next start begins signed out.  A missing session signs
    the user out but leaves the cache as it is. *)
Theorem checkAuth_touches_the_cached_user_only {J : JSON} (client : bool)
    (timestamp : Z) (room : bool) (defaultPermissions : Json)
    (identity : Identity) (s : Auth) :
  let calls := fst (checkAuth client timestamp room defaultPermissions
                              identity s) in
  let s' := snd (checkAuth client timestamp room defaultPermissions
                           identity s) in
  (forall key, key <> "CurrentUser" ->
     loadFromCache (storage s') key = loadFromCache (storage s) key)
  /\ initialThemeMode (storage s') = initialThemeMode (storage s)
  /\ (currentUser s' = None
      \/ currentUser s' = currentUser s
      \/ exists userId members,
           session identity = inr (Some userId)
           /\ profile identity userId = Some (JObj members)
           /\ currentUser s' = Some (safeProfile defaultPermissions members))
  /\ (In SignOut calls ->
      currentUser s' = None /\ initialUser (storage s') = None)
  /\ (client = true -> session identity = inr None ->
      currentUser s' = None /\ storage s' = storage s).
Proof.
  intros calls s'. unfold calls, s', checkAuth.
  destruct client; cbn [negb]; [|cbn; no_sign_out].
  destruct (session identity) as [e|[userId|]] eqn:Hsession.
  - destruct (refresh_token_lost e); cbn [fst snd currentUser storage];
      [|no_sign_out].
    split; [|split; [|split; [|split]]].
    + intros key H. unfold loadFromCache.
      now rewrite (AppFacts.getItem_removeItem_other _ _ _
                     (AppFacts.cache_key_other _ _ H)).
    + unfold initialThemeMode.
      rewrite !AppFacts.getItem_removeItem_other by discriminate.
      reflexivity.
    + now left.
    + intros _. split; [reflexivity|]. unfold initialUser, loadFromCache.
      now rewrite AppFacts.getItem_removeItem.
    + discriminate.
  - destruct (match currentUser s with
              | Some user => negb (truthy_json user) || other_user user userId
              | None => true
              end); [|cbn [fst snd]; no_sign_out].
    destruct (profile identity userId) as [[| | | | |members]|] eqn:Hp;
      cbn [fst snd currentUser storage]; try no_sign_out.
    split; [|split; [|split; [|split]]].
    + intros key H. unfold saveToCache, loadFromCache.
      destruct room; [|reflexivity].
      now rewrite (AppFacts.getItem_setItem_other _ _ _ _
                     (AppFacts.cache_key_other _ _ H)).
    + unfold initialThemeMode, saveToCache. destruct room; [|reflexivity].
      rewrite !AppFacts.getItem_setItem_other by discriminate. reflexivity.
    + right. right. exists userId, members. auto.
    + intros [E|[E|[]]]; discriminate E.
    + discriminate.
  - cbn [fst snd currentUser storage]. no_sign_out.
Qed.

Lemma checkAuth_touches_the_cached_user_only_witness :
  let lost := mkIdentity
                (inl (ErrorInstance (Plain "Invalid Refresh Token: expired")))
                (fun _ => None) in
  let s := mkAuth (Some ShellSample.user)
                  (saveToCache (J := ShellSample.codec) 1700000000000 true
                               [("themeMode", "dark")] "CurrentUser"
                               ShellSample.user) in
  initialUser (J := ShellSample.codec) (storage s) = Some ShellSample.user
  /\ initialUser (J := ShellSample.codec)
       (storage (snd (checkAuth (J := ShellSample.codec) true 1700000000001
                        true ShellSample.defaultPermissions lost s)))
     = None.
Proof.
  intros lost s. split; [reflexivity|].
  refine (proj2 (proj1 (proj2 (proj2 (proj2
            (checkAuth_touches_the_cached_user_only (J := ShellSample.codec)
               true 1700000000001 true ShellSample.defaultPermissions lost
               s)))) _)).
  right. left. reflexivity.
Defined.

(** X19. [toggleTheme] goes round the three modes: from any mode it
    gives one of 'light', 'dark' and 'system', from one of these a
    different one, and three toggles give the mode back.  The mode the
    theme effect stores is the mode the next start begins with, whatever
    the older 'theme' item says. *)
Theorem theme_cycles_and_persists (themeMode : string) (st : Storage) :
  In (toggleTheme themeMode) ["light"; "dark"; "system"]
  /\ (In themeMode ["light"; "dark"; "system"] ->
      toggleTheme themeMode <> themeMode
      /\ toggleTheme (toggleTheme (toggleTheme themeMode)) = themeMode
      /\ initialThemeMode (persistTheme themeMode st) = themeMode)
  /\ initialThemeMode (persistTheme (toggleTheme themeMode) st)
     = toggleTheme themeMode.
Proof.
  assert (Hp : forall m, m <> "" ->
                 initialThemeMode (persistTheme m st) = m).
  { intros m Hm. unfold initialThemeMode, persistTheme.
    rewrite AppFacts.getItem_setItem. unfold truthy_opt, or_else, truthy.
    destruct (String.eqb_spec m ""); [contradiction|reflexivity]. }
  split; [|split].
  - unfold toggleTheme. destruct (themeMode =? "light")%string;
      [|destruct (themeMode =? "dark")%string]; simpl; auto.
  - intros [<-|[<-|[<-|[]]]]; (split; [discriminate|split; [reflexivity|]]);
      apply Hp; discriminate.
  - apply Hp. unfold toggleTheme. destruct (themeMode =? "light")%string;
      [|destruct (themeMode =? "dark")%string]; discriminate.
Qed.

Lemma theme_cycles_and_persists_witness :
  toggleTheme (toggleTheme (toggleTheme "dark")) = "dark"
  /\ initialThemeMode (persistTheme "dark" [("theme", "light")]) = "dark".
Proof.
  destruct (proj1 (proj2 (theme_cycles_and_persists "dark"
                            [("theme", "light")]))
                  (or_intror (or_introl eq_refl))) as [_ [H1 H2]].
  split; [exact H1|exact H2].
Defined.

End SessionFacts.

Module NavFacts.
Import App.




(** X21. The dock is hidden only well down the page.  From a state where
    the dock is visible, through any scrolling and any changes of view:
    whenever the dock is hidden, the main content is at the position the
    last scroll event saw, and that position is not less than 50. *)
Theorem dock_hidden_only_down_the_page (s : Nav) (moves : list Move) :
  isDockVisible s = true ->
  let s' := fold_left move moves s in
  isDockVisible s' = false ->
  lastScrollY s' = scrollTop s' /\ 50 <= scrollTop s'.
Proof.
  intros Hs s'. unfold s'. clear s'.
  assert (H : isDockVisible s = false ->
              lastScrollY s = scrollTop s /\ 50 <= scrollTop s)
    by (rewrite Hs; discriminate).
  clear Hs. revert s H. induction moves as [|m moves IH]; intros s H.
  - exact H.
  - cbn [fold_left]. apply IH. destruct m as [y|newView].
    + cbn [move]. unfold scrollTo, handleScroll.
      cbn [scrollTop lastScrollY isDockVisible].
      destruct (Z.ltb_spec 10 (y - lastScrollY s));
        destruct (Z.ltb_spec 50 y); cbn [andb];
        try (intros _; split; [reflexivity|lia]);
        destruct (Z.ltb_spec (y - lastScrollY s) (-5));
        destruct (Z.ltb_spec y 50); cbn [orb];
        try discriminate; intros _; split; try reflexivity; lia.
    + cbn [move handleViewChange isDockVisible]. discriminate.
Qed.

Lemma dock_hidden_only_down_the_page_witness :
  let s := mkNav "orders" 0 [] 0 true "" false in
  isDockVisible (fold_left move [Scroll 40; Scroll 80; Scroll 78] s) = false
  /\ 50 <= scrollTop (fold_left move [Scroll 40; Scroll 80; Scroll 78] s).
Proof.
  intro s. split; [reflexivity|].
  exact (proj2 (dock_hidden_only_down_the_page s
                  [Scroll 40; Scroll 80; Scroll 78] eq_refl eq_refl)).
Defined.

End NavFacts.

(* ------------------------------------------------------------------ *)
(** ** The login form *)

Module LoginFacts.
Import Login.

Lemma requests_app (es es' : list Effect) :
  requests (es ++ es') = requests es ++ requests es'.
Proof.
  induction es as [|e es IH]; [reflexivity|].
  destruct e; simpl; now rewrite IH.
Qed.

Lemma or_else_not_empty (s : option string) (fallback : string) :
  fallback <> "" -> or_else s fallback <> "".
Proof.
  intro H. unfold or_else, truthy. destruct s as [v|]; [|exact H].
  destruct (String.eqb_spec v ""); [exact H|assumption].
Qed.

Lemma or_else_truthy (row : option string) (fallback other : string) :
  truthy_opt row = true -> or_else row fallback = or_else row other.
Proof.
  unfold truthy_opt, or_else. destruct row as [v|]; [|discriminate].
  now intros ->.
Qed.

Lemma or_else_falsy (row : option string) (fallback : string) :
  truthy_opt row = false -> or_else row fallback = fallback.
Proof.
  unfold truthy_opt, or_else. destruct row as [v|]; [|reflexivity].
  now intros ->.
Qed.

(** Every path through the handler, one case each. *)
Ltac login_paths :=
  unfold handleLogin, signInAndLog, resolveEmail, Login.bind, Login.ret,
    Login.await, Login.emit, Login.leave, try_catch;
  repeat (cbv beta iota zeta;
          match goal with
          | |- context [match ?x with _ => _ end] =>
              lazymatch x with
              | context [match _ with _ => _ end] => fail
              | _ => destruct x eqn:?
              end
          end);
  cbv beta iota zeta.



(** X23. A sign-in is requested with the password as it was typed, not
    trimmed, and never for the setup credentials or without a client.
    The e-mail is the trimmed input when it has the form of an e-mail;
    otherwise the user name was looked up and a row was found, and the
    e-mail is the one of the row, or the input when the row has none. *)
Theorem sign_in_sends_the_typed_password (host : Host) (form : Form)
    (email pass : string) :
  In (SignIn email pass) (requests (handleLogin host form)) ->
  pass = password form
  /\ client host = true
  /\ isSetupCode host form = false
  /\ (isEmailFormat (trim (loginInput form)) = true ->
      email = trim (loginInput form))
  /\ (isEmailFormat (trim (loginInput form)) = false ->
      exists found row,
        lookup host (trim (loginInput form)) = Resolved found
        /\ data found = Some row
        /\ email = or_else row (trim (loginInput form))).
Proof.
  login_paths.
  all: cbn [requests app In].
  all: intro H; repeat match type of H with
                       | _ \/ _ => destruct H as [H|H]
                       end;
       try discriminate H; try contradiction.
  all: injection H as <- <-.
  all: repeat split; try discriminate; try reflexivity.
  all: intros _; eexists; eexists; (split; [reflexivity|]);
       (split; [eassumption|]).
  all: first [ apply or_else_truthy; assumption
             | symmetry; apply or_else_falsy; assumption ].
Qed.

Lemma sign_in_sends_the_typed_password_witness :
  requests (handleLogin ShellSample.host (mkForm " amina " " secret"))
  = [SignOut; LookupEmail "amina"; SignIn "amina@example.com" " secret";
     GetUser; GetUsername "u-1"; LogLogin "amina" "u-1"]
  /\ " secret" = password (mkForm " amina " " secret").
Proof.
  split; [reflexivity|].
  refine (proj1 (sign_in_sends_the_typed_password ShellSample.host
                   (mkForm " amina " " secret") "amina@example.com"
                   " secret" _)).
  right. right. left. reflexivity.
Defined.

(** X24. A login is logged only once it happened, and under a name.
    The entry of the activity log is requested only after a sign-in was
    accepted and the signed-in user was read, for the identifier of that
    user, and the name it is logged under is never empty. *)
Theorem login_logged_after_sign_in (host : Host) (form : Form)
    (name entityId : string) :
  In (LogLogin name entityId) (requests (handleLogin host form)) ->
  name <> ""
  /\ exists email u,
       In (SignIn email (password form)) (requests (handleLogin host form))
       /\ signIn host email (password form) = Resolved None
       /\ getUser host = Resolved (Some u)
       /\ entityId = user_id u.
Proof.
  login_paths.
  all: cbn [requests app In].
  all: intro H; repeat match type of H with
                       | _ \/ _ => destruct H as [H|H]
                       end;
       try discriminate H; try contradiction.
  all: injection H as <- <-.
  all: (split; [apply or_else_not_empty, or_else_not_empty; discriminate|]).
  all: eexists; eexists; (split; [|split; [eassumption|split; reflexivity]]).
  all: tauto.
Qed.

Lemma login_logged_after_sign_in_witness :
  exists email u,
    signIn ShellSample.host email " secret" = Resolved None
    /\ getUser ShellSample.host = Resolved (Some u)
    /\ "u-1" = user_id u.
Proof.
  destruct (login_logged_after_sign_in ShellSample.host
              (mkForm " amina " " secret") "amina" "u-1")
    as [_ [email [u [_ H]]]].
  - right. right. right. right. right. left. reflexivity.
  - exists email, u. exact H.
Defined.

End LoginFacts.

Module EmailFacts.
Import Login.

(** A white-space character at the start of a string is at the start of
    every string that extends it. *)
Lemma starts_with_space_app (x y : string) :
  starts_with_space x = true -> starts_with_space (x ++ y) = true.
Proof.
  unfold starts_with_space, space_length.
  destruct x as [|a [|b [|c x]]]; cbn [append].
  - intro H. discriminate H.
  - destruct (space1 a); [|intro H; discriminate H].
    intros _. destruct y as [|b [|c y]]; reflexivity.
  - destruct (space1 a); [intros _; destruct y; reflexivity|].
    destruct (space2 a b); [|intro H; discriminate H].
    intros _. destruct y; reflexivity.
  - intro H. exact H.
Qed.

Lemma all_plain_prefix (x y : string) :
  all_plain (x ++ y) = true -> all_plain x = true.
Proof.
  induction x as [|c x IH]; [reflexivity|]. cbn [append all_plain].
  intro H. apply andb_true_iff in H. destruct H as [H Hrest].
  apply andb_true_iff in H. destruct H as [Hs Hat].
  rewrite (IH Hrest), Hat, andb_true_r. cbn [andb].
  destruct (starts_with_space (String c x)) eqn:E; [|reflexivity].
  apply (starts_with_space_app _ y) in E. cbn [append] in E.
  rewrite E in Hs. discriminate Hs.
Qed.

Lemma all_plain_suffix (x y : string) :
  all_plain (x ++ y) = true -> all_plain y = true.
Proof.
  induction x as [|c x IH]; [trivial|]. cbn [append all_plain].
  intro H. apply andb_true_iff in H. destruct H as [_ Hrest]. auto.
Qed.

(** A byte below 128, such as the dot, is no byte but the first of a
    white-space character. *)
Lemma no_space_over_a_dot (a b : ascii) :
  space2 a "." = false /\ space3 a "." b = false /\ space3 a b "." = false.
Proof.
  unfold space2, space3.
  set (x := nat_of_ascii a). set (y := nat_of_ascii b).
  change (nat_of_ascii ".") with 46%nat. cbv beta zeta.
  cbn [Nat.eqb Nat.leb]. rewrite !andb_false_r. cbn [orb andb].
  repeat split.
Qed.

(** Joined by a dot, two strings of plain characters make one: no
    white-space character lies across the dot. *)
Lemma all_plain_dot (x y : string) :
  all_plain x = true -> all_plain y = true ->
  all_plain (x ++ String "." y) = true.
Proof.
  intros Hx Hy. induction x as [|c x IH].
  - cbn [append all_plain]. rewrite Hy.
    replace (starts_with_space (String "." y)) with false; [reflexivity|].
    destruct y as [|b [|d y]]; reflexivity.
  - cbn [all_plain] in Hx. apply andb_true_iff in Hx.
    destruct Hx as [Hx Hrest]. apply andb_true_iff in Hx.
    destruct Hx as [Hs Hat].
    cbn [append all_plain]. rewrite (IH Hrest), Hat, !andb_true_r.
    apply negb_true_iff. apply negb_true_iff in Hs.
    revert Hs. unfold starts_with_space, space_length.
    destruct x as [|b [|d x]]; cbn [append].
    + destruct (no_space_over_a_dot c c) as [H2 _].
      destruct y as [|e y]; (destruct (space1 c); [trivial|]); intros _;
        rewrite H2; [reflexivity|].
      destruct (no_space_over_a_dot c e) as [_ [H3 _]]. now rewrite H3.
    + destruct (no_space_over_a_dot c b) as [_ [_ H3]].
      destruct (space1 c); [trivial|].
      destruct (space2 c b); [trivial|]. intros _. now rewrite H3.
    + trivial.
Qed.

Lemma split_at_joins (s name domain : string) :
  split_at s = Some (name, domain) ->
  s = (name ++ String "@" domain)%string.
Proof.
  revert name. induction s as [|c s IH]; intros name H; [discriminate|].
  simpl in H. destruct (Ascii.eqb_spec c "@") as [->|_].
  - injection H as <- <-. reflexivity.
  - destruct (split_at s) as [[before after]|]; [|discriminate].
    injection H as <- <-. simpl. f_equal. now apply IH.
Qed.

Lemma split_at_plain (name domain : string) :
  all_plain name = true ->
  split_at (name ++ String "@" domain) = Some (name, domain).
Proof.
  induction name as [|c name IH]; intro H; [reflexivity|].
  cbn [all_plain] in H. apply andb_true_iff in H. destruct H as [H Hn].
  apply andb_true_iff in H. destruct H as [_ Hc].
  cbn [append split_at]. destruct (Ascii.eqb c "@"); [discriminate Hc|].
  now rewrite (IH Hn).
Qed.

Lemma dot_inside_splits (s : string) :
  dot_inside s = true ->
  exists a b, s = (a ++ String "." b)%string /\ b <> "".
Proof.
  induction s as [|c s IH]; [discriminate|]. simpl. intro H.
  apply orb_true_iff in H. destruct H as [H|H].
  - apply andb_true_iff in H. destruct H as [Hc Hs].
    apply Ascii.eqb_eq in Hc. subst c. exists "", s. split; [reflexivity|].
    intros ->. discriminate Hs.
  - destruct (IH H) as [a [b [-> Hb]]]. exists (String c a), b. now split.
Qed.

Lemma dot_inside_joined (a b : string) :
  b <> "" -> dot_inside (a ++ String "." b) = true.
Proof.
  intro Hb. induction a as [|c a IH]; simpl.
  - destruct (String.eqb_spec b ""); [contradiction|reflexivity].
  - rewrite IH. apply orb_true_r.
Qed.

(** X25. The model of the test for an e-mail accepts the language of the
    expression of the source, [^[^\s@]+@[^\s@]+\.[^\s@]+$]: the strings
    made of a name, an [@], a first part, a dot and a last part, where
    the three parts are not empty and hold neither white space nor
    [@]. *)
Theorem isEmailFormat_language (s : string) :
  isEmailFormat s = true
  <-> exists name first last,
        s = (name ++ String "@" (first ++ String "." last))%string
        /\ name <> "" /\ first <> "" /\ last <> ""
        /\ all_plain name = true
        /\ all_plain first = true
        /\ all_plain last = true.
Proof.
  unfold isEmailFormat. split.
  - destruct (split_at s) as [[name domain]|] eqn:Hsplit; [|discriminate].
    intro H. repeat (apply andb_true_iff in H; destruct H as [H ?]).
    destruct domain as [|c rest]; [discriminate|].
    destruct (dot_inside_splits rest) as [a [b [-> Hb]]]; [assumption|].
    exists name, (String c a), b.
    split; [now apply split_at_joins|].
    split; [intros ->; discriminate H|].
    split; [discriminate|]. split; [exact Hb|]. split; [assumption|].
    match goal with
    | Hp : all_plain (String c (a ++ String "." b)) = true |- _ =>
        change (String c (a ++ String "." b))
          with (String c a ++ String "." b)%string in Hp;
        split; [exact (all_plain_prefix _ _ Hp)|];
        apply all_plain_suffix in Hp; cbn [all_plain] in Hp;
        apply andb_true_iff in Hp; exact (proj2 Hp)
    end.
  - intros [name [first [last [-> [Hn [Hf [Hl [Pn [Pf Pl]]]]]]]]].
    rewrite (split_at_plain _ _ Pn).
    destruct (String.eqb_spec name ""); [contradiction|]. cbn [negb andb].
    rewrite Pn, (all_plain_dot _ _ Pf Pl). cbn [andb].
    destruct first as [|c first]; [contradiction|].
    cbn [append]. now apply dot_inside_joined.
Qed.

Lemma isEmailFormat_language_witness :
  isEmailFormat "amina@example.com" = true
  /\ isEmailFormat "amina@example" = false
  /\ isEmailFormat "a b@example.com" = false
  /\ isEmailFormat (String "a" (String "194" (String "160" "b@example.com")))
     = false.
Proof.
  split; [|repeat split; reflexivity].
  apply (proj2 (isEmailFormat_language "amina@example.com")).
  exists "amina", "example", "com".
  repeat split; try discriminate; reflexivity.
Defined.

End EmailFacts.

(* ------------------------------------------------------------------ *)
(** ** What the writes do to the rows *)

(** The member is the one the payload wrote last. *)
Ltac written_last member :=
  rewrite !app_assoc;
  repeat (rewrite apply_payload_app;
          rewrite (member_apply_payload member) by payload_leaves);
  rewrite apply_payload_app; reflexivity.

(** X26. Saving an order that has a key writes the form over the row.
    Once the update is accepted, every row with the key of the form has
    the status, the local identifier, the client, the store and the price
    of the form, the amount paid of the form when the form has one, and
    the history of the form followed by "Updated Order", whatever the row
    held; its key, tracking number, transaction fee and the two flags are
    not sent and stay; the rows with another key are as before. *)
Theorem save_writes_the_form_over_the_row (env : Env) (orderData : Order)
    (R : Remote) (i : nat) (o : Order) :
  supabase env = true ->
  truthy (id orderData) = true ->
  accepted env (saveOrderRequest env orderData) ->
  nth_error (Orders R) i = Some o ->
  exists o',
    nth_error (Orders (db_run (handleSaveOrder env orderData) R)) i = Some o'
    /\ (id o <> id orderData -> o' = o)
    /\ (id o = id orderData ->
        status o' = status orderData
        /\ localOrderId o' = localOrderId orderData
        /\ clientId o' = clientId orderData
        /\ storeId o' = storeId orderData
        /\ price o' = price orderData
        /\ (forall a, amountPaid orderData = Some a -> amountPaid o' = Some a)
        /\ history_or_empty o'
           = history_or_empty orderData
             ++ [mkEntry (now env) "Updated Order" (currentUsername env)]
        /\ id o' = id o
        /\ trackingNumber o' = trackingNumber o
        /\ transactionFee o' = transactionFee o
        /\ isInvoicePrinted o' = isInvoicePrinted o
        /\ whatsappNotificationSent o' = whatsappNotificationSent o).
Proof.
  intros Hs Hid Hacc Hrow.
  rewrite (handleSaveOrder_accepted env orderData Hs Hacc). db_step.
  unfold accepted in Hacc. revert Hacc. unfold saveOrderRequest.
  rewrite Hid. intro Hacc.
  rewrite (db_update_row _ _ _ _ _ _ Hacc Hrow). cbn [matches].
  eexists. split; [reflexivity|].
  destruct (String.eqb_spec (id o) (id orderData)) as [E|E];
    (split; [intro H|intro H; try contradiction]); [contradiction| |reflexivity].
  unfold saveOrderPayload.
  repeat split;
    try (apply member_apply_payload; payload_leaves).
  - written_last status.
  - rewrite apply_payload_app.
    rewrite (member_apply_payload localOrderId) by payload_leaves.
    reflexivity.
  - written_last clientId.
  - written_last storeId.
  - written_last price.
  - intros a Ha. rewrite Ha. cbn [nullable]. written_last amountPaid.
  - rewrite !app_assoc. rewrite history_or_empty_apply_last.
    unfold saveOrderEntry. now rewrite Hid.
Qed.

Lemma save_writes_the_form_over_the_row_witness :
  exists o',
    nth_error (Orders (db_run (handleSaveOrder Sample.env Sample.edited)
                              Sample.store5)) 0
    = Some o'
    /\ status o' = status Sample.edited
    /\ transactionFee o' = transactionFee Sample.row5.
Proof.
  destruct (save_writes_the_form_over_the_row Sample.env Sample.edited
              Sample.store5 0 Sample.row5 eq_refl eq_refl eq_refl eq_refl)
    as [o' [H1 [_ H2]]].
  exists o'. split; [exact H1|].
  destruct (H2 eq_refl) as [Hs [_ [_ [_ [_ [_ [_ [_ [_ [Hf _]]]]]]]]]].
  split; [exact Hs|exact Hf].
Defined.

Lemma find_order_dashless (orderId : string) (l : list Order) :
  includes "-" orderId = false ->
  Forall (fun o => includes "-" (id o) = true) l ->
  find_order orderId l = None.
Proof.
  intros Hd Hl. unfold find_order. induction Hl as [|o l Ho _ IH]; simpl.
  - reflexivity.
  - destruct (String.eqb_spec (id o) orderId) as [E|_]; [|exact IH].
    rewrite E in Ho. congruence.
Qed.

(** X27. A status change is addressed by the key when the identifier it is
    given holds a dash, and by the local identifier otherwise, while the
    history it sends is looked up by key only.  So, with keys that hold a
    dash, an accepted status change addressed by a local identifier
    without one leaves in every row of that local identifier a history of
    one entry, the new one, whatever the row held; the other rows are as
    before.  And an identifier with a dash that is the key of no row
    changes no row, although the change is reported as done. *)
Theorem status_change_by_local_identifier (env : Env) (page : Page)
    (orderId : string) (payload : Payload.t) (R : Remote) :
  supabase env = true ->
  accepted env (statusChangeRequest env page orderId payload) ->
  let effs := handleUpdateOrderStatus env page orderId payload in
  shown effs = [(Fixed StatusUpdatedText, success)]
  /\ (includes "-" orderId = false ->
      Forall (fun o => includes "-" (id o) = true) (orders page) ->
      forall i o,
        nth_error (Orders R) i = Some o ->
        exists o',
          nth_error (Orders (db_run effs R)) i = Some o'
          /\ (localOrderId o = orderId ->
              history_or_empty o' = [statusChangeEntry env payload])
          /\ (localOrderId o <> orderId -> o' = o))
  /\ (includes "-" orderId = true ->
      (forall o, In o (Orders R) -> id o <> orderId) ->
      Orders (db_run effs R) = Orders R).
Proof.
  intros Hs Hacc effs. unfold effs.
  rewrite (handleUpdateOrderStatus_accepted env page orderId payload Hs Hacc).
  split; [reflexivity|]. db_step. unfold accepted in Hacc. split.
  - intros Hd Hkeys i o Hrow. unfold statusChangeRequest in *.
    rewrite (db_update_row _ _ _ _ _ _ Hacc Hrow).
    unfold statusChangeFilter. rewrite Hd. cbn [matches].
    eexists. split; [reflexivity|].
    destruct (String.eqb_spec (localOrderId o) orderId) as [E|E];
      (split; [intro H|intro H; try contradiction]);
      [|contradiction|reflexivity].
    unfold statusChangePayload.
    rewrite (find_order_dashless orderId (orders page) Hd Hkeys).
    rewrite !app_assoc. now rewrite history_or_empty_apply_last.
  - intros Hd Hnone. unfold statusChangeRequest, db_call in *.
    rewrite Hacc. cbn [Orders]. unfold statusChangeFilter. rewrite Hd.
    cbn [matches]. induction (Orders R) as [|o l IH]; [reflexivity|].
    cbn [map]. destruct (String.eqb_spec (id o) orderId) as [E|_].
    + exfalso. apply (Hnone o); [now left|exact E].
    + f_equal. apply IH. intros o' Ho'. apply Hnone. now right.
Qed.

Lemma status_change_by_local_identifier_witness :
  let page := page_showing [Sample.row2] None in
  let effs := handleUpdateOrderStatus Sample.env page "FCD-12"
                (Payload.only_status "STORED") in
  shown effs = [(Fixed StatusUpdatedText, success)]
  /\ Orders (db_run effs Sample.store2) = Orders Sample.store2.
Proof.
  intros page effs.
  destruct (status_change_by_local_identifier Sample.env page "FCD-12"
              (Payload.only_status "STORED") Sample.store2 eq_refl eq_refl)
    as [H1 [_ H2]].
  split; [exact H1|]. apply H2; [reflexivity|].
  intros o [<-|[]]. discriminate.
Defined.

(** X28. A payment is registered for the selected order, whatever
    identifier the handler is given: the effects do not depend on it.
    Once both writes are accepted, the ledger has one more row, for the
    key of the selected order and the amount paid; the rows with another
    key are as before; and in the rows with that key the status, the
    price, the local identifier, the tracking number and the two flags
    are as before. *)
Theorem payment_is_for_the_selected_order {T : NumberText}
    (env : Env) (page : Page)
    (orderId : string) (details : Details.t) (selected : Order) (R : Remote) :
  supabase env = true ->
  selectedOrder page = Some selected ->
  accepted env (paymentLedgerRequest env selected details) ->
  accepted env (paymentOrderRequest env selected details) ->
  let R' := db_run (handlePaymentConfirm env page orderId details) R in
  (forall other, handlePaymentConfirm env page other details
                 = handlePaymentConfirm env page orderId details)
  /\ (exists row,
        OrderPayments R' = OrderPayments R ++ [row]
        /\ Payment.order_id row = id selected
        /\ Payment.amount row = Details.amountPaid details)
  /\ (forall i o,
        nth_error (Orders R) i = Some o ->
        exists o',
          nth_error (Orders R') i = Some o'
          /\ (id o <> id selected -> o' = o)
          /\ id o' = id o
          /\ status o' = status o
          /\ price o' = price o
          /\ localOrderId o' = localOrderId o
          /\ trackingNumber o' = trackingNumber o
          /\ isInvoicePrinted o' = isInvoicePrinted o
          /\ whatsappNotificationSent o' = whatsappNotificationSent o).
Proof.
  intros Hs Hsel H1 H2 R'. split; [reflexivity|].
  unfold R'. rewrite (payment_in_store env page orderId details selected R
                        Hs Hsel H1 H2).
  cbn [Orders OrderPayments]. split.
  - eexists. split; [reflexivity|]. split; reflexivity.
  - intros i o Hrow. rewrite nth_error_map, Hrow. cbn [option_map].
    eexists. split; [reflexivity|].
    destruct (String.eqb_spec (id o) (id selected)) as [E|E].
    + split; [intro H; contradiction|]. destruct o; repeat split.
    + repeat split.
Qed.

Lemma payment_is_for_the_selected_order_witness :
  let page := page_showing [Sample.row1] (Some Sample.row1) in
  exists row,
    OrderPayments (db_run (handlePaymentConfirm (T := Sample.digits)
                             Sample.env page "another"
                             (Details.mk 300 "Bankily" None 0 0))
                          Sample.store1)
    = OrderPayments Sample.store1 ++ [row]
    /\ Payment.order_id row = id Sample.row1.
Proof.
  intro page.
  destruct (payment_is_for_the_selected_order (T := Sample.digits)
              Sample.env page "another"
              (Details.mk 300 "Bankily" None 0 0) Sample.row1 Sample.store1
              eq_refl eq_refl eq_refl eq_refl)
    as [_ [[row [Hrow [Hid _]]] _]].
  exists row. split; [exact Hrow|exact Hid].
Defined.
